(** * pygit2.c: the object-model layer over libgit2, embedded in Rocq

    The C extension module [pygit2.c] wraps libgit2 handles in Python
    objects.  This development embeds the functions of that file as
    state-passing definitions over a [World] (CPython's error indicator,
    the Python heap with its reference counts, and libgit2's objects),
    and proves the properties of identifier parsing, repository lookup,
    tree indexing and mutation, and tag targets.

    libgit2 and CPython are external to the file.  Their functions are
    modelled in [Module Git] and [Module Py]; the bodies of the functions
    of [pygit2.c] follow the C text statement by statement. *)

From Stdlib Require Import ZArith NArith String Ascii List Lia Bool.
From stdpp Require Import base option list gmap strings.

Local Open Scope Z_scope.

(** ** C integers (LP64): [long] and [size_t] have 64 bits, [int] has 32 *)

Module CInt.

Definition LONG_BITS : Z := 64.
Definition INT_BITS : Z := 32.
Definition INT_MAX : Z := 2 ^ (INT_BITS - 1) - 1.
Definition INT_MIN : Z := - 2 ^ (INT_BITS - 1).
Definition LONG_MAX : Z := 2 ^ (LONG_BITS - 1) - 1.
Definition LONG_MIN : Z := - 2 ^ (LONG_BITS - 1).

(** Conversion to a signed type of [bits] bits: reduction modulo
    [2^bits] into [[-2^(bits-1), 2^(bits-1))]. *)
Definition to_signed (bits : Z) (z : Z) : Z :=
  (z + 2 ^ (bits - 1)) mod 2 ^ bits - 2 ^ (bits - 1).

(** Conversion to an unsigned type of [bits] bits. *)
Definition to_unsigned (bits : Z) (z : Z) : Z := z mod 2 ^ bits.

Definition to_long : Z -> Z := to_signed LONG_BITS.
Definition to_int : Z -> Z := to_signed INT_BITS.
Definition to_size_t : Z -> Z := to_unsigned LONG_BITS.

End CInt.

(** ** libgit2: result codes, object types, identifiers *)

Module Git.

(** The negative result codes of [<git/errors.h>] that [pygit2.c] names;
    [GIT_EOTHER] stands for every other negative code. *)
Inductive git_error : Type :=
| GIT_ENOTOID
| GIT_ENOTFOUND
| GIT_ENOMEM
| GIT_EOSERR
| GIT_EOBJTYPE
| GIT_EOBJCORRUPTED
| GIT_EOTHER (code : Z).

(** The object types of [<git/common.h>] that [pygit2.c] names. *)
Inductive git_otype : Type :=
| GIT_OBJ_ANY
| GIT_OBJ_BAD
| GIT_OBJ_COMMIT
| GIT_OBJ_TREE
| GIT_OBJ_BLOB
| GIT_OBJ_TAG.

#[global] Instance git_otype_eq_dec : EqDecision git_otype.
Proof. solve_decision. Defined.

(** The numbers of the object types, as git assigns them. *)
Definition otype_code (t : git_otype) : Z :=
  match t with
  | GIT_OBJ_ANY => -2
  | GIT_OBJ_BAD => -1
  | GIT_OBJ_COMMIT => 1
  | GIT_OBJ_TREE => 2
  | GIT_OBJ_BLOB => 3
  | GIT_OBJ_TAG => 4
  end.

(** A [git_oid]: the raw bytes of an identifier, most significant first. *)
Definition git_oid : Type := list N.

Definition GIT_OID_RAWSZ : nat := 20.
Definition GIT_OID_HEXSZ : nat := 40.

(** Exactly 20 bytes. *)
Definition oid_wf (oid : git_oid) : Prop :=
  List.length oid = GIT_OID_RAWSZ /\ Forall (fun b => (b < 256)%N) oid.

(** The value of a hexadecimal digit, in either letter case. *)
Definition from_hex (c : ascii) : option N :=
  let n := N_of_ascii c in
  if ((48 <=? n) && (n <=? 57))%N then Some (n - 48)%N
  else if ((97 <=? n) && (n <=? 102))%N then Some (n - 87)%N
  else if ((65 <=? n) && (n <=? 70))%N then Some (n - 55)%N
  else None.

(** The lowercase hexadecimal digit of a value below 16. *)
Definition to_hex (v : N) : ascii :=
  if (v <? 10)%N then ascii_of_N (48 + v) else ascii_of_N (87 + v).

Definition is_hex (c : ascii) : bool :=
  match from_hex c with Some _ => true | None => false end.

Fixpoint all_hex (s : string) : bool :=
  match s with
  | EmptyString => true
  | String c r => is_hex c && all_hex r
  end.

(** The text is exactly 40 hexadecimal characters. *)
Definition is_hex40 (s : string) : bool :=
  (String.length s =? GIT_OID_HEXSZ)%nat && all_hex s.

Fixpoint hex_pairs (s : string) : option (list N) :=
  match s with
  | EmptyString => Some []
  | String _ EmptyString => None
  | String hi (String lo r) =>
      match from_hex hi, from_hex lo, hex_pairs r with
      | Some h, Some l, Some bs => Some ((16 * h + l)%N :: bs)
      | _, _, _ => None
      end
  end.

(** Modelled from the spec: libgit2's [git_oid_mkstr], which is not part
    of [src/].  "parse(text) -> ObjectId: fails with InvalidIdentifier
    unless text is exactly 40 hexadecimal characters"; "40 hex characters
    <-> 20 raw bytes, case-insensitive on input". *)
Definition git_oid_mkstr (str : string) : git_error + git_oid :=
  if (String.length str =? GIT_OID_HEXSZ)%nat then
    match hex_pairs str with
    | Some oid => inr oid
    | None => inl GIT_ENOTOID
    end
  else inl GIT_ENOTOID.

(** Modelled from the spec: libgit2's [git_oid_fmt], which is not part of
    [src/].  "format(id) -> text: total, always lowercase, always 40
    characters": two lowercase digits per byte. *)
Fixpoint git_oid_fmt (oid : git_oid) : string :=
  match oid with
  | [] => EmptyString
  | b :: r =>
      String (to_hex (b / 16)%N) (String (to_hex (b mod 16)%N) (git_oid_fmt r))
  end.

End Git.

(** ** Text helpers *)

Definition to_lower (c : ascii) : ascii :=
  let n := N_of_ascii c in
  if ((65 <=? n) && (n <=? 90))%N then ascii_of_N (n + 32) else c.

(** The lowercase form of a text. *)
Fixpoint lowercase (s : string) : string :=
  match s with
  | EmptyString => EmptyString
  | String c r => String (to_lower c) (lowercase r)
  end.

Definition is_lower_hex (c : ascii) : bool :=
  let n := N_of_ascii c in
  ((48 <=? n) && (n <=? 57) || (97 <=? n) && (n <=? 102))%N.

Fixpoint all_lower_hex (s : string) : bool :=
  match s with
  | EmptyString => true
  | String c r => is_lower_hex c && all_lower_hex r
  end.

(** The C string a buffer holds: its characters before the first NUL. *)
Fixpoint c_str (s : string) : string :=
  match s with
  | EmptyString => EmptyString
  | String c r => if Ascii.eqb c "000" then EmptyString else String c (c_str r)
  end.

(** ** Python values, exceptions and the objects of the module *)

Module Py.

(** Addresses of instances of the module's types ([PyObject *]), of
    libgit2 objects ([git_object *]) and of repositories
    ([git_repository *]). *)
Abbreviation addr := nat (only parsing).
Abbreviation gptr := nat (only parsing).
Abbreviation rptr := nat (only parsing).

Inductive exception : Type :=
| PyExc_TypeError
| PyExc_ValueError
| PyExc_KeyError
| PyExc_IndexError
| PyExc_MemoryError
| PyExc_RuntimeError
| PyExc_OverflowError
| PyExc_UnicodeEncodeError
| GitError.

(** What the slot [nb_int] of a value's type answers when CPython calls
    it: an [int] or a [long] of some value, an exception, or a result
    that is no integer. *)
Inductive nb_int_result : Type :=
| nb_int_value (n : Z)
| nb_int_raises (e : exception)
| nb_int_other.

(** The values the module's functions receive (Python 2).  A [str]
    carries its characters, a NUL among them or not; a [unicode] carries
    its default encoding, when it has one; an [int] (a [bool] is one)
    carries its C [long]; a [long] carries its value; [PyInstance] is an
    instance of one of the types the module registers.  Of the values of
    any other type, known by the [tp_name] of the type, [PyNumber] is one
    whose type fills the slot [nb_int] (a [float], for which [is_float]
    holds, a [Decimal], an instance of a class with [__int__]), with what
    the slot answers for it, the call being one that leaves the objects
    of the module alone, and [PyOther] is one whose type leaves the slot
    empty. *)
Inductive PyObject : Type :=
| PyString (s : string)
| PyUnicode (encoded : option string)
| PyInt (n : Z)
| PyLong (n : Z)
| PyNone
| PyInstance (a : addr)
| PyOther (tp_name : string)
| PyNumber (tp_name : string) (is_float : bool) (nb_int : nb_int_result).

(** What an exception carries: the object given to [PyErr_SetObject], the
    text given to [PyErr_SetString] or built by [PyErr_Format], nothing
    ([PyErr_SetNone], [PyErr_NoMemory]), the pair built from [errno]
    ([PyErr_SetFromErrno]), or what CPython's own conversion routines,
    and the slots they call, choose. *)
Inductive exc_value : Type :=
| ExcObject (o : PyObject)
| ExcString (msg : string)
| ExcNone
| ExcErrno
| ExcInternal.

Record PyErr : Type := mkErr { exc_type : exception; exc_val : exc_value }.

(** The types registered by [initpygit2]. *)
Inductive PyTypeObject : Type :=
| RepositoryType
| ObjectType
| CommitType
| TreeEntryType
| TreeType
| BlobType
| TagType.

#[global] Instance PyTypeObject_eq_dec : EqDecision PyTypeObject.
Proof. solve_decision. Defined.

Definition tp_name (t : PyTypeObject) : string :=
  match t with
  | RepositoryType => "pygit2.Repository"
  | ObjectType => "pygit2.Object"
  | CommitType => "pygit2.Commit"
  | TreeEntryType => "pygit2.TreeEntry"
  | TreeType => "pygit2.Tree"
  | BlobType => "pygit2.Blob"
  | TagType => "pygit2.Tag"
  end.

(** [tp_base], as [initpygit2] assigns it before [PyType_Ready]. *)
Definition tp_base (t : PyTypeObject) : option PyTypeObject :=
  match t with
  | RepositoryType => None
  | ObjectType => None
  | CommitType => Some ObjectType
  | TreeEntryType => Some ObjectType
  | TreeType => Some ObjectType
  | BlobType => Some ObjectType
  | TagType => Some ObjectType
  end.

(** [PyType_IsSubtype]: the chain of bases has at most one link here. *)
Definition PyType_IsSubtype (a b : PyTypeObject) : bool :=
  bool_decide (a = b)
  || match tp_base a with
     | Some a' => bool_decide (a' = b)
     | None => false
     end.

(** The fields that [OBJECT_STRUCT] declares after [PyObject_HEAD]; [None]
    is the null pointer. *)
Record Object : Type := mkObject {
  repo : option addr;
  own_obj : bool;
  obj : option gptr
}.

(** The C structs of the module, by layout.  A [Tag] starts with the
    fields of an [Object], so that the casts of the source between
    [Tag *] and [Object *] read the same fields. *)
Inductive PyStruct : Type :=
| Repository_struct (repo : option rptr)
| Object_struct (o : Object)
| Tag_struct (o : Object) (target : option addr)
| TreeEntry_struct (entry : option nat) (tree : option addr).

Record PyInst : Type := mkInst {
  ob_refcnt : Z;
  ob_type : PyTypeObject;
  ob_struct : PyStruct
}.

(** The struct [tp_alloc] returns: all fields zero. *)
Definition zeroed (t : PyTypeObject) : PyStruct :=
  match t with
  | RepositoryType => Repository_struct None
  | TreeEntryType => TreeEntry_struct None None
  | TagType => Tag_struct (mkObject None false None) None
  | _ => Object_struct (mkObject None false None)
  end.

(** The view of a struct through an [Object *]. *)
Definition as_Object (s : PyStruct) : option Object :=
  match s with
  | Object_struct o => Some o
  | Tag_struct o _ => Some o
  | _ => None
  end.

Definition with_Object (s : PyStruct) (o : Object) : PyStruct :=
  match s with
  | Tag_struct _ t => Tag_struct o t
  | _ => Object_struct o
  end.

End Py.

(** ** libgit2 objects and the state of the process *)

Module Export State.
Import Git Py.

Record git_tree_entry : Type := mkEntry {
  filename : string;
  attributes : Z;
  entry_id : git_oid
}.

(** What libgit2 keeps for an object, by type.  A tree is the sequence of
    its entries; a tag has its target and the target's type. *)
Inductive git_body : Type :=
| Commit_body
| Blob_body
| Tree_body (entries : list git_tree_entry)
| Tag_body (target : option gptr) (type : git_otype).

(** A [git_object]: [object_id] is [None] while the object is in memory
    only (never written), as [git_object_id] reports it. *)
Record git_object : Type := mkGitObject {
  object_id : option git_oid;
  object_owner : rptr;
  body : git_body
}.

Record git_rawobj : Type := mkRaw {
  raw_type : git_otype;
  raw_data : string
}.

(** A repository: the objects a lookup finds, and what a raw read of the
    object database answers. *)
Record git_repository : Type := mkRepo {
  objects : gmap git_oid gptr;
  odb : gmap git_oid (git_error + git_rawobj)
}.

(** The state of the process: CPython's error indicator, the instances
    of the module's types, libgit2's objects and repositories, and the
    number of allocations that can still succeed. *)
Record World : Type := mkWorld {
  py_err : option PyErr;
  py_heap : gmap addr PyInst;
  git_heap : gmap gptr git_object;
  git_repos : gmap rptr git_repository;
  mem : nat
}.

Definition set_py_err (e : option PyErr) (w : World) : World :=
  mkWorld e (py_heap w) (git_heap w) (git_repos w) (mem w).
Definition set_py_heap (h : gmap addr PyInst) (w : World) : World :=
  mkWorld (py_err w) h (git_heap w) (git_repos w) (mem w).
Definition set_git_heap (h : gmap gptr git_object) (w : World) : World :=
  mkWorld (py_err w) (py_heap w) h (git_repos w) (mem w).
Definition set_git_repos (r : gmap rptr git_repository) (w : World) : World :=
  mkWorld (py_err w) (py_heap w) (git_heap w) r (mem w).
Definition set_mem (n : nat) (w : World) : World :=
  mkWorld (py_err w) (py_heap w) (git_heap w) (git_repos w) n.

(** Computations over the world.  [None] is a run the model does not
    describe: a null or dangling pointer dereferenced, a failed
    [assert], or recursion deeper than the fuel given. *)
Definition M (A : Type) : Type := World -> option (A * World).

Definition ret {A} (a : A) : M A := fun w => Some (a, w).
Definition bind {A B} (m : M A) (k : A -> M B) : M B :=
  fun w => match m w with
           | Some (a, w') => k a w'
           | None => None
           end.
Definition undefined {A} : M A := fun _ => None.
Definition get_world : M World := fun w => Some (w, w).
Definition modify (f : World -> World) : M unit := fun w => Some (tt, f w).

(** Dereference: a null pointer is outside the model. *)
Definition nonnull {A} (p : option A) : M A :=
  match p with
  | Some a => ret a
  | None => undefined
  end.

End State.

Declare Scope M_scope.
Delimit Scope M_scope with M.
Notation "'let*' x ':=' m 'in' k" := (bind m (fun x => k))
  (at level 10, x name, m at level 100, k at level 200) : M_scope.
Notation "m ';;' k" := (bind m (fun _ => k))
  (at level 100, k at level 200, right associativity) : M_scope.
Local Open Scope M_scope.

(** ** The CPython calls of the file *)

Module CPython.
Import Git Py CInt.

Definition get_inst (a : addr) : M PyInst :=
  fun w => match py_heap w !! a with
           | Some i => Some (i, w)
           | None => None
           end.

Definition put_inst (a : addr) (i : PyInst) : M unit :=
  modify (fun w => set_py_heap (<[a := i]> (py_heap w)) w).

Definition PyErr_Occurred : M bool :=
  fun w => Some (match py_err w with Some _ => true | None => false end, w).

(** Setting the error indicator replaces what it held. *)
Definition PyErr_Set (t : exception) (v : exc_value) : M unit :=
  modify (set_py_err (Some (mkErr t v))).

Definition PyErr_SetString (t : exception) (msg : string) : M unit :=
  PyErr_Set t (ExcString msg).
Definition PyErr_SetObject (t : exception) (o : PyObject) : M unit :=
  PyErr_Set t (ExcObject o).
Definition PyErr_SetNone (t : exception) : M unit :=
  PyErr_Set t ExcNone.

(** Both return [NULL]. *)
Definition PyErr_NoMemory {A} : M (option A) :=
  PyErr_Set PyExc_MemoryError ExcNone ;; ret None.
Definition PyErr_SetFromErrno {A} (t : exception) : M (option A) :=
  PyErr_Set t ExcErrno ;; ret None.

(** [PyErr_Format], given the text its format and arguments build. *)
Definition PyErr_Format (t : exception) (msg : string) : M unit :=
  PyErr_Set t (ExcString msg).

(** The conversion [%.200s] of [PyErr_Format]. *)
Definition s200 (s : string) : string := substring 0 200 s.

Definition PyString_Check (o : PyObject) : bool :=
  match o with PyString _ => true | _ => false end.

Definition PyInt_Check (o : PyObject) : bool :=
  match o with PyInt _ => true | _ => false end.

(** The text of a value that has one: the characters of a [str], the
    default encoding of a [unicode]. *)
Definition text_of (o : PyObject) : option string :=
  match o with
  | PyString s => Some s
  | PyUnicode (Some s) => Some s
  | _ => None
  end.

(** The C string of a value that has one: what a [char *] to the buffer
    of its text shows, the characters before the first NUL. *)
Definition c_string (o : PyObject) : option string :=
  match text_of o with
  | Some s => Some (c_str s)
  | None => None
  end.

(** [PyString_AsString]: the C string of a [str] or of a [unicode]; [NULL]
    with [UnicodeEncodeError] raised for a [unicode] that has no default
    encoding, and with [TypeError] raised for any other value. *)
Definition PyString_AsString (o : PyObject) : M (option string) :=
  match c_string o with
  | Some s => ret (Some s)
  | None =>
      PyErr_Set
        (match o with
         | PyUnicode _ => PyExc_UnicodeEncodeError
         | _ => PyExc_TypeError
         end) ExcInternal ;;
      ret None
  end.

(** The macro [PyString_AS_STRING] checks nothing; the [char *] it gives
    is read as a C string. *)
Definition PyString_AS_STRING (o : PyObject) : M string :=
  match o with
  | PyString s => ret (c_str s)
  | _ => undefined
  end.

Definition PyString_FromStringAndSize (buf : string) (n : nat) : PyObject :=
  PyString (substring 0 n buf).

(** [PyInt_AsLong]: the [long] of an [int]; for a value whose type
    fills [nb_int], a [long] among them, the integer the slot answers if
    it fits a [long] ([-1] with [OverflowError] raised when it does not),
    and [-1] with the slot's exception, or with a [TypeError] when the
    answer is no integer; for any other value [-1], with a [TypeError]
    raised. *)
Definition PyInt_AsLong (o : PyObject) : M Z :=
  match o with
  | PyInt n => ret n
  | PyLong n | PyNumber _ _ (nb_int_value n) =>
      if (LONG_MIN <=? n) && (n <=? LONG_MAX) then ret n
      else PyErr_Set PyExc_OverflowError ExcInternal ;; ret (-1)
  | PyNumber _ _ (nb_int_raises e) => PyErr_Set e ExcInternal ;; ret (-1)
  | _ => PyErr_Set PyExc_TypeError ExcInternal ;; ret (-1)
  end.

Definition PyFloat_Check (o : PyObject) : bool :=
  match o with PyNumber _ f _ => f | _ => false end.

Definition PyInt_FromLong (n : Z) : PyObject := PyInt n.

(** [o->ob_type->tp_name]. *)
Definition ob_type_name (o : PyObject) : M string :=
  match o with
  | PyString _ => ret "str"%string
  | PyUnicode _ => ret "unicode"%string
  | PyInt _ => ret "int"%string
  | PyLong _ => ret "long"%string
  | PyNone => ret "NoneType"%string
  | PyOther n => ret n
  | PyNumber n _ _ => ret n
  | PyInstance a => let* i := get_inst a in ret (tp_name (ob_type i))
  end.

Definition PyObject_TypeCheck (o : PyObject) (t : PyTypeObject) : M bool :=
  match o with
  | PyInstance a => let* i := get_inst a in ret (PyType_IsSubtype (ob_type i) t)
  | _ => ret false
  end.

(** [tp_alloc] ([PyType_GenericAlloc]): a zeroed instance with one
    reference, or [NULL] with [MemoryError] raised. *)
Definition tp_alloc (t : PyTypeObject) : M (option addr) :=
  fun w =>
    match mem w with
    | O => Some (None, set_py_err (Some (mkErr PyExc_MemoryError ExcNone)) w)
    | S n =>
        let a := fresh (dom (py_heap w)) in
        Some (Some a,
              set_mem n (set_py_heap (<[a := mkInst 1 t (zeroed t)]> (py_heap w)) w))
    end.

Definition tp_free (a : addr) : M unit :=
  modify (fun w => set_py_heap (delete a (py_heap w)) w).

Definition Py_INCREF (a : addr) : M unit :=
  let* i := get_inst a in
  put_inst a (mkInst (ob_refcnt i + 1) (ob_type i) (ob_struct i)).

(** [PyArg_ParseTuple(args, "O", &o)]. *)
Definition PyArg_ParseTuple_O (args : list PyObject) : M (option PyObject) :=
  match args with
  | [o] => ret (Some o)
  | _ => PyErr_Set PyExc_TypeError ExcInternal ;; ret None
  end.

(** [seterror] of [getargs.c]: a conversion that failed raises
    [TypeError], unless an exception is set already. *)
Definition seterror : M unit :=
  let* failed := PyErr_Occurred in
  if failed then ret tt else PyErr_Set PyExc_TypeError ExcInternal.

(** The format unit [s]: the C string of a [str] or of the default
    encoding of a [unicode]; a text with a NUL inside, whose [strlen] is
    not its size, is refused, and so is any other value. *)
Definition convert_s (arg : PyObject) : M (option string) :=
  match arg with
  | PyString s | PyUnicode (Some s) =>
      if (String.length (c_str s) =? String.length s)%nat then ret (Some (c_str s))
      else seterror ;; ret None
  | PyUnicode None =>
      PyErr_Set PyExc_UnicodeEncodeError ExcInternal ;; seterror ;; ret None
  | _ => seterror ;; ret None
  end.

(** The format unit [i] (CPython 2.7): a [float] is refused; any other
    value goes through [PyInt_AsLong], and the [long] must fit a C
    [int]. *)
Definition convert_i (arg : PyObject) : M (option Z) :=
  if PyFloat_Check arg then
    PyErr_Set PyExc_TypeError ExcInternal ;; seterror ;; ret None
  else
    let* ival := PyInt_AsLong arg in
    let* failed := PyErr_Occurred in
    if (ival =? -1) && failed then seterror ;; ret None
    else if ival >? INT_MAX then
      PyErr_Set PyExc_OverflowError ExcInternal ;; seterror ;; ret None
    else if ival <? INT_MIN then
      PyErr_Set PyExc_OverflowError ExcInternal ;; seterror ;; ret None
    else ret (Some ival).

(** [PyArg_ParseTuple(args, "Osi", &o, &s, &i)]: three arguments,
    converted from left to right. *)
Definition PyArg_ParseTuple_Osi (args : list PyObject)
  : M (option (PyObject * string * Z)) :=
  match args with
  | [o; name; attr] =>
      let* s := convert_s name in
      match s with
      | None => ret None
      | Some s =>
          let* i := convert_i attr in
          match i with
          | None => ret None
          | Some i => ret (Some (o, s, i))
          end
      end
  | _ => PyErr_Set PyExc_TypeError ExcInternal ;; ret None
  end.

(** Field access through the casts of the source. *)
Definition get_Object (a : addr) : M Object :=
  let* i := get_inst a in nonnull (as_Object (ob_struct i)).

Definition put_Object (a : addr) (o : Object) : M unit :=
  let* i := get_inst a in
  put_inst a (mkInst (ob_refcnt i) (ob_type i) (with_Object (ob_struct i) o)).

Definition set_repo (a : addr) (r : option addr) : M unit :=
  let* o := get_Object a in put_Object a (mkObject r (own_obj o) (obj o)).
Definition set_own_obj (a : addr) (b : bool) : M unit :=
  let* o := get_Object a in put_Object a (mkObject (repo o) b (obj o)).
Definition set_obj (a : addr) (p : option gptr) : M unit :=
  let* o := get_Object a in put_Object a (mkObject (repo o) (own_obj o) p).

(** [self->obj], [self->tree], [self->tag], [self->blob], [self->commit]:
    the handle, which the source never tests for [NULL]. *)
Definition get_obj (a : addr) : M gptr :=
  let* o := get_Object a in nonnull (obj o).

(** [self->target] of a [Tag *]. *)
Definition get_target (a : addr) : M (option addr) :=
  let* i := get_inst a in
  match ob_struct i with
  | Tag_struct _ t => ret t
  | _ => undefined
  end.

Definition put_target (a : addr) (t : option addr) : M unit :=
  let* i := get_inst a in
  match ob_struct i with
  | Tag_struct o _ => put_inst a (mkInst (ob_refcnt i) (ob_type i) (Tag_struct o t))
  | _ => undefined
  end.

(** [self->repo] of a [Repository *]. *)
Definition get_Repository (a : addr) : M rptr :=
  let* i := get_inst a in
  match ob_struct i with
  | Repository_struct r => nonnull r
  | _ => undefined
  end.

End CPython.

(** ** The libgit2 calls of the file *)

Module Libgit2.
Import Git Py CInt.

Definition get_git (p : gptr) : M git_object :=
  fun w => match git_heap w !! p with
           | Some o => Some (o, w)
           | None => None
           end.

Definition put_git (p : gptr) (o : git_object) : M unit :=
  modify (fun w => set_git_heap (<[p := o]> (git_heap w)) w).

Definition get_repo (r : rptr) : M git_repository :=
  fun w => match git_repos w !! r with
           | Some x => Some (x, w)
           | None => None
           end.

Definition body_type (b : git_body) : git_otype :=
  match b with
  | Commit_body => GIT_OBJ_COMMIT
  | Blob_body => GIT_OBJ_BLOB
  | Tree_body _ => GIT_OBJ_TREE
  | Tag_body _ _ => GIT_OBJ_TAG
  end.

(** The body of a new object of a type; a new tag has no target. *)
Definition new_body (t : git_otype) : option git_body :=
  match t with
  | GIT_OBJ_COMMIT => Some Commit_body
  | GIT_OBJ_BLOB => Some Blob_body
  | GIT_OBJ_TREE => Some (Tree_body [])
  | GIT_OBJ_TAG => Some (Tag_body None GIT_OBJ_BAD)
  | _ => None
  end.

(** Modelled from the spec: libgit2's [git_object_type], not part of
    [src/]: "type() -> TypeCode - total, no failure". *)
Definition git_object_type (p : gptr) : M git_otype :=
  let* o := get_git p in ret (body_type (body o)).

(** Modelled from the spec: libgit2's [git_object_id], not part of
    [src/]: the identifier, "absent for an Owned object that has never
    been written" ([NULL] for an in-memory object). *)
Definition git_object_id (p : gptr) : M (option git_oid) :=
  let* o := get_git p in ret (object_id o).

(** Modelled from the spec: libgit2's [git_object_new], not part of
    [src/]: "creates an empty ... object of the given variant bound to
    repository; fails ... if the store cannot allocate working
    storage". *)
Definition git_object_new (r : rptr) (t : git_otype) : M (option gptr) :=
  fun w =>
    match mem w, new_body t with
    | S n, Some b =>
        let p := fresh (dom (git_heap w)) in
        Some (Some p,
              set_mem n (set_git_heap (<[p := mkGitObject None r b]> (git_heap w)) w))
    | _, _ => Some (None, w)
    end.

(** Modelled from the spec: libgit2's [git_object_free], not part of
    [src/]: "release(handle)". *)
Definition git_object_free (p : gptr) : M unit :=
  modify (fun w => set_git_heap (delete p (git_heap w)) w).

(** Modelled from the spec: libgit2's [git_repository_free], not part of
    [src/]: "releases the underlying store handle". *)
Definition git_repository_free (r : rptr) : M unit :=
  modify (fun w => set_git_repos (delete r (git_repos w)) w).

Definition type_matches (filter t : git_otype) : bool :=
  bool_decide (filter = GIT_OBJ_ANY) || bool_decide (filter = t).

(** Modelled from the spec: libgit2's [git_repository_lookup], not part
    of [src/]: "lookup(id, type_filter) -> handle | absent". *)
Definition git_repository_lookup (r : rptr) (oid : git_oid) (filter : git_otype)
  : M (option gptr) :=
  let* x := get_repo r in
  match objects x !! oid with
  | None => ret None
  | Some p =>
      let* t := git_object_type p in
      ret (if type_matches filter t then Some p else None)
  end.

(** Modelled from the spec: libgit2's [git_odb_exists], not part of
    [src/]: "exists(id) -> bool". *)
Definition git_odb_exists (r : rptr) (oid : git_oid) : M Z :=
  let* x := get_repo r in
  ret (match odb x !! oid with Some _ => 1 | None => 0 end).

(** Modelled from the spec: libgit2's [git_odb_read], not part of
    [src/]: "read(id) -> (type, bytes) | error". *)
Definition git_odb_read (r : rptr) (oid : git_oid) : M (git_error + git_rawobj) :=
  let* x := get_repo r in
  ret (match odb x !! oid with
       | Some res => res
       | None => inl GIT_ENOTFOUND
       end).

(** The entries of the tree at [p]; the cast [(git_tree * )] of another
    object is outside the model. *)
Definition get_entries (p : gptr) : M (list git_tree_entry) :=
  let* o := get_git p in
  match body o with
  | Tree_body es => ret es
  | _ => undefined
  end.

Definition put_entries (p : gptr) (es : list git_tree_entry) : M unit :=
  let* o := get_git p in
  put_git p (mkGitObject (object_id o) (object_owner o) (Tree_body es)).

(** The first slot whose entry has the name. *)
Fixpoint find_name (name : string) (es : list git_tree_entry) : option nat :=
  match es with
  | [] => None
  | e :: r =>
      if String.eqb (filename e) name then Some O
      else match find_name name r with
           | Some i => Some (S i)
           | None => None
           end
  end.

(** Modelled from the spec: libgit2's [git_tree_entrycount], not part of
    [src/]: "length() -> integer: current entry count". *)
Definition git_tree_entrycount (p : gptr) : M Z :=
  let* es := get_entries p in ret (to_size_t (Z.of_nat (List.length es))).

(** Modelled from the spec: libgit2's [git_tree_entry_byindex], not part
    of [src/]: the entry at a position of the "ordered sequence of
    entries", [NULL] outside of it. *)
Definition git_tree_entry_byindex (p : gptr) (idx : Z) : M (option nat) :=
  let* es := get_entries p in
  ret (if (0 <=? idx) && (idx <? Z.of_nat (List.length es))
       then Some (Z.to_nat idx) else None).

(** Modelled from the spec: libgit2's [git_tree_entry_byname], not part
    of [src/]: "a name (exact match ...)", [NULL] if absent. *)
Definition git_tree_entry_byname (p : gptr) (name : string) : M (option nat) :=
  let* es := get_entries p in ret (find_name name es).

(** Modelled from the spec: libgit2's [git_tree_remove_entry_byindex],
    not part of [src/]: "removes the matching entry, decrementing length
    by one". *)
Definition git_tree_remove_entry_byindex (p : gptr) (idx : Z)
  : M (git_error + unit) :=
  let* es := get_entries p in
  if (0 <=? idx) && (idx <? Z.of_nat (List.length es)) then
    put_entries p (delete (Z.to_nat idx) es) ;; ret (inr tt)
  else ret (inl GIT_ENOTFOUND).

(** Modelled from the spec: libgit2's [git_tree_remove_entry_byname],
    not part of [src/]: "removes the matching entry, decrementing length
    by one"; an error when no entry has the name. *)
Definition git_tree_remove_entry_byname (p : gptr) (name : string)
  : M (git_error + unit) :=
  let* es := get_entries p in
  match find_name name es with
  | Some i => put_entries p (delete i es) ;; ret (inr tt)
  | None => ret (inl GIT_ENOTFOUND)
  end.

(** Modelled from the spec: libgit2's [git_tree_add_entry], not part of
    [src/]: "inserts or appends the entry; fails ... if the store cannot
    grow the tree's internal storage".  The entry is appended. *)
Definition git_tree_add_entry (p : gptr) (oid : git_oid) (name : string)
  (attr : Z) : M (git_error + unit) :=
  let* es := get_entries p in
  let* w := get_world in
  match mem w with
  | O => ret (inl GIT_ENOMEM)
  | S n =>
      modify (set_mem n) ;;
      put_entries p (es ++ [mkEntry name attr oid]) ;;
      ret (inr tt)
  end.

(** The target and its type of the tag at [p]. *)
Definition get_tag (p : gptr) : M (option gptr * git_otype) :=
  let* o := get_git p in
  match body o with
  | Tag_body t ty => ret (t, ty)
  | _ => undefined
  end.

(** Modelled from the spec: libgit2's [git_tag_target], not part of
    [src/]: the target object, "None until set". *)
Definition git_tag_target (p : gptr) : M (option gptr) :=
  let* x := get_tag p in ret (fst x).

(** Modelled from the spec: libgit2's [git_tag_type], not part of
    [src/]: "the stored type enumeration of the target". *)
Definition git_tag_type (p : gptr) : M git_otype :=
  let* x := get_tag p in ret (snd x).

(** Modelled from the spec: libgit2's [git_tag_set_target], not part of
    [src/]: "updates the underlying tag's stored target", and with it the
    stored type of the target. *)
Definition git_tag_set_target (p : gptr) (target : gptr) : M unit :=
  let* _ := get_tag p in
  let* o := get_git p in
  let* ty := git_object_type target in
  put_git p (mkGitObject (object_id o) (object_owner o) (Tag_body (Some target) ty)).

End Libgit2.

(** ** What the file takes from outside as it is

    [PyObject_Repr] and [PyObject_Str] as the C strings of the texts they
    return, [None] when they raise;
    libgit2's [git_strerror]; and the answer of the object store to a
    write: an error, or the identifier it assigns and the bytes it keeps. *)

Class Externals : Type := {
  PyObject_Repr : Py.PyObject -> option string;
  PyObject_Str : Py.PyObject -> option string;
  git_strerror : Git.git_error -> string;
  store_write : git_object -> Git.git_error + (Git.git_oid * git_rawobj)
}.

(** ** The functions of pygit2.c *)

Section pygit2.
Import Git Py CInt CPython Libgit2.

Context {ext : Externals}.

(** Modelled from the spec: libgit2's [git_object_write], not part of
    [src/]: "write(object) -> id | error"; "serializes current in-memory
    state to the store, assigning or updating the identifier on
    success". *)
Definition git_object_write (p : gptr) : M (git_error + unit) :=
  let* o := get_git p in
  match store_write o with
  | inl e => ret (inl e)
  | inr (oid, raw) =>
      let* x := get_repo (object_owner o) in
      put_git p (mkGitObject (Some oid) (object_owner o) (body o)) ;;
      modify (fun w =>
        set_git_repos
          (<[object_owner o :=
               mkRepo (<[oid := p]> (objects x)) (<[oid := inr raw]> (odb x))]>
             (git_repos w)) w) ;;
      ret (inr tt)
  end.

Definition Error_set {A} (err : git_error) : M (option A) :=
  match err with
  | GIT_ENOMEM => let* _ := PyErr_NoMemory (A:=A) in ret tt
  | GIT_EOSERR => let* _ := PyErr_SetFromErrno (A:=A) GitError in ret tt
  | GIT_EOBJTYPE => PyErr_SetString GitError "Invalid object type."
  | _ => PyErr_Format GitError (git_strerror err)
  end ;;
  ret None.

Definition Error_set_py_str {A} (err : git_error) (py_str : PyObject)
  : M (option A) :=
  match err with
  | GIT_ENOTOID =>
      if negb (PyString_Check py_str) then
        let* n := ob_type_name py_str in
        PyErr_Format PyExc_TypeError ("Hex SHA must be str, not " +:+ s200 n)
      else
        match PyObject_Repr py_str with
        | Some repr => PyErr_Format PyExc_ValueError ("Invalid hex SHA: " +:+ repr)
        | None =>
            PyErr_SetString PyExc_ValueError "Invalid hex SHA: <error in __repr__>"
        end
  | GIT_ENOTFOUND => PyErr_SetObject PyExc_KeyError py_str
  | GIT_EOBJCORRUPTED =>
      match PyObject_Str py_str with
      | Some repr => PyErr_Format GitError ("Corrupted object: " +:+ repr)
      | None => PyErr_SetString GitError "Corrupted object: <error in __str__>"
      end
  | _ => let* _ := Error_set (A:=A) err in ret tt
  end ;;
  ret None.

Definition py_str_to_git_oid (py_str : PyObject) : M (git_error + git_oid) :=
  let* hex := PyString_AsString py_str in
  match hex with
  | None => ret (inl GIT_ENOTOID)
  | Some hex => ret (git_oid_mkstr hex)
  end.

Definition Repository_contains (self : addr) (value : PyObject) : M Z :=
  let* err := py_str_to_git_oid value in
  match err with
  | inl err => let* _ := Error_set_py_str (A:=unit) err value in ret (-1)
  | inr oid => let* r := get_Repository self in git_odb_exists r oid
  end.

(** [wrap_tag] and [wrap_object] call each other; [wrap_tag] takes the
    recursive call as [wrap].  The target handed to [wrap_object] is read
    there at once by [git_object_type]. *)
Definition wrap_tag (wrap : gptr -> addr -> M (option addr))
  (tag : gptr) (repo : addr) : M (option addr) :=
  let* py_tag := tp_alloc TagType in
  match py_tag with
  | None => ret None
  | Some py_tag =>
      let* target := git_tag_target tag in
      let* target := nonnull target in
      let* py_target := wrap target repo in
      match py_target with
      | None => tp_free py_tag ;; ret None
      | Some py_target =>
          put_target py_tag (Some py_target) ;;
          Py_INCREF py_target ;;
          ret (Some py_tag)
      end
  end.

Fixpoint wrap_object_rec (fuel : nat) (obj : gptr) (repo : addr)
  : M (option addr) :=
  match fuel with
  | O => undefined
  | S fuel =>
      let* t := git_object_type obj in
      let* py_obj :=
        match t with
        | GIT_OBJ_COMMIT => tp_alloc CommitType
        | GIT_OBJ_TREE => tp_alloc TreeType
        | GIT_OBJ_BLOB => tp_alloc BlobType
        | GIT_OBJ_TAG => wrap_tag (wrap_object_rec fuel) obj repo
        | _ => undefined
        end in
      match py_obj with
      | None => PyErr_NoMemory
      | Some py_obj =>
          set_obj py_obj (Some obj) ;;
          set_repo py_obj (Some repo) ;;
          Py_INCREF repo ;;
          ret (Some py_obj)
      end
  end.

(** A chain of tags without a cycle is no longer than the number of
    libgit2 objects; on a cycle the C recursion does not return. *)
Definition wrap_object (obj : gptr) (repo : addr) : M (option addr) :=
  fun w => wrap_object_rec (S (size (git_heap w))) obj repo w.

Definition Repository_getitem (self : addr) (value : PyObject)
  : M (option PyObject) :=
  let* err := py_str_to_git_oid value in
  match err with
  | inl err => Error_set_py_str err value
  | inr oid =>
      let* r := get_Repository self in
      let* obj := git_repository_lookup r oid GIT_OBJ_ANY in
      match obj with
      | None => Error_set_py_str GIT_ENOTFOUND value
      | Some obj =>
          let* py_obj := wrap_object obj self in
          match py_obj with
          | None => ret None
          | Some py_obj =>
              set_own_obj py_obj false ;;
              ret (Some (PyInstance py_obj))
          end
      end
  end.

Definition Repository_read_raw (repo : rptr) (oid : git_oid)
  : M (git_error + git_rawobj) :=
  git_odb_read repo oid.

(** *** Reference counts and deallocation *)

Definition Repository_dealloc (self : addr) : M unit :=
  let* i := get_inst self in
  match ob_struct i with
  | Repository_struct r =>
      match r with
      | Some r => git_repository_free r
      | None => ret tt
      end ;;
      tp_free self
  | _ => undefined
  end.

Definition XDECREF_with (decref : addr -> M unit) (p : option addr) : M unit :=
  match p with
  | Some a => decref a
  | None => ret tt
  end.

Definition Object_dealloc (decref : addr -> M unit) (self : addr) : M unit :=
  let* o := get_Object self in
  (if own_obj o then let* p := nonnull (obj o) in git_object_free p else ret tt) ;;
  XDECREF_with decref (repo o) ;;
  tp_free self.

Definition TreeEntry_dealloc (decref : addr -> M unit) (self : addr) : M unit :=
  let* i := get_inst self in
  match ob_struct i with
  | TreeEntry_struct _ tree => XDECREF_with decref tree ;; tp_free self
  | _ => undefined
  end.

Definition Tag_dealloc (decref : addr -> M unit) (self : addr) : M unit :=
  let* target := get_target self in
  XDECREF_with decref target ;;
  tp_free self.

(** [tp_dealloc] after [PyType_Ready]: [Commit], [Tree] and [Blob] leave
    the slot empty and inherit it from [Object]. *)
Definition tp_dealloc (t : PyTypeObject) (decref : addr -> M unit) (self : addr)
  : M unit :=
  match t with
  | RepositoryType => Repository_dealloc self
  | TreeEntryType => TreeEntry_dealloc decref self
  | TagType => Tag_dealloc decref self
  | _ => Object_dealloc decref self
  end.

(** [Py_DECREF]: the count goes down by one, and at zero the object is
    handed to its [tp_dealloc], which may release further references. *)
Fixpoint Py_DECREF_rec (fuel : nat) (a : addr) : M unit :=
  let* i := get_inst a in
  put_inst a (mkInst (ob_refcnt i - 1) (ob_type i) (ob_struct i)) ;;
  if ob_refcnt i - 1 =? 0 then
    match fuel with
    | O => undefined
    | S fuel => tp_dealloc (ob_type i) (Py_DECREF_rec fuel) a
    end
  else ret tt.

(** Every deallocation brings the count of one more instance to zero, so
    there are no more of them than instances. *)
Definition Py_DECREF (a : addr) : M unit :=
  fun w => Py_DECREF_rec (size (py_heap w)) a w.

Definition Py_XDECREF (p : option addr) : M unit := XDECREF_with Py_DECREF p.

(** *** Object *)

Definition Object_get_type (self : addr) : M (option PyObject) :=
  let* p := get_obj self in
  let* t := git_object_type p in
  ret (Some (PyInt_FromLong (otype_code t))).

Definition Object_get_sha (self : addr) : M (option PyObject) :=
  let* p := get_obj self in
  let* id := git_object_id p in
  match id with
  | None => ret (Some PyNone)
  | Some id =>
      let hex := git_oid_fmt id in
      ret (Some (PyString_FromStringAndSize hex GIT_OID_HEXSZ))
  end.

Definition Object_read_raw (self : addr) : M (option PyObject) :=
  let* p := get_obj self in
  let* id := git_object_id p in
  match id with
  | None => ret (Some PyNone)
  | Some id =>
      let* o := get_Object self in
      let* repo := nonnull (repo o) in
      let* r := get_Repository repo in
      let* err := Repository_read_raw r id in
      match err with
      | inl err =>
          let* py_sha := Object_get_sha self in
          let* py_sha := nonnull py_sha in
          Error_set_py_str err py_sha
      | inr raw =>
          ret (Some (PyString_FromStringAndSize (raw_data raw)
                       (String.length (raw_data raw))))
      end
  end.

Definition Object_write (self : addr) : M (option PyObject) :=
  let* p := get_obj self in
  let* err := git_object_write p in
  match err with
  | inl err =>
      let* py_sha := Object_get_sha self in
      let* py_sha := nonnull py_sha in
      Error_set_py_str err py_sha
  | inr _ => ret (Some PyNone)
  end.

(** [kwds] is [NULL] or a dictionary. *)
Definition Object_init_with_type (py_obj : addr) (type : git_otype)
  (args : list PyObject) (kwds : option (list (string * PyObject))) : M Z :=
  match kwds with
  | Some _ =>
      let* n := ob_type_name (PyInstance py_obj) in
      PyErr_Format PyExc_TypeError (n +:+ " takes no keyword arugments") ;;
      ret (-1)
  | None =>
      let* repo := PyArg_ParseTuple_O args in
      match repo with
      | None => ret (-1)
      | Some repo =>
          let* ok := PyObject_TypeCheck repo RepositoryType in
          if negb ok then
            let* n := ob_type_name repo in
            PyErr_Format PyExc_TypeError
              ("repo argument must be " +:+ s200 (tp_name RepositoryType)
               +:+ ", not " +:+ s200 n) ;;
            ret (-1)
          else
            match repo with
            | PyInstance repo =>
                let* r := get_Repository repo in
                let* obj := git_object_new r type in
                match obj with
                | None => PyErr_SetNone PyExc_MemoryError ;; ret (-1)
                | Some obj =>
                    Py_INCREF repo ;;
                    set_repo py_obj (Some repo) ;;
                    set_own_obj py_obj true ;;
                    set_obj py_obj (Some obj) ;;
                    ret 0
                end
            | _ => undefined
            end
      end
  end.

Definition Commit_init (py_commit : addr) args kwds : M Z :=
  Object_init_with_type py_commit GIT_OBJ_COMMIT args kwds.
Definition Tree_init (py_tree : addr) args kwds : M Z :=
  Object_init_with_type py_tree GIT_OBJ_TREE args kwds.
Definition Blob_init (py_blob : addr) args kwds : M Z :=
  Object_init_with_type py_blob GIT_OBJ_BLOB args kwds.
Definition Tag_init (py_tag : addr) args kwds : M Z :=
  Object_init_with_type py_tag GIT_OBJ_TAG args kwds.

(** Calling a type: [tp_new] ([PyType_GenericNew]) and then [tp_init];
    when [tp_init] fails the new instance is released. *)
Definition type_call (t : PyTypeObject)
  (init : addr -> list PyObject -> option (list (string * PyObject)) -> M Z)
  (args : list PyObject) (kwds : option (list (string * PyObject)))
  : M (option addr) :=
  let* a := tp_alloc t in
  match a with
  | None => ret None
  | Some a =>
      let* r := init a args kwds in
      if r <? 0 then Py_DECREF a ;; ret None else ret (Some a)
  end.

(** *** Tree *)

Definition Tree_len (self : addr) : M Z :=
  let* tree := get_obj self in
  let* len := git_tree_entrycount tree in
  ret (to_long len).

Definition Tree_contains (self : addr) (py_name : PyObject) : M Z :=
  let* name := PyString_AsString py_name in
  match name with
  | None => ret 0
  | Some name =>
      let* tree := get_obj self in
      let* entry := git_tree_entry_byname tree name in
      ret (match entry with Some _ => 1 | None => 0 end)
  end.

Definition wrap_tree_entry (entry : nat) (tree : addr) : M (option addr) :=
  let* py_entry := tp_alloc TreeEntryType in
  match py_entry with
  | None => ret None
  | Some py_entry =>
      let* i := get_inst py_entry in
      put_inst py_entry
        (mkInst (ob_refcnt i) (ob_type i) (TreeEntry_struct (Some entry) (Some tree))) ;;
      Py_INCREF tree ;;
      ret (Some py_entry)
  end.

Definition Tree_getitem_by_name (self : addr) (py_name : PyObject)
  : M (option addr) :=
  let* name := PyString_AS_STRING py_name in
  let* tree := get_obj self in
  let* entry := git_tree_entry_byname tree name in
  match entry with
  | None => PyErr_SetObject PyExc_KeyError py_name ;; ret None
  | Some entry => wrap_tree_entry entry self
  end.

Definition Tree_fix_index (self : addr) (py_index : PyObject) : M Z :=
  let* index := PyInt_AsLong py_index in
  let* failed := PyErr_Occurred in
  if failed then ret (-1)
  else
    let* tree := get_obj self in
    let* len := git_tree_entrycount tree in
    let slen := to_long len in
    if index >=? slen then
      PyErr_SetObject PyExc_IndexError py_index ;; ret (-1)
    else if index <? - slen then
      PyErr_SetObject PyExc_IndexError py_index ;; ret (-1)
    else
      (* size_t + long is computed in size_t and stored into the long *)
      let index := if index <? 0 then to_long (to_size_t (len + index)) else index in
      ret (to_int index).

Definition Tree_getitem_by_index (self : addr) (py_index : PyObject)
  : M (option addr) :=
  let* index := Tree_fix_index self py_index in
  let* failed := PyErr_Occurred in
  if failed then ret None
  else
    let* tree := get_obj self in
    let* entry := git_tree_entry_byindex tree index in
    match entry with
    | None => PyErr_SetObject PyExc_IndexError py_index ;; ret None
    | Some entry => wrap_tree_entry entry self
    end.

Definition Tree_getitem (self : addr) (value : PyObject) : M (option addr) :=
  if PyString_Check value then Tree_getitem_by_name self value
  else if PyInt_Check value then Tree_getitem_by_index self value
  else
    PyErr_SetString PyExc_TypeError "Expected int or str for tree index." ;;
    ret None.

Definition Tree_delitem_by_name (self : addr) (name : PyObject) : M Z :=
  let* s := PyString_AS_STRING name in
  let* tree := get_obj self in
  let* err := git_tree_remove_entry_byname tree s in
  match err with
  | inl _ => PyErr_SetObject PyExc_KeyError name ;; ret (-1)
  | inr _ => ret 0
  end.

Definition Tree_delitem_by_index (self : addr) (py_index : PyObject) : M Z :=
  let* index := Tree_fix_index self py_index in
  let* failed := PyErr_Occurred in
  if failed then ret (-1)
  else
    let* tree := get_obj self in
    let* err := git_tree_remove_entry_byindex tree index in
    match err with
    | inl _ => PyErr_SetObject PyExc_IndexError py_index ;; ret (-1)
    | inr _ => ret 0
    end.

(** [mp_ass_subscript]: [value] is [NULL] for a deletion. *)
Definition Tree_delitem (self : addr) (name : PyObject) (value : option PyObject)
  : M Z :=
  match value with
  | Some _ =>
      PyErr_SetString PyExc_ValueError
        "Cannot set TreeEntry directly; use add_entry." ;;
      ret (-1)
  | None =>
      if PyString_Check name then Tree_delitem_by_name self name
      else if PyInt_Check name then Tree_delitem_by_index self name
      else
        PyErr_SetString PyExc_TypeError "Expected int or str for tree index." ;;
        ret (-1)
  end.

Definition Tree_add_entry (self : addr) (args : list PyObject)
  : M (option PyObject) :=
  let* parsed := PyArg_ParseTuple_Osi args in
  match parsed with
  | None => ret None
  | Some (py_sha, name, attributes) =>
      let* err := py_str_to_git_oid py_sha in
      match err with
      | inl err => Error_set_py_str err py_sha
      | inr oid =>
          let* tree := get_obj self in
          let* r := git_tree_add_entry tree oid name attributes in
          match r with
          | inl _ => PyErr_NoMemory
          | inr _ => ret (Some PyNone)
          end
      end
  end.

(** *** Tag *)

Definition Tag_get_target (self : addr) : M (option PyObject) :=
  let* tag := get_obj self in
  let* target := git_tag_target tag in
  match target with
  | None => ret (Some PyNone)
  | Some target =>
      let* o := get_Object self in
      let* repo := nonnull (repo o) in
      let* py_obj := wrap_object target repo in
      ret (match py_obj with
           | Some a => Some (PyInstance a)
           | None => None
           end)
  end.

(** The setter receives whatever is assigned; past the type check it
    reads it through an [Object *]. *)
Definition Tag_set_target (self : addr) (target : PyObject) : M Z :=
  let* ok := PyObject_TypeCheck target ObjectType in
  if negb ok then
    let* n := ob_type_name target in
    PyErr_Format PyExc_TypeError
      ("target must be " +:+ s200 (tp_name ObjectType) +:+ ", not " +:+ s200 n) ;;
    ret (-1)
  else
    match target with
    | PyInstance target =>
        let* old := get_target self in
        Py_XDECREF old ;;
        put_target self (Some target) ;;
        Py_INCREF target ;;
        let* tag := get_obj self in
        let* obj := get_obj target in
        git_tag_set_target tag obj ;;
        ret 0
    | _ => undefined
    end.

Definition Tag_get_target_type (self : addr) : M (option PyObject) :=
  let* target := get_target self in
  match target with
  | None => ret (Some PyNone)
  | Some _ =>
      let* tag := get_obj self in
      let* t := git_tag_type tag in
      ret (Some (PyInt_FromLong (otype_code t)))
  end.

End pygit2.

(** ** The rest of pygit2.c: raw reads, repository handles, tree entries,
    text attributes *)

(** What is on disk: the repository a path leads to, if it is the root of
    one.  A path is a C string: it holds no NUL. *)
Class Filesystem : Type := {
  repository_at : string -> option git_repository;
  repository_at_C_string :
    forall path x, repository_at path = Some x -> c_str path = path
}.

Module CPython2.
Import Git Py CInt CPython.

(** [PyString_FromString] copies a C string. *)
Definition PyString_FromString (s : string) : PyObject := PyString (c_str s).

(** [Py_BuildValue("(ns#)", n, s, len)]: the items of the tuple it
    builds, an [int] and a [str]. *)
Definition Py_BuildValue_ns (n : Z) (s : string) (len : nat) : list PyObject :=
  [PyInt_FromLong n; PyString_FromStringAndSize s len].

(** [PyArg_ParseTuple(args, "s", &path)]: one argument, converted by the
    format unit [s]. *)
Definition PyArg_ParseTuple_s (args : list PyObject) : M (option string) :=
  match args with
  | [o] => convert_s o
  | _ => PyErr_Set PyExc_TypeError ExcInternal ;; ret None
  end.

(** [self->repo = r] of a [Repository *]. *)
Definition put_Repository (a : addr) (r : option rptr) : M unit :=
  let* i := get_inst a in
  match ob_struct i with
  | Repository_struct _ =>
      put_inst a (mkInst (ob_refcnt i) (ob_type i) (Repository_struct r))
  | _ => undefined
  end.

(** [self->entry] of a [TreeEntry *]: a pointer into the storage of the
    libgit2 tree behind [self->tree], here the tree and the slot. *)
Definition get_entry (a : addr) : M (gptr * nat) :=
  let* i := get_inst a in
  match ob_struct i with
  | TreeEntry_struct entry tree =>
      let* slot := nonnull entry in
      let* tree := nonnull tree in
      let* p := get_obj tree in
      ret (p, slot)
  | _ => undefined
  end.

(** [self->tree] of a [TreeEntry *]. *)
Definition get_tree (a : addr) : M addr :=
  let* i := get_inst a in
  match ob_struct i with
  | TreeEntry_struct _ tree => nonnull tree
  | _ => undefined
  end.

End CPython2.

Module Libgit2_more.
Import Git Py CInt CPython Libgit2.

(** Modelled from the spec: libgit2's [git_repository_open], not part of
    [src/]: "open(path) -> Repository: fails ... if path is not a valid
    repository root"; the handle is a new one. *)
Definition git_repository_open {fs : Filesystem} (path : string) : M (option rptr) :=
  fun w =>
    match repository_at path with
    | Some x =>
        let r := fresh (dom (git_repos w)) in
        Some (Some r, set_git_repos (<[r := x]> (git_repos w)) w)
    | None => Some (None, w)
    end.

(** The entry a [git_tree_entry *] points at; a slot past the entries of
    the tree is a dangling pointer. *)
Definition read_entry (e : gptr * nat) : M git_tree_entry :=
  let* es := get_entries (fst e) in nonnull (es !! snd e).

Definition write_entry (e : gptr * nat) (x : git_tree_entry) : M unit :=
  let* es := get_entries (fst e) in
  let* _ := nonnull (es !! snd e) in
  put_entries (fst e) (<[snd e := x]> es).

(** Modelled from the spec: libgit2's [git_tree_entry_attributes],
    [git_tree_entry_name] and [git_tree_entry_id], not part of [src/]:
    "get/set accessors operating directly on the underlying slot". *)
Definition git_tree_entry_attributes (e : gptr * nat) : M Z :=
  let* x := read_entry e in ret (attributes x).
Definition git_tree_entry_name (e : gptr * nat) : M string :=
  let* x := read_entry e in ret (filename x).
Definition git_tree_entry_id (e : gptr * nat) : M git_oid :=
  let* x := read_entry e in ret (entry_id x).

(** Modelled from the spec: libgit2's [git_tree_entry_set_attributes],
    [git_tree_entry_set_name] and [git_tree_entry_set_id], not part of
    [src/]: "get/set accessors operating directly on the underlying
    slot". *)
Definition git_tree_entry_set_attributes (e : gptr * nat) (attr : Z) : M unit :=
  let* x := read_entry e in write_entry e (mkEntry (filename x) attr (entry_id x)).
Definition git_tree_entry_set_name (e : gptr * nat) (name : string) : M unit :=
  let* x := read_entry e in write_entry e (mkEntry name (attributes x) (entry_id x)).
Definition git_tree_entry_set_id (e : gptr * nat) (oid : git_oid) : M unit :=
  let* x := read_entry e in write_entry e (mkEntry (filename x) (attributes x) oid).

(** Modelled from the spec: libgit2's [git_tree_entry_2object], not part
    of [src/]: "resolves the entry's target through the owning tree's
    Repository", [NULL] for "a dangling reference". *)
Definition git_tree_entry_2object (e : gptr * nat) : M (option gptr) :=
  let* x := read_entry e in
  let* t := get_git (fst e) in
  git_repository_lookup (object_owner t) (entry_id x) GIT_OBJ_ANY.

End Libgit2_more.

Section pygit2_more.
Import Git Py CInt CPython Libgit2 CPython2 Libgit2_more.

Context {ext : Externals} {fs : Filesystem}.

(** *** Repository *)

Definition Repository_init (self : addr) (args : list PyObject)
  (kwds : option (list (string * PyObject))) : M Z :=
  match kwds with
  | Some _ =>
      PyErr_SetString PyExc_TypeError "Repository takes no keyword arugments" ;;
      ret (-1)
  | None =>
      let* path := PyArg_ParseTuple_s args in
      match path with
      | None => ret (-1)
      | Some path =>
          let* r := git_repository_open path in
          put_Repository self r ;;
          match r with
          | None =>
              PyErr_Format PyExc_RuntimeError
                ("Failed to open repo directory at " +:+ path) ;;
              ret (-1)
          | Some _ => ret 0
          end
      end
  end.

Definition Repository_read (self : addr) (py_hex : PyObject)
  : M (option (list PyObject)) :=
  let* err := py_str_to_git_oid py_hex in
  match err with
  | inl err => Error_set_py_str err py_hex
  | inr oid =>
      let* r := get_Repository self in
      let* err := Repository_read_raw r oid in
      match err with
      | inl err => Error_set_py_str err py_hex
      | inr raw =>
          ret (Some (Py_BuildValue_ns (otype_code (raw_type raw)) (raw_data raw)
                       (String.length (raw_data raw))))
      end
  end.

(** The [tp_init] slots of the type objects. *)
Definition tp_init (t : PyTypeObject)
  : option (addr -> list PyObject -> option (list (string * PyObject)) -> M Z) :=
  match t with
  | RepositoryType => Some Repository_init
  | CommitType => Some Commit_init
  | TreeType => Some Tree_init
  | BlobType => Some Blob_init
  | TagType => Some Tag_init
  | ObjectType => None
  | TreeEntryType => None
  end.

(** *** TreeEntry *)

Definition TreeEntry_get_attributes (self : addr) : M (option PyObject) :=
  let* e := get_entry self in
  let* a := git_tree_entry_attributes e in
  ret (Some (PyInt_FromLong a)).

(** The value is stored into an [unsigned int] before the error test. *)
Definition TreeEntry_set_attributes (self : addr) (value : PyObject) : M Z :=
  let* v := PyInt_AsLong value in
  let attributes := to_unsigned INT_BITS v in
  let* failed := PyErr_Occurred in
  if failed then ret (-1)
  else
    let* e := get_entry self in
    git_tree_entry_set_attributes e attributes ;;
    ret 0.

Definition TreeEntry_get_name (self : addr) : M (option PyObject) :=
  let* e := get_entry self in
  let* n := git_tree_entry_name e in
  ret (Some (PyString_FromString n)).

Definition TreeEntry_set_name (self : addr) (value : PyObject) : M Z :=
  let* name := PyString_AsString value in
  match name with
  | None => ret (-1)
  | Some name =>
      let* e := get_entry self in
      git_tree_entry_set_name e name ;;
      ret 0
  end.

Definition TreeEntry_get_sha (self : addr) : M (option PyObject) :=
  let* e := get_entry self in
  let* id := git_tree_entry_id e in
  ret (Some (PyString_FromStringAndSize (git_oid_fmt id) GIT_OID_HEXSZ)).

Definition TreeEntry_set_sha (self : addr) (value : PyObject) : M Z :=
  let* err := py_str_to_git_oid value in
  match err with
  | inl err => let* _ := Error_set_py_str (A:=unit) err value in ret (-1)
  | inr oid =>
      let* e := get_entry self in
      git_tree_entry_set_id e oid ;;
      ret 0
  end.

Definition TreeEntry_to_object (self : addr) : M (option PyObject) :=
  let* e := get_entry self in
  let* obj := git_tree_entry_2object e in
  match obj with
  | None =>
      let* id := git_tree_entry_id e in
      let py_hex := PyString_FromStringAndSize (git_oid_fmt id) GIT_OID_HEXSZ in
      PyErr_SetObject PyExc_KeyError py_hex ;;
      ret None
  | Some obj =>
      let* tree := get_tree self in
      let* o := get_Object tree in
      let* repo := nonnull (repo o) in
      let* py_obj := wrap_object obj repo in
      ret (match py_obj with
           | Some a => Some (PyInstance a)
           | None => None
           end)
  end.

End pygit2_more.

(** *** The text attributes of tags and commits

    libgit2 keeps the name and the message of a tag and the message of a
    commit; its getters and setters are taken as they are. *)

Section text_attributes.
Import Git Py CInt CPython Libgit2 CPython2.

Variable git_commit_message : gptr -> M (option string).
Variable git_commit_set_message : gptr -> string -> M unit.
Variable git_tag_name : gptr -> M (option string).
Variable git_tag_set_name : gptr -> string -> M unit.
Variable git_tag_message : gptr -> M (option string).
Variable git_tag_set_message : gptr -> string -> M unit.

(** [PyString_FromString] reads its argument, which is not tested. *)
Definition Commit_get_message (commit : addr) : M (option PyObject) :=
  let* c := get_obj commit in
  let* m := git_commit_message c in
  let* m := nonnull m in
  ret (Some (PyString_FromString m)).

Definition Commit_set_message (commit : addr) (message : PyObject) : M Z :=
  if negb (PyString_Check message) then
    let* n := ob_type_name message in
    PyErr_Format PyExc_TypeError ("message must be str, not " +:+ s200 n) ;;
    ret (-1)
  else
    let* c := get_obj commit in
    let* s := PyString_AS_STRING message in
    git_commit_set_message c s ;;
    ret 0.

Definition Tag_get_name (self : addr) : M (option PyObject) :=
  let* tag := get_obj self in
  let* name := git_tag_name tag in
  match name with
  | None => ret (Some PyNone)
  | Some name => ret (Some (PyString_FromString name))
  end.

Definition Tag_set_name (self : addr) (py_name : PyObject) : M Z :=
  if negb (PyString_Check py_name) then
    let* n := ob_type_name py_name in
    PyErr_Format PyExc_TypeError ("name must be str, not " +:+ s200 n) ;;
    ret (-1)
  else
    let* name := PyString_AsString py_name in
    match name with
    | None => ret (-1)
    | Some name =>
        let* tag := get_obj self in
        git_tag_set_name tag name ;;
        ret 0
    end.

Definition Tag_get_message (self : addr) : M (option PyObject) :=
  let* tag := get_obj self in
  let* message := git_tag_message tag in
  match message with
  | None => ret (Some PyNone)
  | Some message => ret (Some (PyString_FromString message))
  end.

Definition Tag_set_message (self : addr) (message : PyObject) : M Z :=
  if negb (PyString_Check message) then
    let* n := ob_type_name message in
    PyErr_Format PyExc_TypeError ("message must be str, not " +:+ s200 n) ;;
    ret (-1)
  else
    let* tag := get_obj self in
    let* s := PyString_AS_STRING message in
    git_tag_set_message tag s ;;
    ret 0.

End text_attributes.

(** ** Observations of a world *)

Module Obs.
Import Git Py CInt CPython Libgit2.

(** The fields of the instance at [a], read through an [Object *]. *)
Definition Object_of (w : World) (a : addr) : option Object :=
  match py_heap w !! a with
  | Some i => as_Object (ob_struct i)
  | None => None
  end.

(** The libgit2 object behind the instance at [a]. *)
Definition git_of (w : World) (a : addr) : option git_object :=
  match Object_of w a with
  | Some o =>
      match obj o with
      | Some p => git_heap w !! p
      | None => None
      end
  | None => None
  end.

(** The entries of the tree behind the instance at [a]. *)
Definition entries_of (w : World) (a : addr) : option (list git_tree_entry) :=
  match git_of w a with
  | Some g =>
      match body g with
      | Tree_body es => Some es
      | _ => None
      end
  | None => None
  end.

Definition refcnt_of (w : World) (a : addr) : option Z :=
  match py_heap w !! a with
  | Some i => Some (ob_refcnt i)
  | None => None
  end.

(** [self->target] of the [Tag] instance at [a]. *)
Definition target_of (w : World) (a : addr) : option (option addr) :=
  match py_heap w !! a with
  | Some i =>
      match ob_struct i with
      | Tag_struct _ t => Some t
      | _ => None
      end
  | None => None
  end.

(** The repository handle behind the [Repository] instance at [a]. *)
Definition repository_of (w : World) (a : addr) : option git_repository :=
  match py_heap w !! a with
  | Some i =>
      match ob_struct i with
      | Repository_struct (Some r) => git_repos w !! r
      | _ => None
      end
  | None => None
  end.

(** What a call that returns a [TreeEntry *] produced: the slot the new
    entry object points at, or the exception raised with a [NULL] result. *)
Inductive outcome : Type :=
| Entry (slot : nat)
| Raised (e : PyErr)
| Unspecified.

Definition getitem_outcome (r : option (option addr * World)) : outcome :=
  match r with
  | Some (Some a, w') =>
      match py_heap w' !! a with
      | Some i =>
          match ob_struct i with
          | TreeEntry_struct (Some s) _ => Entry s
          | _ => Unspecified
          end
      | None => Unspecified
      end
  | Some (None, w') =>
      match py_err w' with
      | Some e => Raised e
      | None => Unspecified
      end
  | None => Unspecified
  end.

(** The key resolution of [get], in the words of the spec: a name resolves
    to the entry with that name, else [KeyNotFound(key)]; an integer in
    [[-length, length-1]] resolves to position [index], or
    [length + index] when negative, else [IndexOutOfRange(key)]. *)
Definition resolve_key (es : list git_tree_entry) (key : PyObject) : PyErr + nat :=
  match key with
  | PyString name =>
      match find_name name es with
      | Some i => inr i
      | None => inl (mkErr PyExc_KeyError (ExcObject key))
      end
  | PyInt i =>
      let n := Z.of_nat (List.length es) in
      if (- n <=? i) && (i <=? n - 1)
      then inr (Z.to_nat (if i <? 0 then n + i else i))
      else inl (mkErr PyExc_IndexError (ExcObject key))
  | _ => inl (mkErr PyExc_TypeError (ExcString "Expected int or str for tree index."))
  end.

(** The key resolution of the code: as [resolve_key], with a name read
    as the C string libgit2 is handed. *)
Definition resolve_C_key (es : list git_tree_entry) (key : PyObject) : PyErr + nat :=
  match key with
  | PyString name =>
      match find_name (c_str name) es with
      | Some i => inr i
      | None => inl (mkErr PyExc_KeyError (ExcObject key))
      end
  | _ => resolve_key es key
  end.

Definition IndexError (key : PyObject) : PyErr := mkErr PyExc_IndexError (ExcObject key).
Definition KeyError (key : PyObject) : PyErr := mkErr PyExc_KeyError (ExcObject key).
Definition TypeError_key : PyErr :=
  mkErr PyExc_TypeError (ExcString "Expected int or str for tree index.").

(** The struct of the instance at [a]. *)
Definition struct_of (w : World) (a : addr) : option PyStruct :=
  match py_heap w !! a with
  | Some i => Some (ob_struct i)
  | None => None
  end.

(** What [Tag_set_target] does to the instances when no count reaches
    zero: one reference less to the previous target, [self->target]
    replaced, one reference more to the new target. *)
Definition incr (i : PyInst) : PyInst :=
  mkInst (ob_refcnt i + 1) (ob_type i) (ob_struct i).
Definition decr (i : PyInst) : PyInst :=
  mkInst (ob_refcnt i - 1) (ob_type i) (ob_struct i).
Definition retarget (t : option addr) (i : PyInst) : PyInst :=
  mkInst (ob_refcnt i) (ob_type i)
    (match ob_struct i with
     | Tag_struct o _ => Tag_struct o t
     | s => s
     end).

Definition release (old : option addr) (h : gmap nat PyInst) : gmap nat PyInst :=
  match old with
  | Some q => alter decr q h
  | None => h
  end.

Definition heap_after_set_target (self t : addr) (old : option addr)
  (h : gmap nat PyInst) : gmap nat PyInst :=
  alter incr t (alter (retarget (Some t)) self (release old h)).

(** The claim on identifiers in the words of the spec: [identifier()] is
    [None] if and only if the object is Owned and has never been written. *)
Definition identifier_None_iff_Owned_unwritten (w : World) (self : addr) : Prop :=
  Object_get_sha self w = Some (Some PyNone, w)
  <-> exists o g, Object_of w self = Some o /\ git_of w self = Some g
                  /\ own_obj o = true /\ object_id g = None.

(** The integer [PyInt_AsLong] finds in a value, before it looks at the
    range of a C [long]: that of an [int] or of a [long], or the one the
    slot [nb_int] answers. *)
Definition integer_of (o : PyObject) : option Z :=
  match o with
  | PyInt n | PyLong n | PyNumber _ _ (nb_int_value n) => Some n
  | _ => None
  end.

(** The exception [PyInt_AsLong] raises for a value in which it finds no
    integer: the one the slot [nb_int] raised, or [TypeError]. *)
Definition no_integer_error (o : PyObject) : PyErr :=
  mkErr match o with
        | PyNumber _ _ (nb_int_raises e) => e
        | _ => PyExc_TypeError
        end ExcInternal.

(** The exception a failed conversion of the argument parser leaves: the
    one that was set already, or a [TypeError]. *)
Definition conversion_error (w : World) : PyErr :=
  match py_err w with
  | Some e => e
  | None => mkErr PyExc_TypeError ExcInternal
  end.

(** The claim on deletion in the words of the spec: [delete] resolves its
    key as [resolve_key] does, failing with its exception or removing the
    entry of that name or index. *)
Definition delete_resolves_key (w : World) (self : addr) (key : PyObject) : Prop :=
  forall es, entries_of w self = Some es ->
    match resolve_key es key with
    | inl e => Tree_delitem self key None w = Some (-1, set_py_err (Some e) w)
    | inr slot =>
        exists w', Tree_delitem self key None w = Some (0, w')
                   /\ entries_of w' self = Some (delete slot es)
    end.

(** Every instance of the second world is one of the first, with its
    type and its struct. *)
Definition structs_kept (w w' : World) : Prop :=
  forall x i', py_heap w' !! x = Some i' ->
    exists i, py_heap w !! x = Some i
              /\ ob_type i' = ob_type i /\ ob_struct i' = ob_struct i.

End Obs.

(** The text of the [ValueError] for a malformed identifier. *)
Definition invalid_hex_message {ext : Externals} (value : Py.PyObject) : string :=
  match PyObject_Repr value with
  | Some r => "Invalid hex SHA: " +:+ r
  | None => "Invalid hex SHA: <error in __repr__>"
  end.

(** The claim on parse failures in the words of the spec: a text that is
    not exactly 40 hexadecimal characters fails to parse, and the failure
    is reported as a [ValueError] that carries the text. *)
Definition malformed_text_is_ValueError {ext : Externals} (w : World)
  (value : Py.PyObject) : Prop :=
  forall s, CPython.text_of value = Some s -> Git.is_hex40 s = false ->
    py_str_to_git_oid value w = Some (inl Git.GIT_ENOTOID, w)
    /\ Error_set_py_str (A:=unit) Git.GIT_ENOTOID value w
       = Some (None,
               set_py_err
                 (Some (Py.mkErr Py.PyExc_ValueError
                          (Py.ExcString (invalid_hex_message value)))) w).

(** ** Observations for the rest of the file *)

Module Obs2.
Import Git Py CInt CPython Libgit2 Obs.

(** The exception the error translator raises for a result code, with the
    value it was given and the name of that value's type: the table of
    the spec. *)
Definition raised_for {ext : Externals} (err : git_error) (value : PyObject)
  (type_name : string) : PyErr :=
  match err with
  | GIT_ENOMEM => mkErr PyExc_MemoryError ExcNone
  | GIT_EOSERR => mkErr GitError ExcErrno
  | GIT_EOBJTYPE => mkErr GitError (ExcString "Invalid object type.")
  | GIT_ENOTOID =>
      if PyString_Check value
      then mkErr PyExc_ValueError (ExcString (invalid_hex_message value))
      else mkErr PyExc_TypeError
             (ExcString ("Hex SHA must be str, not " +:+ s200 type_name))
  | GIT_ENOTFOUND => KeyError value
  | GIT_EOBJCORRUPTED =>
      mkErr GitError
        (ExcString (match PyObject_Str value with
                    | Some r => "Corrupted object: " +:+ r
                    | None => "Corrupted object: <error in __str__>"
                    end))
  | GIT_EOTHER _ => mkErr GitError (ExcString (git_strerror err))
  end.

(** The reference [old] held by the instance at [a] is null, or is to
    another instance that has further references. *)
Definition stays_alive (w : World) (a : addr) (old : option addr) : Prop :=
  match old with
  | None => True
  | Some q => q <> a /\ exists iq, py_heap w !! q = Some iq /\ ob_refcnt iq <> 1
  end.

(** The libgit2 type each [tp_init] hands to [Object_init_with_type]. *)
Definition init_type (t : PyTypeObject) : option git_otype :=
  match t with
  | CommitType => Some GIT_OBJ_COMMIT
  | TreeType => Some GIT_OBJ_TREE
  | BlobType => Some GIT_OBJ_BLOB
  | TagType => Some GIT_OBJ_TAG
  | _ => None
  end.

(** The value is no instance of [Repository]. *)
Definition not_a_Repository (w : World) (o : PyObject) : Prop :=
  match o with
  | PyInstance b =>
      exists ib, py_heap w !! b = Some ib
                 /\ PyType_IsSubtype (ob_type ib) RepositoryType = false
  | _ => True
  end.

(** The arguments of a constructor call that [Object_init_with_type]
    rejects: keywords, a number of arguments other than one, or an
    argument that is no [Repository]. *)
Definition bad_arguments (w : World) (args : list PyObject)
  (kwds : option (list (string * PyObject))) : Prop :=
  is_Some kwds
  \/ (forall o, args <> [o])
  \/ (exists o, args = [o] /\ not_a_Repository w o).

(** The type of the wrapper [wrap_object] allocates for an object that
    is no tag. *)
Definition wrapper_type (t : git_otype) : option PyTypeObject :=
  match t with
  | GIT_OBJ_COMMIT => Some CommitType
  | GIT_OBJ_TREE => Some TreeType
  | GIT_OBJ_BLOB => Some BlobType
  | _ => None
  end.

End Obs2.

(** ** A repository, a tree and a tag to run the functions on *)

Module Example.
Import Git Py CInt CPython Libgit2 Obs.

Definition ext0 : Externals := {|
  PyObject_Repr := fun o =>
    match o with
    | PyString s => Some ("'" +:+ s +:+ "'")
    | _ => None
    end;
  PyObject_Str := fun o =>
    match o with
    | PyString s => Some s
    | _ => None
    end;
  git_strerror := fun _ => "error"%string;
  store_write := fun _ => inl GIT_EOSERR
|}.

#[local] Existing Instance ext0.

Definition hex_a : string := "aaaaaaaaaaaaaaaaaaaaaaaaaaaaaaaaaaaaaaaa".

(** [hex_a] followed by a NUL and [xyz]; [b] followed by a NUL and [zz]. *)
Definition hex_a_NUL_xyz : string := hex_a +:+ String "000" "xyz".
Definition b_NUL_zz : string := String "b" (String "000" "zz").
Definition hex_b : string := "BBBBBBBBBBbbbbbbbbbbBBBBBBBBBBbbbbbbbbbb".
Definition oid_a : git_oid := repeat 170%N 20.

(** A [Repository] at address 0 whose store holds one blob. *)
Definition w0 : World :=
  mkWorld None
    {[ 0%nat := mkInst 1 RepositoryType (Repository_struct (Some 0%nat)) ]}
    {[ 0%nat := mkGitObject (Some oid_a) 0%nat Blob_body ]}
    {[ 0%nat := mkRepo {[ oid_a := 0%nat ]}
                  {[ oid_a := inr (mkRaw GIT_OBJ_BLOB "hello") ]} ]}
    16.

Definition repo0 : git_repository :=
  mkRepo {[ oid_a := 0%nat ]} {[ oid_a := inr (mkRaw GIT_OBJ_BLOB "hello") ]}.

(** The world a call leaves. *)
Definition after {A} (m : M A) (w : World) : World :=
  match m w with
  | Some (_, w') => w'
  | None => w
  end.

Definition entry (name : string) : list PyObject :=
  [PyString hex_a; PyString name; PyInt 33188].

(** [tree = Tree(repo)] at address 1, with the entries a, b, c added. *)
Definition w_tree : World :=
  after (Tree_add_entry 1%nat (entry "c"))
    (after (Tree_add_entry 1%nat (entry "b"))
       (after (Tree_add_entry 1%nat (entry "a"))
          (after (type_call TreeType Tree_init [PyInstance 0%nat] None) w0))).

Definition abc : list git_tree_entry :=
  [mkEntry "a" 33188 oid_a; mkEntry "b" 33188 oid_a; mkEntry "c" 33188 oid_a].

(** [tag = Tag(repo)] at address 1. *)
Definition w_tag : World :=
  after (type_call TagType Tag_init [PyInstance 0%nat] None) w0.

(** [blob = Blob(repo)] at address 2. *)
Definition w_tag_blob : World :=
  after (type_call BlobType Blob_init [PyInstance 0%nat] None) w_tag.

(** [tag.target = blob]. *)
Definition w_tag_set : World :=
  after (Tag_set_target 1%nat (PyInstance 2%nat)) w_tag_blob.

(** [tag.target] read back: a new object at address 3. *)
Definition w_tag_target : World := after (Tag_get_target 1%nat) w_tag_set.

(** The caller drops [blob], which leaves the tag's reference alone; then
    [other = Blob(repo)] at address 3 and [tag.target = other]. *)
Definition w_tag_dropped : World :=
  after (type_call BlobType Blob_init [PyInstance 0%nat] None)
    (after (Py_DECREF 2%nat) w_tag_set).
Definition w_tag_replaced : World :=
  after (Tag_set_target 1%nat (PyInstance 3%nat)) w_tag_dropped.

(** [e = tree[0]] at address 2, then [tag = Tag(repo)] at address 3. *)
Definition w_entry : World := after (Tree_getitem 1%nat (PyInt 0)) w_tree.
Definition w_entry_tag : World :=
  after (type_call TagType Tag_init [PyInstance 0%nat] None) w_entry.

(** A [Repository] at address 0 whose store holds a blob and a tag of it. *)
Definition oid_b : git_oid := repeat 187%N 20.
Definition w_store_tag : World :=
  mkWorld None
    {[ 0%nat := mkInst 1 RepositoryType (Repository_struct (Some 0%nat)) ]}
    {[ 0%nat := mkGitObject (Some oid_a) 0%nat Blob_body;
       1%nat := mkGitObject (Some oid_b) 0%nat (Tag_body (Some 0%nat) GIT_OBJ_BLOB) ]}
    {[ 0%nat := mkRepo {[ oid_a := 0%nat; oid_b := 1%nat ]}
                  {[ oid_a := inr (mkRaw GIT_OBJ_BLOB "hello") ]} ]}
    16.
Definition w_store_tag_looked : World :=
  after (Repository_getitem 0%nat (PyString hex_b)) w_store_tag.

End Example.

(** ** A store that accepts writes, and a disk with one repository *)

Module Scenario.
Import Git Py CInt CPython Libgit2 Obs Example.

(** The store of [ext0], but one that accepts every write under the
    identifier [oid_b]. *)
Definition ext1 : Externals := {|
  PyObject_Repr := @PyObject_Repr ext0;
  PyObject_Str := @PyObject_Str ext0;
  git_strerror := @git_strerror ext0;
  store_write := fun _ => inr (oid_b, mkRaw GIT_OBJ_BLOB "data")
|}.

(** A disk on which [repo.git] is the root of the repository [repo0]. *)
Definition fs0 : Filesystem.
Proof.
  refine {| repository_at := fun path =>
              if String.eqb path "repo.git" then Some repo0 else None |}.
  intros path x H.
  destruct (String.eqb_spec path "repo.git") as [->|]; [reflexivity|discriminate].
Defined.

(** [tree = Tree(repo)] at address 1, still empty. *)
Definition w_new_tree : World :=
  after (type_call TreeType Tree_init [PyInstance 0%nat] None) w0.

(** The repository of [w_store_tag]. *)
Definition repo_tag : git_repository :=
  mkRepo {[ oid_a := 0%nat; oid_b := 1%nat ]}
    {[ oid_a := inr (mkRaw GIT_OBJ_BLOB "hello") ]}.

(** libgit2 setters and getters that keep nothing. *)
Definition no_setter (p : gptr) (s : string) : M unit := ret tt.
Definition no_getter (p : gptr) : M (option string) := ret None.

End Scenario.

(** * Proofs *)

Section proofs.
Import Git Py CInt CPython Libgit2 Obs.
Context {ext : Externals}.

(** ** The monad *)

Lemma bind_Some {A B} (m : M A) (k : A -> M B) w a w' :
  m w = Some (a, w') -> bind m k w = k a w'.
Proof. unfold bind. now intros ->. Qed.

Lemma bind_bind {A B C} (m : M A) (k0 : A -> M B) (k : B -> M C) w :
  bind (bind m k0) k w = bind m (fun x => bind (k0 x) k) w.
Proof. unfold bind. destruct (m w) as [[a w']|]; reflexivity. Qed.

Lemma bind_inv {A B} (m : M A) (k : A -> M B) w r :
  bind m k w = Some r -> exists a w1, m w = Some (a, w1) /\ k a w1 = Some r.
Proof.
  unfold bind. destruct (m w) as [[a w1]|]; [|discriminate]. eauto.
Qed.

Lemma then_ret_None {A B} (m : M A) w (r : option B) w' :
  bind m (fun _ => ret None) w = Some (r, w') -> r = None.
Proof.
  intros H. apply bind_inv in H as (a & w1 & _ & H). now injection H as <- _.
Qed.

(** ** C integers and the identifier codec *)

Lemma to_signed_id bits z :
  0 < bits -> - 2 ^ (bits - 1) <= z < 2 ^ (bits - 1) -> to_signed bits z = z.
Proof.
  intros Hb Hz. unfold to_signed.
  assert (E : 2 ^ bits = 2 * 2 ^ (bits - 1)).
  { rewrite <- Z.pow_succ_r by lia. f_equal. lia. }
  rewrite Z.mod_small by lia. lia.
Qed.

Lemma to_long_id z : LONG_MIN <= z <= LONG_MAX -> to_long z = z.
Proof.
  unfold LONG_MIN, LONG_MAX, to_long. intros H.
  apply to_signed_id; unfold LONG_BITS in *; lia.
Qed.

Lemma to_int_id z : INT_MIN <= z <= INT_MAX -> to_int z = z.
Proof.
  unfold INT_MIN, INT_MAX, to_int. intros H.
  apply to_signed_id; unfold INT_BITS in *; lia.
Qed.

Lemma to_size_t_id z : 0 <= z <= LONG_MAX -> to_size_t z = z.
Proof.
  unfold LONG_MAX, to_size_t, to_unsigned, LONG_BITS. intros H.
  apply Z.mod_small. lia.
Qed.

Lemma from_hex_to_hex c v :
  from_hex c = Some v ->
  (v < 16)%N /\ to_hex v = to_lower c.
Proof.
  destruct c as [[] [] [] [] [] [] [] []]; vm_compute; intros H;
    first [discriminate H | (injection H as <-; split; reflexivity)].
Qed.

Lemma to_hex_lower v : (v < 16)%N -> is_lower_hex (to_hex v) = true.
Proof.
  intros H.
  assert (E : exists k, (k < 16)%nat /\ v = N.of_nat k).
  { exists (N.to_nat v). split; [lia | now rewrite N2Nat.id]. }
  destruct E as (k & Hk & ->).
  do 16 (destruct k as [|k]; [reflexivity|]). lia.
Qed.

Lemma byte_split h l :
  (h < 16)%N -> (l < 16)%N ->
  ((16 * h + l) / 16 = h)%N /\ ((16 * h + l) mod 16 = l)%N /\ (16 * h + l < 256)%N.
Proof.
  intros Hh Hl. repeat split.
  - symmetry. apply (N.div_unique _ 16 h l); lia.
  - symmetry. apply (N.mod_unique _ 16 h l); lia.
  - lia.
Qed.

Lemma hex_pairs_spec n : forall s oid,
  (String.length s <= n)%nat ->
  hex_pairs s = Some oid ->
  git_oid_fmt oid = lowercase s
  /\ (2 * List.length oid = String.length s)%nat
  /\ Forall (fun b => (b < 256)%N) oid.
Proof.
  induction n as [|n IH]; intros s oid Hn H.
  - destruct s; [|simpl in Hn; lia]. injection H as <-. repeat split; constructor.
  - destruct s as [|hi [|lo r]]; simpl in H.
    + injection H as <-. repeat split; constructor.
    + discriminate.
    + destruct (from_hex hi) as [h|] eqn:Eh; [|discriminate].
      destruct (from_hex lo) as [l|] eqn:El; [|discriminate].
      destruct (hex_pairs r) as [bs|] eqn:Er; [|discriminate].
      injection H as <-.
      apply from_hex_to_hex in Eh as [Hh Eh], El as [Hl El].
      destruct (byte_split h l Hh Hl) as (Ed & Em & Hb).
      destruct (IH r bs) as (IH1 & IH2 & IH3); [simpl in Hn; lia | assumption |].
      repeat split.
      * simpl. rewrite Ed, Em, Eh, El, IH1. reflexivity.
      * simpl. lia.
      * constructor; assumption.
Qed.

Lemma hex_pairs_all_hex n : forall s,
  (String.length s <= n)%nat ->
  is_Some (hex_pairs s) <-> (all_hex s = true /\ Nat.Even (String.length s)).
Proof.
  induction n as [|n IH]; intros s Hn.
  - destruct s; [|simpl in Hn; lia]. simpl. split; [|eauto].
    intros _. split; [reflexivity | exists O; reflexivity].
  - destruct s as [|hi [|lo r]].
    + simpl. split; [|eauto]. intros _. split; [reflexivity | exists O; reflexivity].
    + simpl. split.
      * intros [x Hx]. discriminate.
      * intros [_ [k Hk]]. lia.
    + assert (Hr : (String.length r <= n)%nat) by (simpl in Hn; lia).
      specialize (IH r Hr).
      cbn [hex_pairs all_hex String.length]. unfold is_hex.
      destruct (from_hex hi) as [h|]; [|split; [intros [x Hx]; discriminate | intros [Hx _]; discriminate]].
      destruct (from_hex lo) as [l|]; [|split; [intros [x Hx]; discriminate | intros [Hx _]; discriminate]].
      cbn [andb]. split.
      * intros [x Hx]. destruct (hex_pairs r) as [bs|]; [|discriminate].
        destruct (proj1 IH) as [Ha [k Hk]]; [eauto|].
        split; [assumption | exists (S k); lia].
      * intros [Ha [k Hk]].
        destruct (proj2 IH) as [bs Hbs].
        { split; [assumption | exists (k - 1)%nat; lia]. }
        rewrite Hbs. eauto.
Qed.

Lemma git_oid_mkstr_ok s :
  is_hex40 s = true ->
  exists oid, git_oid_mkstr s = inr oid /\ oid_wf oid /\ git_oid_fmt oid = lowercase s.
Proof.
  unfold is_hex40, git_oid_mkstr. intros H.
  apply andb_true_iff in H as [Hl Ha]. rewrite Hl.
  apply Nat.eqb_eq in Hl.
  destruct (proj2 (hex_pairs_all_hex _ s (le_n _))) as [oid Ho].
  { split; [assumption|]. rewrite Hl. exists 20%nat. reflexivity. }
  rewrite Ho. exists oid.
  destruct (hex_pairs_spec _ s oid (le_n _) Ho) as (Hf & Hlen & Hb).
  split; [reflexivity|]. split; [|assumption].
  split; [|assumption]. unfold GIT_OID_RAWSZ, GIT_OID_HEXSZ in *. lia.
Qed.

Lemma git_oid_mkstr_fail s :
  is_hex40 s = false -> git_oid_mkstr s = inl GIT_ENOTOID.
Proof.
  unfold is_hex40, git_oid_mkstr. intros H.
  destruct (String.length s =? GIT_OID_HEXSZ)%nat eqn:Hl; [|reflexivity].
  simpl in H.
  destruct (hex_pairs s) as [oid|] eqn:Ho; [|reflexivity].
  destruct (proj1 (hex_pairs_all_hex _ s (le_n _))) as [Ha _]; [eauto|].
  congruence.
Qed.

Lemma git_oid_fmt_shape oid :
  Forall (fun b => (b < 256)%N) oid ->
  String.length (git_oid_fmt oid) = (2 * List.length oid)%nat
  /\ all_lower_hex (git_oid_fmt oid) = true.
Proof.
  induction 1 as [|b r Hb Hr [IH1 IH2]]; [split; reflexivity|].
  split.
  - simpl. rewrite IH1. lia.
  - cbn [git_oid_fmt all_lower_hex]. rewrite IH2.
    rewrite !to_hex_lower; [reflexivity | |].
    + apply N.mod_lt. lia.
    + apply N.Div0.div_lt_upper_bound. lia.
Qed.

Lemma substring_all s : substring 0 (String.length s) s = s.
Proof. induction s as [|c r IH]; [reflexivity|]. simpl. now rewrite IH. Qed.

Lemma all_hex_app s1 c s2 :
  is_hex c = false -> all_hex (s1 +:+ String c s2) = false.
Proof.
  intros H. induction s1 as [|d r IH]; simpl.
  - now rewrite H.
  - rewrite IH. apply andb_false_r.
Qed.

(** ** Trees *)

Lemma entries_of_inv w self es :
  entries_of w self = Some es ->
  exists i o p g,
    py_heap w !! self = Some i /\ as_Object (ob_struct i) = Some o
    /\ obj o = Some p /\ git_heap w !! p = Some g /\ body g = Tree_body es.
Proof.
  unfold entries_of, git_of, Object_of. intros H.
  destruct (py_heap w !! self) as [i|] eqn:Hi; [|discriminate].
  destruct (as_Object (ob_struct i)) as [o|] eqn:Ho; [|discriminate].
  destruct (obj o) as [p|] eqn:Hp; [|discriminate].
  destruct (git_heap w !! p) as [g|] eqn:Hg; [|discriminate].
  destruct (body g) eqn:Hb; try discriminate.
  injection H as ->. exists i, o, p, g. auto.
Qed.

Lemma get_obj_entries w self es :
  entries_of w self = Some es ->
  exists p, get_obj self w = Some (p, w) /\ get_entries p w = Some (es, w).
Proof.
  intros H. destruct (entries_of_inv _ _ _ H) as (i & o & p & g & Hi & Ho & Hp & Hg & Hb).
  exists p. unfold get_obj, get_Object, get_inst, get_entries, get_git, bind, nonnull, ret.
  rewrite Hi, Ho, Hp, Hg, Hb. auto.
Qed.

Lemma entries_of_set_py_err e w self : entries_of (set_py_err e w) self = entries_of w self.
Proof. reflexivity. Qed.

Lemma Tree_fix_index_spec w self es i :
  py_err w = None ->
  entries_of w self = Some es ->
  Z.of_nat (List.length es) <= INT_MAX ->
  let n := Z.of_nat (List.length es) in
  Tree_fix_index self (PyInt i) w =
    if (- n <=? i) && (i <=? n - 1)
    then Some (if i <? 0 then n + i else i, w)
    else Some (-1, set_py_err (Some (IndexError (PyInt i))) w).
Proof.
  intros He Hes Hn n.
  destruct (get_obj_entries _ _ _ Hes) as (p & Hp & Hpe).
  unfold Tree_fix_index. cbn [PyInt_AsLong].
  unfold bind at 1. cbn [ret].
  unfold bind at 1. unfold PyErr_Occurred at 1. rewrite He.
  rewrite (bind_Some _ _ _ _ _ Hp).
  unfold git_tree_entrycount. rewrite (bind_Some _ _ _ _ _ (bind_Some _ _ _ _ _ Hpe)).
  fold n.
  assert (Hmax : INT_MAX = 2147483647) by reflexivity.
  assert (HL : LONG_MAX = 9223372036854775807) by reflexivity.
  assert (HLm : LONG_MIN = -9223372036854775808) by reflexivity.
  assert (Him : INT_MIN = -2147483648) by reflexivity.
  cbn [ret]. rewrite (to_size_t_id n) by lia. rewrite (to_long_id n) by lia.
  destruct (Z.geb_spec i n) as [H1|H1].
  { replace ((- n <=? i) && (i <=? n - 1)) with false.
    - reflexivity.
    - symmetry. apply andb_false_iff. right. apply Z.leb_gt. lia. }
  destruct (Z.ltb_spec i (- n)) as [H2|H2].
  { replace ((- n <=? i) && (i <=? n - 1)) with false.
    - reflexivity.
    - symmetry. apply andb_false_iff. left. apply Z.leb_gt. lia. }
  replace ((- n <=? i) && (i <=? n - 1)) with true
    by (symmetry; apply andb_true_iff; split; apply Z.leb_le; lia).
  unfold ret. f_equal. f_equal.
  destruct (Z.ltb_spec i 0).
  - rewrite (to_size_t_id (n + i)) by lia. rewrite (to_long_id (n + i)) by lia.
    apply to_int_id. lia.
  - apply to_int_id. lia.
Qed.

Lemma wrap_tree_entry_spec w slot tree it :
  (0 < mem w)%nat ->
  py_heap w !! tree = Some it ->
  exists a w',
    wrap_tree_entry slot tree w = Some (Some a, w')
    /\ py_heap w !! a = None
    /\ py_heap w' !! a
       = Some (mkInst 1 TreeEntryType (TreeEntry_struct (Some slot) (Some tree)))
    /\ py_heap w' !! tree = Some (mkInst (ob_refcnt it + 1) (ob_type it) (ob_struct it))
    /\ (forall b, b <> a -> b <> tree -> py_heap w' !! b = py_heap w !! b)
    /\ py_err w' = py_err w /\ git_heap w' = git_heap w /\ git_repos w' = git_repos w.
Proof.
  intros Hm Ht.
  set (a := fresh (dom (py_heap w))).
  assert (Ha : py_heap w !! a = None).
  { apply not_elem_of_dom. apply is_fresh. }
  assert (Hne : a <> tree) by (intros ->; congruence).
  unfold wrap_tree_entry, tp_alloc, bind at 1.
  destruct (mem w) as [|n] eqn:Em; [lia|]. fold a.
  unfold bind at 1, get_inst. cbn [py_heap set_mem set_py_heap].
  rewrite lookup_insert_eq.
  unfold bind at 1, put_inst, modify. cbn [py_heap set_mem set_py_heap ob_refcnt ob_type].
  unfold bind at 1, Py_INCREF, bind at 1, get_inst. cbn [py_heap set_mem set_py_heap].
  rewrite insert_insert_eq. rewrite lookup_insert_ne by exact Hne. rewrite Ht.
  unfold put_inst, modify, ret. cbn [py_heap set_mem set_py_heap].
  eexists _, _. split; [reflexivity|].
  cbn [py_heap py_err git_heap git_repos set_mem set_py_heap].
  split; [exact Ha|].
  split; [rewrite lookup_insert_ne by auto; apply lookup_insert_eq|].
  split; [apply lookup_insert_eq|].
  split; [|auto].
  intros b Hb1 Hb2. rewrite !lookup_insert_ne by auto. reflexivity.
Qed.

Lemma entries_of_heap w self es :
  entries_of w self = Some es -> is_Some (py_heap w !! self).
Proof.
  intros H. destruct (entries_of_inv _ _ _ H) as (i & _ & _ & _ & Hi & _). eauto.
Qed.

Lemma Tree_getitem_by_index_returns w self es i :
  py_err w = None ->
  entries_of w self = Some es ->
  Z.of_nat (List.length es) <= INT_MAX ->
  (0 < mem w)%nat ->
  let n := Z.of_nat (List.length es) in
  let slot := Z.to_nat (if i <? 0 then n + i else i) in
  - n <= i <= n - 1 ->
  exists a w' e,
    Tree_getitem_by_index self (PyInt i) w = Some (Some a, w')
    /\ py_heap w' !! a
       = Some (mkInst 1 TreeEntryType (TreeEntry_struct (Some slot) (Some self)))
    /\ es !! slot = Some e
    /\ py_err w' = None
    /\ entries_of w' self = Some es.
Proof.
  intros He Hes Hn Hm n slot Hi.
  pose proof (Tree_fix_index_spec w self es i He Hes Hn) as Hfix. cbv zeta in Hfix. fold n in Hfix.
  replace ((- n <=? i) && (i <=? n - 1)) with true in Hfix
    by (symmetry; apply andb_true_iff; split; apply Z.leb_le; lia).
  destruct (get_obj_entries _ _ _ Hes) as (p & Hp & Hpe).
  destruct (entries_of_inv _ _ _ Hes) as (it & o & p' & g & Hit & Ho & Hop & Hg & Hb).
  set (k := if i <? 0 then n + i else i) in *.
  assert (Hk : 0 <= k < n) by (unfold k; destruct (Z.ltb_spec i 0); lia).
  destruct (wrap_tree_entry_spec w slot self it Hm Hit)
    as (a & w' & Hw & _ & Ha & Hself & _ & Herr & Hgh & _).
  assert (Hslot : is_Some (es !! slot)).
  { apply lookup_lt_is_Some. unfold slot. lia. }
  destruct Hslot as [e Hslot].
  exists a, w', e. split.
  - unfold Tree_getitem_by_index.
    rewrite (bind_Some _ _ _ _ _ Hfix).
    unfold bind at 1, PyErr_Occurred. rewrite He.
    rewrite (bind_Some _ _ _ _ _ Hp).
    unfold git_tree_entry_byindex. rewrite bind_bind, (bind_Some _ _ _ _ _ Hpe).
    unfold bind at 1. cbn [ret]. fold n.
    replace ((0 <=? k) && (k <? n)) with true
      by (symmetry; apply andb_true_iff; split; [apply Z.leb_le | apply Z.ltb_lt]; lia).
    exact Hw.
  - split; [exact Ha|]. split; [exact Hslot|]. split; [congruence|].
    unfold entries_of, git_of, Object_of. rewrite Hself. cbn [ob_struct].
    rewrite Ho, Hop, Hgh, Hg, Hb. reflexivity.
Qed.

Lemma Tree_getitem_by_index_ok w self es i :
  py_err w = None ->
  entries_of w self = Some es ->
  Z.of_nat (List.length es) <= INT_MAX ->
  (0 < mem w)%nat ->
  let n := Z.of_nat (List.length es) in
  - n <= i <= n - 1 ->
  getitem_outcome (Tree_getitem_by_index self (PyInt i) w)
  = Entry (Z.to_nat (if i <? 0 then n + i else i)).
Proof.
  intros He Hes Hn Hm n Hi.
  destruct (Tree_getitem_by_index_returns w self es i He Hes Hn Hm Hi)
    as (a & w' & e & Hr & Ha & _).
  rewrite Hr. unfold getitem_outcome. rewrite Ha. reflexivity.
Qed.

Lemma Tree_getitem_by_index_out w self es i :
  py_err w = None ->
  entries_of w self = Some es ->
  Z.of_nat (List.length es) <= INT_MAX ->
  let n := Z.of_nat (List.length es) in
  i >= n \/ i < - n ->
  Tree_getitem_by_index self (PyInt i) w
  = Some (None, set_py_err (Some (IndexError (PyInt i))) w).
Proof.
  intros He Hes Hn n Hi.
  pose proof (Tree_fix_index_spec w self es i He Hes Hn) as Hfix. cbv zeta in Hfix. fold n in Hfix.
  replace ((- n <=? i) && (i <=? n - 1)) with false in Hfix.
  2:{ symmetry. apply andb_false_iff. destruct Hi; [right|left]; apply Z.leb_gt; lia. }
  unfold Tree_getitem_by_index.
  rewrite (bind_Some _ _ _ _ _ Hfix).
  reflexivity.
Qed.

Lemma find_name_Some name es i :
  find_name name es = Some i ->
  exists e, es !! i = Some e /\ filename e = name.
Proof.
  revert i. induction es as [|e r IH]; intros i H; [discriminate|].
  simpl in H. destruct (String.eqb_spec (filename e) name) as [E|E].
  - injection H as <-. exists e. auto.
  - destruct (find_name name r) as [j|]; [|discriminate].
    injection H as <-. destruct (IH j eq_refl) as (x & Hx & Hn). exists x. auto.
Qed.

Lemma find_name_None name es :
  find_name name es = None <-> Forall (fun e => filename e <> name) es.
Proof.
  induction es as [|e r IH]; simpl.
  - split; [constructor | reflexivity].
  - destruct (String.eqb_spec (filename e) name) as [E|E].
    + split; [discriminate|]. intros H. inversion H; subst. contradiction.
    + destruct (find_name name r) as [j|].
      * split; [discriminate|]. intros H. inversion H; subst.
        apply IH in H3. discriminate.
      * split; [|reflexivity]. intros _. constructor; [assumption | now apply IH].
Qed.

Lemma Tree_getitem_by_name_found w self es name i :
  entries_of w self = Some es ->
  (0 < mem w)%nat ->
  find_name (c_str name) es = Some i ->
  getitem_outcome (Tree_getitem_by_name self (PyString name) w) = Entry i.
Proof.
  intros Hes Hm Hf.
  destruct (get_obj_entries _ _ _ Hes) as (p & Hp & Hpe).
  destruct (entries_of_heap _ _ _ Hes) as [it Hit].
  unfold Tree_getitem_by_name. cbn [PyString_AS_STRING].
  unfold bind at 1. cbn [ret].
  rewrite (bind_Some _ _ _ _ _ Hp).
  unfold git_tree_entry_byname. rewrite (bind_Some _ _ _ _ _ (bind_Some _ _ _ _ _ Hpe)).
  cbn [ret]. rewrite Hf.
  destruct (wrap_tree_entry_spec w i self it Hm Hit) as (a & w' & Hw & _ & Ha & _).
  rewrite Hw. unfold getitem_outcome. rewrite Ha. reflexivity.
Qed.

Lemma Tree_getitem_by_name_absent w self es name :
  entries_of w self = Some es ->
  find_name (c_str name) es = None ->
  Tree_getitem_by_name self (PyString name) w
  = Some (None, set_py_err (Some (KeyError (PyString name))) w).
Proof.
  intros Hes Hf.
  destruct (get_obj_entries _ _ _ Hes) as (p & Hp & Hpe).
  unfold Tree_getitem_by_name. cbn [PyString_AS_STRING].
  unfold bind at 1. cbn [ret].
  rewrite (bind_Some _ _ _ _ _ Hp).
  unfold git_tree_entry_byname. rewrite (bind_Some _ _ _ _ _ (bind_Some _ _ _ _ _ Hpe)).
  cbn [ret]. rewrite Hf. reflexivity.
Qed.

Lemma put_entries_spec w self es es' :
  entries_of w self = Some es ->
  exists p w',
    get_obj self w = Some (p, w) /\ get_entries p w = Some (es, w)
    /\ put_entries p es' w = Some (tt, w')
    /\ entries_of w' self = Some es'
    /\ py_err w' = py_err w /\ py_heap w' = py_heap w
    /\ git_repos w' = git_repos w /\ mem w' = mem w
    /\ (forall q, q <> p -> git_heap w' !! q = git_heap w !! q).
Proof.
  intros H. destruct (entries_of_inv _ _ _ H) as (i & o & p & g & Hi & Ho & Hp & Hg & Hb).
  exists p. eexists. split; [|split; [|split]].
  - unfold get_obj, get_Object, get_inst, bind, nonnull, ret. now rewrite Hi, Ho, Hp.
  - unfold get_entries, get_git, bind, ret. now rewrite Hg, Hb.
  - unfold put_entries, put_git, get_git, bind, modify. rewrite Hg. reflexivity.
  - cbn [py_err py_heap git_repos mem set_git_heap git_heap].
    split; [|repeat split; auto].
    + unfold entries_of, git_of, Object_of. cbn [py_heap git_heap set_git_heap].
      rewrite Hi, Ho, Hp, lookup_insert_eq. reflexivity.
    + intros q Hq. now rewrite lookup_insert_ne.
Qed.

Lemma Tree_delitem_by_name_found w self es name i :
  entries_of w self = Some es ->
  find_name (c_str name) es = Some i ->
  exists w',
    Tree_delitem_by_name self (PyString name) w = Some (0, w')
    /\ entries_of w' self = Some (delete i es)
    /\ py_err w' = py_err w /\ py_heap w' = py_heap w /\ mem w' = mem w.
Proof.
  intros Hes Hf.
  destruct (put_entries_spec w self es (delete i es) Hes)
    as (p & w' & Hp & Hpe & Hput & He' & Herr & Hheap & _ & Hmem & _).
  exists w'.
  unfold Tree_delitem_by_name. cbn [PyString_AS_STRING].
  unfold bind at 1. cbn [ret].
  rewrite (bind_Some _ _ _ _ _ Hp).
  unfold git_tree_remove_entry_byname.
  rewrite bind_bind, (bind_Some _ _ _ _ _ Hpe). rewrite Hf.
  rewrite bind_bind, (bind_Some _ _ _ _ _ Hput). cbn [ret bind].
  repeat split; congruence.
Qed.

Lemma Tree_delitem_by_name_absent w self es name :
  entries_of w self = Some es ->
  find_name (c_str name) es = None ->
  Tree_delitem_by_name self (PyString name) w
  = Some (-1, set_py_err (Some (KeyError (PyString name))) w).
Proof.
  intros Hes Hf.
  destruct (get_obj_entries _ _ _ Hes) as (p & Hp & Hpe).
  unfold Tree_delitem_by_name. cbn [PyString_AS_STRING].
  unfold bind at 1. cbn [ret].
  rewrite (bind_Some _ _ _ _ _ Hp).
  unfold git_tree_remove_entry_byname.
  rewrite bind_bind, (bind_Some _ _ _ _ _ Hpe). rewrite Hf.
  reflexivity.
Qed.

Lemma Tree_delitem_by_index_ok w self es i :
  py_err w = None ->
  entries_of w self = Some es ->
  Z.of_nat (List.length es) <= INT_MAX ->
  let n := Z.of_nat (List.length es) in
  - n <= i <= n - 1 ->
  exists w',
    Tree_delitem_by_index self (PyInt i) w = Some (0, w')
    /\ entries_of w' self = Some (delete (Z.to_nat (if i <? 0 then n + i else i)) es)
    /\ py_err w' = py_err w /\ py_heap w' = py_heap w /\ mem w' = mem w.
Proof.
  intros He Hes Hn n Hi.
  pose proof (Tree_fix_index_spec w self es i He Hes Hn) as Hfix. cbv zeta in Hfix. fold n in Hfix.
  replace ((- n <=? i) && (i <=? n - 1)) with true in Hfix
    by (symmetry; apply andb_true_iff; split; apply Z.leb_le; lia).
  set (k := if i <? 0 then n + i else i) in *.
  assert (Hk : 0 <= k < n) by (unfold k; destruct (Z.ltb_spec i 0); lia).
  destruct (put_entries_spec w self es (delete (Z.to_nat k) es) Hes)
    as (p & w' & Hp & Hpe & Hput & He' & Herr & Hheap & _ & Hmem & _).
  exists w'.
  unfold Tree_delitem_by_index.
  rewrite (bind_Some _ _ _ _ _ Hfix).
  unfold bind at 1, PyErr_Occurred. rewrite He.
  rewrite (bind_Some _ _ _ _ _ Hp).
  unfold git_tree_remove_entry_byindex.
  rewrite bind_bind, (bind_Some _ _ _ _ _ Hpe). fold n.
  replace ((0 <=? k) && (k <? n)) with true
    by (symmetry; apply andb_true_iff; split; [apply Z.leb_le | apply Z.ltb_lt]; lia).
  rewrite bind_bind, (bind_Some _ _ _ _ _ Hput). cbn [ret bind].
  repeat split; congruence.
Qed.

Lemma Tree_delitem_by_index_out w self es i :
  py_err w = None ->
  entries_of w self = Some es ->
  Z.of_nat (List.length es) <= INT_MAX ->
  let n := Z.of_nat (List.length es) in
  i >= n \/ i < - n ->
  Tree_delitem_by_index self (PyInt i) w
  = Some (-1, set_py_err (Some (IndexError (PyInt i))) w).
Proof.
  intros He Hes Hn n Hi.
  pose proof (Tree_fix_index_spec w self es i He Hes Hn) as Hfix. cbv zeta in Hfix. fold n in Hfix.
  replace ((- n <=? i) && (i <=? n - 1)) with false in Hfix.
  2:{ symmetry. apply andb_false_iff. destruct Hi; [right|left]; apply Z.leb_gt; lia. }
  unfold Tree_delitem_by_index.
  rewrite (bind_Some _ _ _ _ _ Hfix).
  reflexivity.
Qed.

Lemma Tree_len_spec w self es :
  entries_of w self = Some es ->
  Z.of_nat (List.length es) <= INT_MAX ->
  Tree_len self w = Some (Z.of_nat (List.length es), w).
Proof.
  intros Hes Hn.
  destruct (get_obj_entries _ _ _ Hes) as (p & Hp & Hpe).
  assert (INT_MAX = 2147483647) by reflexivity.
  assert (LONG_MAX = 9223372036854775807) by reflexivity.
  assert (LONG_MIN = -9223372036854775808) by reflexivity.
  unfold Tree_len. rewrite (bind_Some _ _ _ _ _ Hp).
  unfold git_tree_entrycount. rewrite bind_bind, (bind_Some _ _ _ _ _ Hpe).
  unfold bind, ret. rewrite to_size_t_id by lia. rewrite to_long_id by lia.
  reflexivity.
Qed.

(** C1: for a tree of [n] entries and an integer key [i], indexing
    succeeds exactly when [-n <= i <= n - 1]; it returns a new entry object
    for the entry at position [i], or at [n + i] when [i] is negative, so
    that [tree[-1]] and [tree[n-1]] give the same entry; any [i >= n] or
    [i < -n] fails with [IndexError] carrying the key.  The new entry
    object needs one allocation to succeed. *)
Theorem Tree_getitem_index w self es i :
  py_err w = None ->
  entries_of w self = Some es ->
  Z.of_nat (List.length es) <= INT_MAX ->
  let n := Z.of_nat (List.length es) in
  let slot := Z.to_nat (if i <? 0 then n + i else i) in
  ((0 < mem w)%nat -> - n <= i <= n - 1 ->
     exists a w' e,
       Tree_getitem self (PyInt i) w = Some (Some a, w')
       /\ py_heap w' !! a
          = Some (mkInst 1 TreeEntryType (TreeEntry_struct (Some slot) (Some self)))
       /\ es !! slot = Some e
       /\ py_err w' = None
       /\ entries_of w' self = Some es)
  /\ (i >= n \/ i < - n ->
      Tree_getitem self (PyInt i) w
      = Some (None, set_py_err (Some (IndexError (PyInt i))) w))
  /\ ((0 < mem w)%nat ->
      (exists s, getitem_outcome (Tree_getitem self (PyInt i) w) = Entry s)
      <-> - n <= i <= n - 1)
  /\ ((0 < mem w)%nat -> 1 <= n ->
      getitem_outcome (Tree_getitem self (PyInt (-1)) w) = Entry (Z.to_nat (n - 1))
      /\ getitem_outcome (Tree_getitem self (PyInt (n - 1)) w) = Entry (Z.to_nat (n - 1))).
Proof.
  intros He Hes Hn n slot.
  assert (Hin : (0 < mem w)%nat -> - n <= i <= n - 1 ->
                getitem_outcome (Tree_getitem self (PyInt i) w) = Entry slot).
  { intros Hm Hi. apply (Tree_getitem_by_index_ok w self es i He Hes Hn Hm Hi). }
  assert (Hout : i >= n \/ i < - n ->
                 Tree_getitem self (PyInt i) w
                 = Some (None, set_py_err (Some (IndexError (PyInt i))) w)).
  { intros Hi. apply (Tree_getitem_by_index_out w self es i He Hes Hn Hi). }
  split; [|split; [|split]].
  - intros Hm Hi.
    apply (Tree_getitem_by_index_returns w self es i He Hes Hn Hm Hi).
  - exact Hout.
  - intros Hm. split.
    + intros [s Hs]. destruct (Z_le_dec (- n) i) as [H1|H1].
      * destruct (Z_le_dec i (n - 1)) as [H2|H2]; [lia|].
        rewrite Hout in Hs by lia. discriminate.
      * rewrite Hout in Hs by lia. discriminate.
    + intros Hi. exists slot. auto.
  - intros Hm H1.
    change (getitem_outcome (Tree_getitem_by_index self (PyInt (-1)) w)
            = Entry (Z.to_nat (n - 1))
            /\ getitem_outcome (Tree_getitem_by_index self (PyInt (n - 1)) w)
               = Entry (Z.to_nat (n - 1))).
    rewrite (Tree_getitem_by_index_ok w self es (-1) He Hes Hn Hm) by (fold n; lia).
    rewrite (Tree_getitem_by_index_ok w self es (n - 1) He Hes Hn Hm) by (fold n; lia).
    fold n. destruct (Z.ltb_spec (n - 1) 0); [lia|]. split; reflexivity.
Qed.

Lemma resolve_key_int es i :
  let n := Z.of_nat (List.length es) in
  (- n <= i <= n - 1 /\ resolve_key es (PyInt i) = inr (Z.to_nat (if i <? 0 then n + i else i)))
  \/ ((i >= n \/ i < - n) /\ resolve_key es (PyInt i) = inl (IndexError (PyInt i))).
Proof.
  intros n. unfold resolve_key. fold n.
  destruct (Z.leb_spec (- n) i); destruct (Z.leb_spec i (n - 1)); cbn [andb];
    [left | right | right | right]; split; try reflexivity; lia.
Qed.

(** C6 (amended): [delete] resolves its key as [get] does, a [str] by the
    C string libgit2 is handed (its characters before the first NUL), an
    [int] by position: where [get] fails with [KeyError], [IndexError] or
    [TypeError], [delete] fails with the same exception, which carries the
    key as it was given, and leaves the world otherwise as it was; where
    [get] finds the entry at a slot, [delete] removes that slot.  A
    successful delete by name removes exactly one entry, one whose name is
    the C string of the key, and the length goes down by exactly one; a
    delete by a name whose C string no entry has fails with [KeyError]. *)
Theorem Tree_delitem_resolves_like_getitem w self es key :
  py_err w = None ->
  entries_of w self = Some es ->
  Z.of_nat (List.length es) <= INT_MAX ->
  match resolve_C_key es key with
  | inl e =>
      Tree_getitem self key w = Some (None, set_py_err (Some e) w)
      /\ Tree_delitem self key None w = Some (-1, set_py_err (Some e) w)
  | inr slot =>
      ((0 < mem w)%nat -> getitem_outcome (Tree_getitem self key w) = Entry slot)
      /\ exists w',
           Tree_delitem self key None w = Some (0, w')
           /\ py_err w' = None
           /\ entries_of w' self = Some (delete slot es)
  end
  /\ forall name, key = PyString name ->
       (Forall (fun e => filename e <> c_str name) es ->
        Tree_delitem self key None w
        = Some (-1, set_py_err (Some (KeyError key)) w))
       /\ (forall w', Tree_delitem self key None w = Some (0, w') ->
           exists l1 e l2,
             es = l1 ++ e :: l2 /\ filename e = c_str name
             /\ entries_of w' self = Some (l1 ++ l2)
             /\ Tree_len self w = Some (Z.of_nat (List.length es), w)
             /\ Tree_len self w' = Some (Z.of_nat (List.length es) - 1, w')).
Proof.
  intros He Hes Hn. split.
  - destruct key as [name|u|i|l| |a|tn|tn f r]; cbn [resolve_C_key resolve_key];
      try (split; reflexivity).
    + destruct (find_name (c_str name) es) as [slot|] eqn:Hf.
      * split.
        { intros Hm. apply (Tree_getitem_by_name_found w self es name slot Hes Hm Hf). }
        destruct (Tree_delitem_by_name_found w self es name slot Hes Hf)
          as (w' & Hd & He' & Herr & _).
        exists w'. repeat split; [exact Hd | congruence | exact He'].
      * split; [apply (Tree_getitem_by_name_absent w self es name Hes Hf)|].
        apply (Tree_delitem_by_name_absent w self es name Hes Hf).
    + destruct (resolve_key_int es i) as [[Hi Hr]|[Hi Hr]];
        cbv zeta in Hr; unfold resolve_key in Hr; rewrite Hr.
      * split.
        { intros Hm. apply (Tree_getitem_by_index_ok w self es i He Hes Hn Hm Hi). }
        destruct (Tree_delitem_by_index_ok w self es i He Hes Hn Hi)
          as (w' & Hd & He' & Herr & _).
        exists w'. repeat split; [exact Hd | congruence | exact He'].
      * split; [apply (Tree_getitem_by_index_out w self es i He Hes Hn Hi)|].
        apply (Tree_delitem_by_index_out w self es i He Hes Hn Hi).
  - intros name ->. split.
    + intros Hall. apply find_name_None in Hall.
      apply (Tree_delitem_by_name_absent w self es name Hes Hall).
    + intros w' Hd. cbn [Tree_delitem PyString_Check] in Hd.
      destruct (find_name (c_str name) es) as [slot|] eqn:Hf.
      * destruct (Tree_delitem_by_name_found w self es name slot Hes Hf)
          as (w1 & Hd1 & He1 & _).
        rewrite Hd1 in Hd. injection Hd as <-.
        destruct (find_name_Some _ _ _ Hf) as (e & Hl & Hname).
        exists (take slot es), e, (drop (S slot) es).
        assert (Hlen : List.length (delete slot es) = (List.length es - 1)%nat).
        { apply length_delete. eauto. }
        assert (Hpos : (0 < List.length es)%nat).
        { apply lookup_lt_Some in Hl. lia. }
        split; [symmetry; apply take_drop_middle; exact Hl|].
        split; [exact Hname|].
        split; [rewrite <- delete_take_drop; exact He1|].
        split; [apply Tree_len_spec; assumption|].
        rewrite (Tree_len_spec w1 self _ He1) by (rewrite Hlen; lia).
        rewrite Hlen. do 2 f_equal. lia.
      * rewrite (Tree_delitem_by_name_absent w self es name Hes Hf) in Hd.
        discriminate.
Qed.

(** C8: for every tree, key and value, the assignment [tree[key] = value]
    fails with [ValueError] and changes nothing but the error indicator:
    the entries and the length of the tree are as before. *)
Theorem Tree_setitem_rejected w self key value :
  let w' := set_py_err
              (Some (mkErr PyExc_ValueError
                       (ExcString "Cannot set TreeEntry directly; use add_entry."))) w in
  Tree_delitem self key (Some value) w = Some (-1, w')
  /\ entries_of w' self = entries_of w self
  /\ Tree_len self w' = match Tree_len self w with
                        | Some (n, _) => Some (n, w')
                        | None => None
                        end
  /\ py_heap w' = py_heap w /\ git_heap w' = git_heap w /\ git_repos w' = git_repos w.
Proof.
  intros w'. split; [reflexivity|]. split; [reflexivity|].
  split; [|auto].
  unfold Tree_len, get_obj, get_Object, get_inst, git_tree_entrycount, get_entries,
    get_git, bind, nonnull, ret.
  subst w'. cbn [py_heap git_heap set_py_err].
  destruct (py_heap w !! self) as [i|]; [|reflexivity].
  destruct (as_Object (ob_struct i)) as [o|]; [|reflexivity].
  destruct (obj o) as [p|]; [|reflexivity]. cbn [undefined].
  cbn [py_heap git_heap set_py_err].
  destruct (git_heap w !! p) as [g|]; [|reflexivity].
  destruct (body g); reflexivity.
Qed.

(** C10: for a key that is neither a [str] nor an [int], indexing and
    deletion both fail with the [TypeError] "Expected int or str for tree
    index." and change nothing but the error indicator: libgit2 is not
    called and the tree is as before. *)
Theorem Tree_key_type_error w self key :
  PyString_Check key = false ->
  PyInt_Check key = false ->
  let w' := set_py_err (Some TypeError_key) w in
  Tree_getitem self key w = Some (None, w')
  /\ Tree_delitem self key None w = Some (-1, w')
  /\ py_heap w' = py_heap w /\ git_heap w' = git_heap w /\ git_repos w' = git_repos w
  /\ entries_of w' self = entries_of w self.
Proof.
  intros Hs Hi w'. unfold Tree_getitem, Tree_delitem. rewrite Hs, Hi.
  repeat split; reflexivity.
Qed.

(** C7: at a key that is not a [str], here an [int], [Tree_contains]
    returns 0 (a value, "not contained") and leaves a [TypeError] raised,
    so the call neither succeeds cleanly nor fails; its sibling
    [Repository_contains] returns -1 with its [TypeError]. *)
Theorem Tree_contains_not_str_returns_with_error w self n :
  Tree_contains self (PyInt n) w
  = Some (0, set_py_err (Some (mkErr PyExc_TypeError ExcInternal)) w)
  /\ Repository_contains self (PyInt n) w
     = Some (-1, set_py_err
                   (Some (mkErr PyExc_TypeError
                            (ExcString "Hex SHA must be str, not int"))) w).
Proof. split; reflexivity. Qed.

(** ** Identifiers and lookup *)

Lemma is_hex_not_NUL c : is_hex c = true -> Ascii.eqb c "000" = false.
Proof.
  destruct c as [[] [] [] [] [] [] [] []]; vm_compute; intros H;
    first [reflexivity | discriminate H].
Qed.

(** Hexadecimal text holds no NUL: it is its own C string. *)
Lemma c_str_all_hex s : all_hex s = true -> c_str s = s.
Proof.
  induction s as [|c r IH]; [reflexivity|]. cbn [all_hex c_str].
  intros H. apply andb_true_iff in H as [Hc Hr].
  rewrite (is_hex_not_NUL c Hc), (IH Hr). reflexivity.
Qed.

Lemma c_str_hex40 s : is_hex40 s = true -> c_str s = s.
Proof.
  unfold is_hex40. intros H. apply andb_true_iff in H as [_ H].
  now apply c_str_all_hex.
Qed.

Lemma c_string_hex40 s : is_hex40 s = true -> c_string (PyString s) = Some s.
Proof. intros H. unfold c_string. cbn [text_of]. now rewrite (c_str_hex40 s H). Qed.

(** What follows a NUL is not part of the C string. *)
Lemma c_str_app_NUL s r : c_str s = s -> c_str (s +:+ String "000" r) = s.
Proof.
  induction s as [|c s IH]; [reflexivity|].
  change (String c s +:+ String "000" r) with (String c (s +:+ String "000" r)).
  cbn [c_str]. destruct (Ascii.eqb c "000"); [discriminate|].
  intros H. injection H as H. now rewrite (IH H).
Qed.

Lemma c_str_idem s : c_str (c_str s) = c_str s.
Proof.
  induction s as [|c s IH]; [reflexivity|]. cbn [c_str].
  destruct (Ascii.eqb c "000") eqn:E; [reflexivity|].
  cbn [c_str]. now rewrite E, IH.
Qed.

Lemma c_string_idem value s : c_string value = Some s -> c_str s = s.
Proof.
  unfold c_string. destruct (text_of value) as [t|]; [|discriminate].
  intros H. injection H as <-. apply c_str_idem.
Qed.

Lemma py_str_to_git_oid_c_string value s w :
  c_string value = Some s ->
  py_str_to_git_oid value w = Some (git_oid_mkstr s, w).
Proof.
  intros H. unfold py_str_to_git_oid, PyString_AsString. rewrite H. reflexivity.
Qed.

Lemma set_py_err_same w : set_py_err (py_err w) w = w.
Proof. destruct w; reflexivity. Qed.

(** A value that does not parse: the result is [GIT_ENOTOID], and nothing
    but the error indicator may have changed. *)
Lemma py_str_to_git_oid_fails value w :
  (forall s, c_string value = Some s -> is_hex40 s = false) ->
  exists e0,
    py_str_to_git_oid value w = Some (inl GIT_ENOTOID, set_py_err e0 w).
Proof.
  intros Hbad. destruct (c_string value) as [s|] eqn:Hc.
  - exists (py_err w). rewrite (py_str_to_git_oid_c_string value s w Hc).
    rewrite (git_oid_mkstr_fail s (Hbad s eq_refl)), set_py_err_same. reflexivity.
  - unfold py_str_to_git_oid, PyString_AsString. rewrite Hc.
    eexists. reflexivity.
Qed.

Lemma ob_type_name_set_py_err value e w n :
  ob_type_name value w = Some (n, w) ->
  ob_type_name value (set_py_err e w) = Some (n, set_py_err e w).
Proof.
  destruct value; cbn [ob_type_name ret]; try (intros H; injection H as <-; reflexivity).
  unfold bind, get_inst. cbn [py_heap set_py_err].
  destruct (py_heap w !! a); [|discriminate].
  unfold ret. intros H; injection H as <-. reflexivity.
Qed.

Lemma Error_set_py_str_not_str {A} value w e n :
  PyString_Check value = false ->
  ob_type_name value w = Some (n, w) ->
  Error_set_py_str (A:=A) GIT_ENOTOID value (set_py_err e w)
  = Some (None, set_py_err
                  (Some (mkErr PyExc_TypeError
                           (ExcString ("Hex SHA must be str, not " +:+ s200 n)))) w).
Proof.
  intros Hc Hn. unfold Error_set_py_str. rewrite Hc. cbn [negb].
  rewrite bind_bind.
  rewrite (bind_Some _ _ _ _ _ (ob_type_name_set_py_err _ e _ _ Hn)).
  reflexivity.
Qed.

Lemma Error_set_py_str_malformed {A} s w :
  Error_set_py_str (A:=A) GIT_ENOTOID (PyString s) w
  = Some (None, set_py_err
                  (Some (mkErr PyExc_ValueError
                           (ExcString (invalid_hex_message (PyString s))))) w).
Proof.
  unfold Error_set_py_str, invalid_hex_message. cbn [PyString_Check negb].
  destruct (PyObject_Repr (PyString s)); reflexivity.
Qed.

(** C3 (amended): the text that is parsed is the C string of the value,
    the characters of a [str] or of the default encoding of a [unicode]
    before the first NUL.  Parsing succeeds exactly when that C string is
    exactly 40 hexadecimal characters: what follows a NUL behind 40
    hexadecimal characters is not read, and a character of the C string
    that is no hexadecimal digit, at any position, makes parsing fail.
    When it fails on a value that is no [str], a [unicode] among them, the
    error is a [TypeError] naming the type; when it fails on a [str] the
    error is a [ValueError] whose text carries the representation of the
    offending text. *)
Theorem parse_failure_kinds w self value :
  ((exists oid w', py_str_to_git_oid value w = Some (inr oid, w'))
   <-> exists s, c_string value = Some s /\ is_hex40 s = true)
  /\ (forall s r, is_hex40 s = true ->
        exists oid,
          git_oid_mkstr s = inr oid
          /\ py_str_to_git_oid (PyString (s +:+ String "000" r)) w = Some (inr oid, w))
  /\ (forall s1 c s2, c_string value = Some (s1 +:+ String c s2) ->
        is_hex c = false ->
        py_str_to_git_oid value w = Some (inl GIT_ENOTOID, w))
  /\ (PyString_Check value = false ->
      (forall s, c_string value = Some s -> is_hex40 s = false) ->
      forall n, ob_type_name value w = Some (n, w) ->
        Repository_getitem self value w
        = Some (None,
                set_py_err
                  (Some (mkErr PyExc_TypeError
                           (ExcString ("Hex SHA must be str, not " +:+ s200 n)))) w))
  /\ (forall s, value = PyString s -> is_hex40 (c_str s) = false ->
        Repository_getitem self value w
        = Some (None,
                set_py_err
                  (Some (mkErr PyExc_ValueError
                           (ExcString (invalid_hex_message value)))) w)).
Proof.
  split; [|split; [|split; [|split]]].
  - split.
    + intros (oid & w' & H). destruct (c_string value) as [s|] eqn:Hc.
      * exists s. split; [reflexivity|].
        rewrite (py_str_to_git_oid_c_string value s w Hc) in H.
        destruct (is_hex40 s) eqn:E; [reflexivity|].
        rewrite (git_oid_mkstr_fail s E) in H. discriminate.
      * destruct (py_str_to_git_oid_fails value w) as (e0 & He0).
        { intros s Hs. rewrite Hc in Hs. discriminate. }
        rewrite He0 in H. discriminate.
    + intros (s & Hc & Hs). destruct (git_oid_mkstr_ok s Hs) as (oid & Ho & _).
      exists oid, w. rewrite (py_str_to_git_oid_c_string value s w Hc), Ho. reflexivity.
  - intros s r Hs. destruct (git_oid_mkstr_ok s Hs) as (oid & Ho & _).
    exists oid. split; [exact Ho|].
    rewrite (py_str_to_git_oid_c_string _ s w), Ho; [reflexivity|].
    unfold c_string. cbn [text_of]. now rewrite (c_str_app_NUL s r (c_str_hex40 s Hs)).
  - intros s1 c s2 Hv Hc.
    rewrite (py_str_to_git_oid_c_string value _ w Hv).
    rewrite git_oid_mkstr_fail; [reflexivity|].
    unfold is_hex40. rewrite (all_hex_app s1 c s2 Hc). apply andb_false_r.
  - intros Hc Hbad n Hn. unfold Repository_getitem.
    destruct (py_str_to_git_oid_fails value w Hbad) as (e0 & He0).
    rewrite (bind_Some _ _ _ _ _ He0).
    apply Error_set_py_str_not_str; assumption.
  - intros s -> Hs. unfold Repository_getitem.
    rewrite (bind_Some _ _ _ _ _
               (py_str_to_git_oid_c_string (PyString s) (c_str s) w eq_refl)).
    rewrite (git_oid_mkstr_fail _ Hs).
    apply Error_set_py_str_malformed.
Qed.

Lemma git_of_inv w self g :
  git_of w self = Some g ->
  exists i o p,
    py_heap w !! self = Some i /\ as_Object (ob_struct i) = Some o
    /\ obj o = Some p /\ git_heap w !! p = Some g.
Proof.
  unfold git_of, Object_of. intros H.
  destruct (py_heap w !! self) as [i|] eqn:Hi; [|discriminate].
  destruct (as_Object (ob_struct i)) as [o|] eqn:Ho; [|discriminate].
  destruct (obj o) as [p|] eqn:Hp; [|discriminate].
  exists i, o, p. auto.
Qed.

Lemma Object_get_sha_spec w self g :
  git_of w self = Some g ->
  Object_get_sha self w
  = Some (Some (match object_id g with
                | None => PyNone
                | Some id => PyString_FromStringAndSize (git_oid_fmt id) GIT_OID_HEXSZ
                end), w).
Proof.
  intros H. destruct (git_of_inv _ _ _ H) as (i & o & p & Hi & Ho & Hp & Hg).
  unfold Object_get_sha, get_obj, get_Object, get_inst, git_object_id, get_git,
    bind, nonnull, ret.
  rewrite Hi, Ho, Hp, Hg. destruct (object_id g); reflexivity.
Qed.

Lemma format_wf oid :
  oid_wf oid ->
  PyString_FromStringAndSize (git_oid_fmt oid) GIT_OID_HEXSZ = PyString (git_oid_fmt oid)
  /\ String.length (git_oid_fmt oid) = 40%nat
  /\ all_lower_hex (git_oid_fmt oid) = true.
Proof.
  intros [Hl Hb]. destruct (git_oid_fmt_shape oid Hb) as [H1 H2].
  assert (H40 : String.length (git_oid_fmt oid) = GIT_OID_HEXSZ).
  { rewrite H1, Hl. reflexivity. }
  split; [|split; assumption].
  unfold PyString_FromStringAndSize. rewrite <- H40. now rewrite substring_all.
Qed.

(** C2: for every text [s] of exactly 40 hexadecimal characters, in any
    letter case, parsing [s] ([py_str_to_git_oid]) yields an identifier of
    20 bytes, and formatting that identifier ([Object_get_sha] of an object
    that has it) yields the lowercase form of [s]; and the text
    [Object_get_sha] returns for any 20-byte identifier has exactly 40
    characters, all lowercase hexadecimal digits. *)
Theorem oid_parse_format_roundtrip s w :
  is_hex40 s = true ->
  (exists oid,
     py_str_to_git_oid (PyString s) w = Some (inr oid, w)
     /\ oid_wf oid
     /\ forall w' self g,
          git_of w' self = Some g -> object_id g = Some oid ->
          Object_get_sha self w' = Some (Some (PyString (lowercase s)), w'))
  /\ (forall w' self g oid,
        git_of w' self = Some g -> object_id g = Some oid -> oid_wf oid ->
        exists t,
          Object_get_sha self w' = Some (Some (PyString t), w')
          /\ String.length t = 40%nat
          /\ all_lower_hex t = true).
Proof.
  intros Hs. split.
  - destruct (git_oid_mkstr_ok s Hs) as (oid & Ho & Hwf & Hfmt).
    exists oid.
    split; [now rewrite (py_str_to_git_oid_c_string (PyString s) s w (c_string_hex40 s Hs)), Ho|].
    split; [assumption|].
    intros w' self g Hg Hid.
    destruct (format_wf oid Hwf) as (Hf & _).
    rewrite (Object_get_sha_spec _ _ _ Hg), Hid, Hf, <- Hfmt. reflexivity.
  - intros w' self g oid Hg Hid Hwf.
    destruct (format_wf oid Hwf) as (Hf & Hlen & Hlow).
    exists (git_oid_fmt oid).
    rewrite (Object_get_sha_spec _ _ _ Hg), Hid, Hf. auto.
Qed.

Lemma Error_set_py_str_NULL {A} err value w (r : option A) w' :
  Error_set_py_str err value w = Some (r, w') -> r = None.
Proof. unfold Error_set_py_str. apply then_ret_None. Qed.

Lemma repository_of_inv w self x :
  repository_of w self = Some x ->
  exists r, get_Repository self w = Some (r, w) /\ get_repo r w = Some (x, w).
Proof.
  unfold repository_of, get_Repository, get_repo, get_inst, bind, nonnull, ret.
  destruct (py_heap w !! self) as [i|]; [|discriminate].
  destruct (ob_struct i) as [[r|]| | |]; try discriminate.
  intros H. exists r. rewrite H. auto.
Qed.

Lemma set_own_obj_spec a b w w' :
  set_own_obj a b w = Some (tt, w') ->
  exists o, Object_of w' a = Some o /\ own_obj o = b.
Proof.
  unfold set_own_obj, get_Object, put_Object, get_inst, put_inst, bind, nonnull, modify, ret.
  destruct (py_heap w !! a) as [i|] eqn:Hi; [|discriminate].
  destruct (as_Object (ob_struct i)) as [o|] eqn:Ho; [|discriminate].
  cbn [undefined]. rewrite Hi. intros H. injection H as <-.
  eexists. unfold Object_of. cbn [py_heap set_py_heap]. rewrite lookup_insert_eq.
  cbn [ob_struct]. split.
  - destruct (ob_struct i); try discriminate; reflexivity.
  - reflexivity.
Qed.

(** ** The argument parser *)

Lemma c_str_length s : String.length (c_str s) = String.length s -> c_str s = s.
Proof.
  induction s as [|c r IH]; [reflexivity|]. cbn [c_str].
  destruct (Ascii.eqb c "000"); [discriminate|].
  cbn [String.length]. intros H. injection H as H. now rewrite (IH H).
Qed.

Lemma seterror_spec w :
  seterror w = Some (tt, set_py_err (Some (conversion_error w)) w).
Proof.
  unfold seterror, conversion_error, bind, PyErr_Occurred.
  destruct w as [[e|] h g r m]; reflexivity.
Qed.

Lemma convert_s_text v s w :
  text_of v = Some s -> c_str s = s -> convert_s v w = Some (Some s, w).
Proof.
  intros Hv Hs.
  destruct v as [x|[x|]| | | | | |]; try discriminate; injection Hv as ->;
    cbn [convert_s]; rewrite Hs, Nat.eqb_refl; reflexivity.
Qed.

(** A value without a text, or with a NUL inside its text. *)
Lemma convert_s_refused v w :
  (forall s, text_of v = Some s -> c_str s <> s) ->
  convert_s v w
  = Some (None,
          set_py_err
            (Some (match v with
                   | PyUnicode None => mkErr PyExc_UnicodeEncodeError ExcInternal
                   | _ => conversion_error w
                   end)) w).
Proof.
  intros Hv.
  assert (Hs : forall s, text_of v = Some s ->
                 (String.length (c_str s) =? String.length s)%nat = false).
  { intros s H. apply Nat.eqb_neq. intros E. exact (Hv s H (c_str_length s E)). }
  destruct v as [x|[x|]| | | | | |]; cbn [convert_s];
    try rewrite (Hs x eq_refl);
    try (unfold bind; rewrite seterror_spec; reflexivity).
  unfold bind, PyErr_Set, modify. rewrite seterror_spec. reflexivity.
Qed.

Lemma PyInt_AsLong_integer v n w :
  integer_of v = Some n -> LONG_MIN <= n <= LONG_MAX -> PyInt_AsLong v w = Some (n, w).
Proof.
  intros Hv Hn.
  assert (E : (LONG_MIN <=? n) && (n <=? LONG_MAX) = true)
    by (apply andb_true_iff; split; apply Z.leb_le; lia).
  destruct v as [| | | | | | |tn f [x|e|]]; try discriminate; injection Hv as ->;
    cbn [PyInt_AsLong]; try rewrite E; reflexivity.
Qed.

Lemma PyInt_AsLong_overflow v n w :
  integer_of v = Some n -> PyInt_Check v = false ->
  n < LONG_MIN \/ LONG_MAX < n ->
  PyInt_AsLong v w
  = Some (-1, set_py_err (Some (mkErr PyExc_OverflowError ExcInternal)) w).
Proof.
  intros Hv Hc Hn.
  assert (E : (LONG_MIN <=? n) && (n <=? LONG_MAX) = false).
  { apply andb_false_iff. destruct Hn; [left|right]; apply Z.leb_gt; lia. }
  destruct v as [| | | | | | |tn f [x|e|]]; try discriminate; injection Hv as ->;
    cbn [PyInt_AsLong]; rewrite E; reflexivity.
Qed.

Lemma PyInt_AsLong_no_integer v w :
  integer_of v = None ->
  PyInt_AsLong v w = Some (-1, set_py_err (Some (no_integer_error v)) w).
Proof.
  intros Hv. destruct v as [| | | | | | |tn f [x|e|]]; try discriminate; reflexivity.
Qed.

Lemma convert_i_integer v i w :
  PyFloat_Check v = false -> integer_of v = Some i ->
  INT_MIN <= i <= INT_MAX -> (i = -1 -> py_err w = None) ->
  convert_i v w = Some (Some i, w).
Proof.
  intros Hf Hv Hi He. unfold convert_i. rewrite Hf.
  assert (Hl : LONG_MIN <= i <= LONG_MAX).
  { unfold INT_MIN, INT_MAX, INT_BITS, LONG_MIN, LONG_MAX, LONG_BITS in *.
    cbn in *. lia. }
  rewrite (bind_Some _ _ _ _ _ (PyInt_AsLong_integer v i w Hv Hl)).
  unfold bind, ret, PyErr_Occurred.
  replace ((i =? -1) && match py_err w with Some _ => true | None => false end)
    with false.
  2:{ symmetry. destruct (Z.eqb_spec i (-1)) as [E|E]; [|reflexivity].
      rewrite (He E). reflexivity. }
  destruct (Z.gtb_spec i INT_MAX); [lia|].
  destruct (Z.ltb_spec i INT_MIN); [lia|]. reflexivity.
Qed.

Lemma convert_i_float v w :
  PyFloat_Check v = true ->
  convert_i v w = Some (None, set_py_err (Some (mkErr PyExc_TypeError ExcInternal)) w).
Proof.
  intros Hf. unfold convert_i. rewrite Hf.
  unfold bind, PyErr_Set, modify. rewrite seterror_spec. reflexivity.
Qed.

Lemma convert_i_no_integer v w :
  PyFloat_Check v = false -> integer_of v = None ->
  convert_i v w = Some (None, set_py_err (Some (no_integer_error v)) w).
Proof.
  intros Hf Hv. unfold convert_i. rewrite Hf.
  rewrite (bind_Some _ _ _ _ _ (PyInt_AsLong_no_integer v w Hv)).
  unfold bind, PyErr_Occurred. cbn [py_err set_py_err Z.eqb Pos.eqb andb].
  rewrite seterror_spec. reflexivity.
Qed.

Lemma convert_i_overflow v n w :
  PyFloat_Check v = false -> integer_of v = Some n ->
  n < INT_MIN \/ INT_MAX < n ->
  convert_i v w
  = Some (None, set_py_err (Some (mkErr PyExc_OverflowError ExcInternal)) w).
Proof.
  intros Hf Hv Hn. unfold convert_i. rewrite Hf.
  assert (Hcase : PyInt_AsLong v w = Some (n, w)
                  \/ PyInt_AsLong v w
                     = Some (-1, set_py_err
                                   (Some (mkErr PyExc_OverflowError ExcInternal)) w)).
  { destruct (PyInt_Check v) eqn:Hck.
    - left. destruct v as [| |x| | | | |]; try discriminate.
      injection Hv as Hv. subst x. reflexivity.
    - destruct (Z_le_dec LONG_MIN n) as [H1|H1];
        [destruct (Z_le_dec n LONG_MAX) as [H2|H2]|].
      + left. apply PyInt_AsLong_integer; auto.
      + right. apply (PyInt_AsLong_overflow v n w Hv Hck). right. lia.
      + right. apply (PyInt_AsLong_overflow v n w Hv Hck). left. lia. }
  destruct Hcase as [E|E]; rewrite (bind_Some _ _ _ _ _ E).
  - assert (Hne : (n =? -1) = false).
    { apply Z.eqb_neq. unfold INT_MIN, INT_MAX, INT_BITS in Hn. cbn in Hn. lia. }
    unfold bind at 1, PyErr_Occurred at 1. rewrite Hne. cbn [andb].
    destruct (Z.gtb_spec n INT_MAX) as [G|G].
    { unfold bind, PyErr_Set, modify. rewrite seterror_spec. reflexivity. }
    destruct (Z.ltb_spec n INT_MIN) as [L|L]; [|lia].
    unfold bind, PyErr_Set, modify. rewrite seterror_spec. reflexivity.
  - unfold bind, PyErr_Occurred. cbn [py_err set_py_err Z.eqb Pos.eqb andb].
    rewrite seterror_spec. reflexivity.
Qed.

Lemma PyArg_ParseTuple_Osi_parsed o vname name vattr attr w :
  text_of vname = Some name -> c_str name = name ->
  PyFloat_Check vattr = false -> integer_of vattr = Some attr ->
  INT_MIN <= attr <= INT_MAX -> (attr = -1 -> py_err w = None) ->
  PyArg_ParseTuple_Osi [o; vname; vattr] w = Some (Some (o, name, attr), w).
Proof.
  intros Hv Hn Hf Hi Ha He. unfold PyArg_ParseTuple_Osi.
  rewrite (bind_Some _ _ _ _ _ (convert_s_text vname name w Hv Hn)).
  rewrite (bind_Some _ _ _ _ _ (convert_i_integer vattr attr w Hf Hi Ha He)).
  reflexivity.
Qed.

Lemma PyArg_ParseTuple_Osi_ok o name attr w :
  c_str name = name ->
  INT_MIN <= attr <= INT_MAX -> (attr = -1 -> py_err w = None) ->
  PyArg_ParseTuple_Osi [o; PyString name; PyInt attr] w = Some (Some (o, name, attr), w).
Proof.
  intros Hn Ha He.
  apply PyArg_ParseTuple_Osi_parsed; auto.
Qed.

(** X1: [add_entry] parses the identifier before it touches the tree.
    Called with a name that holds no NUL and attributes that fit a C
    [int] (and, for the attributes -1, with no error pending), which the
    argument parser accepts, and with an identifier whose C string is not
    40 hexadecimal characters, or that has none, it fails with
    [ValueError] for a [str] and with [TypeError] for any other value,
    and changes nothing but the error indicator. *)
Lemma Tree_add_entry_malformed_unchanged w self value name attr n :
  c_str name = name ->
  INT_MIN <= attr <= INT_MAX ->
  (attr = -1 -> py_err w = None) ->
  (forall s, c_string value = Some s -> is_hex40 s = false) ->
  ob_type_name value w = Some (n, w) ->
  let e := if PyString_Check value
           then mkErr PyExc_ValueError (ExcString (invalid_hex_message value))
           else mkErr PyExc_TypeError
                  (ExcString ("Hex SHA must be str, not " +:+ s200 n)) in
  let w' := set_py_err (Some e) w in
  Tree_add_entry self [value; PyString name; PyInt attr] w = Some (None, w')
  /\ entries_of w' self = entries_of w self
  /\ py_heap w' = py_heap w /\ git_heap w' = git_heap w
  /\ git_repos w' = git_repos w /\ mem w' = mem w.
Proof.
  intros Hname Ha Herr Hbad Hn e w'. split; [|repeat split].
  unfold Tree_add_entry.
  rewrite (bind_Some _ _ _ _ _ (PyArg_ParseTuple_Osi_ok value name attr w Hname Ha Herr)).
  subst w' e.
  destruct (py_str_to_git_oid_fails value w Hbad) as (e0 & He0).
  rewrite (bind_Some _ _ _ _ _ He0).
  destruct (PyString_Check value) eqn:Hc.
  - destruct value; try discriminate.
    rewrite <- (Error_set_py_str_malformed (A:=PyObject) s w).
    unfold Error_set_py_str. cbn [PyString_Check negb].
    destruct (PyObject_Repr (PyString s)); reflexivity.
  - apply Error_set_py_str_not_str; assumption.
Qed.

(** ** Construction, tags and reference counts *)

Lemma Py_INCREF_inv b w w' :
  Py_INCREF b w = Some (tt, w') ->
  (forall a, struct_of w' a = struct_of w a)
  /\ git_heap w' = git_heap w /\ py_err w' = py_err w /\ git_repos w' = git_repos w.
Proof.
  unfold Py_INCREF, get_inst, put_inst, bind, modify.
  destruct (py_heap w !! b) as [i|] eqn:Hi; [|discriminate].
  intros H. injection H as <-. split; [|auto].
  intros a. unfold struct_of. cbn [py_heap set_py_heap].
  destruct (decide (b = a)) as [->|Hne].
  - rewrite lookup_insert_eq, Hi. reflexivity.
  - rewrite lookup_insert_ne by exact Hne. reflexivity.
Qed.

Lemma put_Object_inv a o w w' :
  put_Object a o w = Some (tt, w') ->
  (exists s, struct_of w a = Some s /\ struct_of w' a = Some (with_Object s o))
  /\ (forall b, b <> a -> struct_of w' b = struct_of w b)
  /\ git_heap w' = git_heap w /\ py_err w' = py_err w /\ git_repos w' = git_repos w.
Proof.
  unfold put_Object, get_inst, put_inst, bind, modify.
  destruct (py_heap w !! a) as [i|] eqn:Hi; [|discriminate].
  intros H. injection H as <-. split; [|split; [|auto]].
  - exists (ob_struct i). unfold struct_of. cbn [py_heap set_py_heap].
    rewrite Hi, lookup_insert_eq. auto.
  - intros b Hb. unfold struct_of. cbn [py_heap set_py_heap].
    rewrite lookup_insert_ne by auto. reflexivity.
Qed.

Lemma get_Object_inv a w o w' :
  get_Object a w = Some (o, w') ->
  w' = w /\ exists s, struct_of w a = Some s /\ as_Object s = Some o.
Proof.
  unfold get_Object, get_inst, bind, nonnull, struct_of.
  destruct (py_heap w !! a) as [i|]; [|discriminate].
  destruct (as_Object (ob_struct i)) as [o'|] eqn:E; [|discriminate].
  unfold ret. intros H. injection H as <- <-. eauto.
Qed.

Lemma as_Object_with s o : is_Some (as_Object s) -> as_Object (with_Object s o) = Some o.
Proof. destruct s; intros [x Hx]; try discriminate; reflexivity. Qed.

(** One field assignment through an [Object *]. *)
Lemma set_field_inv (f : Object -> Object) a w w' :
  (let* o := get_Object a in put_Object a (f o)) w = Some (tt, w') ->
  (exists s o, struct_of w a = Some s /\ as_Object s = Some o
               /\ struct_of w' a = Some (with_Object s (f o)))
  /\ (forall b, b <> a -> struct_of w' b = struct_of w b)
  /\ git_heap w' = git_heap w /\ py_err w' = py_err w /\ git_repos w' = git_repos w.
Proof.
  intros H. apply bind_inv in H as (o & w1 & Hg & Hp).
  apply get_Object_inv in Hg as (-> & s & Hs & Ho).
  apply put_Object_inv in Hp as ((s' & Hs' & Hs'') & Hoth & Hrest).
  split; [|split; assumption].
  exists s, o. rewrite Hs in Hs'. injection Hs' as <-. auto.
Qed.

Lemma git_object_new_inv r t w p w' :
  git_object_new r t w = Some (Some p, w') ->
  exists b, new_body t = Some b
    /\ git_heap w' = <[p := mkGitObject None r b]> (git_heap w)
    /\ git_heap w !! p = None
    /\ py_heap w' = py_heap w /\ py_err w' = py_err w.
Proof.
  unfold git_object_new. destruct (mem w) as [|n]; [discriminate|].
  destruct (new_body t) as [b|]; [|discriminate].
  intros H. injection H as <- <-. exists b. repeat split.
  apply not_elem_of_dom. apply is_fresh.
Qed.

Lemma Object_init_with_type_inv py_obj type args kwds w r w' :
  Object_init_with_type py_obj type args kwds w = Some (r, w') ->
  r = -1
  \/ (r = 0 /\ exists s b repo p owner,
        struct_of w py_obj = Some s
        /\ struct_of w' py_obj
           = Some (with_Object s (mkObject (Some repo) true (Some p)))
        /\ new_body type = Some b
        /\ git_heap w' !! p = Some (mkGitObject None owner b)
        /\ py_err w' = py_err w).
Proof.
  unfold Object_init_with_type. intros H.
  destruct kwds as [kw|].
  { apply bind_inv in H as (n & w1 & _ & H). apply bind_inv in H as (? & w2 & _ & H).
    injection H as <- _. auto. }
  apply bind_inv in H as ([repo|] & w1 & Hparse & H); [|injection H as <- _; auto].
  assert (w1 = w) as ->.
  { unfold PyArg_ParseTuple_O in Hparse. destruct args as [|x [|y l]]; try discriminate.
    now injection Hparse as _ <-. }
  apply bind_inv in H as (ok & w1 & Hck & H).
  assert (w1 = w) as ->.
  { unfold PyObject_TypeCheck in Hck. destruct repo; try (now injection Hck as _ <-).
    apply bind_inv in Hck as (i & w2 & Hi & Hck). injection Hck as _ <-.
    unfold get_inst in Hi. destruct (py_heap w !! a); [|discriminate]. now injection Hi as _ <-. }
  destruct ok; cbn [negb] in H.
  2:{ apply bind_inv in H as (n & w1 & _ & H). apply bind_inv in H as (? & w2 & _ & H).
      injection H as <- _. auto. }
  destruct repo as [| | | | |repo| |]; try discriminate.
  apply bind_inv in H as (rp & w1 & Hrp & H).
  assert (w1 = w) as ->.
  { unfold get_Repository, get_inst, bind, nonnull in Hrp.
    destruct (py_heap w !! repo) as [i|]; [|discriminate].
    destruct (ob_struct i) as [[x|]| | |]; try discriminate.
    now injection Hrp as _ <-. }
  apply bind_inv in H as ([p|] & w1 & Hnew & H).
  2:{ apply bind_inv in H as (? & w2 & _ & H). injection H as <- _. auto. }
  apply git_object_new_inv in Hnew as (b & Hb & Hgh & Hfresh & Hph & Hpe).
  apply bind_inv in H as ([] & w2 & Hinc & H).
  apply Py_INCREF_inv in Hinc as (Hs2 & Hg2 & He2 & _).
  apply bind_inv in H as ([] & w3 & Hset1 & H).
  apply set_field_inv in Hset1 as ((s3 & o3 & Hs3 & Ho3 & Hs3') & _ & Hg3 & He3 & _).
  apply bind_inv in H as ([] & w4 & Hset2 & H).
  apply set_field_inv in Hset2 as ((s4 & o4 & Hs4 & Ho4 & Hs4') & _ & Hg4 & He4 & _).
  apply bind_inv in H as ([] & w5 & Hset3 & H).
  apply set_field_inv in Hset3 as ((s5 & o5 & Hs5 & Ho5 & Hs5') & _ & Hg5 & He5 & _).
  injection H as <- <-. right. split; [reflexivity|].
  assert (Hs1 : struct_of w py_obj = Some s3).
  { rewrite <- Hs3, Hs2. unfold struct_of. now rewrite Hph. }
  rewrite Hs3' in Hs4. injection Hs4 as <-.
  rewrite as_Object_with in Ho4 by eauto. injection Ho4 as <-.
  rewrite Hs4' in Hs5. injection Hs5 as <-.
  rewrite as_Object_with in Ho5 by (rewrite as_Object_with by eauto; eauto).
  injection Ho5 as <-.
  exists s3, b, repo, p, rp. split; [exact Hs1|]. split.
  { rewrite Hs5'. cbn [Py.repo Py.own_obj Py.obj]. f_equal.
    destruct s3; try discriminate; reflexivity. }
  split; [exact Hb|]. split.
  { rewrite Hg5, Hg4, Hg3, Hg2, Hgh. apply lookup_insert_eq. }
  congruence.
Qed.

Lemma insert_alter_heap (h : gmap nat PyInst) a i f :
  h !! a = Some i -> <[a := f i]> h = alter f a h.
Proof.
  intros H. apply map_eq. intros b. rewrite lookup_alter.
  destruct (decide (a = b)) as [->|Hne].
  - now rewrite lookup_insert_eq, H.
  - now rewrite lookup_insert_ne.
Qed.

Lemma Py_INCREF_fwd b w :
  is_Some (py_heap w !! b) ->
  Py_INCREF b w = Some (tt, set_py_heap (alter incr b (py_heap w)) w).
Proof.
  intros [i Hi]. unfold Py_INCREF, get_inst, put_inst, bind, modify. rewrite Hi.
  rewrite <- (insert_alter_heap _ _ _ incr Hi). reflexivity.
Qed.

Lemma Py_DECREF_fwd b w i :
  py_heap w !! b = Some i -> ob_refcnt i <> 1 ->
  Py_DECREF b w = Some (tt, set_py_heap (alter decr b (py_heap w)) w).
Proof.
  intros Hi Hrc. unfold Py_DECREF.
  assert (E : forall fuel, Py_DECREF_rec fuel b w
              = Some (tt, set_py_heap (alter decr b (py_heap w)) w)).
  { intros fuel.
    replace (Py_DECREF_rec fuel b)
      with (let* i := get_inst b in
            put_inst b (mkInst (ob_refcnt i - 1) (ob_type i) (ob_struct i)) ;;
            if ob_refcnt i - 1 =? 0 then
              match fuel with
              | O => undefined
              | S fuel => tp_dealloc (ob_type i) (Py_DECREF_rec fuel) b
              end
            else ret tt) by (destruct fuel; reflexivity).
    unfold get_inst, put_inst, bind, modify. rewrite Hi.
    destruct (Z.eqb_spec (ob_refcnt i - 1) 0); [lia|].
    rewrite <- (insert_alter_heap _ _ _ decr Hi). reflexivity. }
  apply E.
Qed.

Lemma put_target_fwd a t w i o old :
  py_heap w !! a = Some i -> ob_struct i = Tag_struct o old ->
  put_target a t w = Some (tt, set_py_heap (alter (retarget t) a (py_heap w)) w).
Proof.
  intros Hi Hs. unfold put_target, get_inst, put_inst, bind, modify. rewrite Hi, Hs.
  rewrite <- (insert_alter_heap _ _ _ (retarget t) Hi). unfold retarget. now rewrite Hs.
Qed.

Lemma lookup_alter_dec (f : PyInst -> PyInst) (h : gmap nat PyInst) a x :
  alter f a h !! x = (if decide (a = x) then f else id) <$> (h !! x).
Proof.
  destruct (decide (a = x)) as [->|Hne].
  - apply lookup_alter_eq.
  - rewrite lookup_alter_ne by exact Hne. destruct (h !! x); reflexivity.
Qed.

Lemma release_lookup old h x :
  release old h !! x = (if decide (old = Some x) then decr else id) <$> (h !! x).
Proof.
  unfold release. destruct old as [q|].
  - rewrite lookup_alter_dec.
    destruct (decide (q = x)), (decide (Some q = Some x)); try congruence; reflexivity.
  - destruct (decide (None = Some x)); [congruence|]. destruct (h !! x); reflexivity.
Qed.

Lemma heap_after_lookup self t old h x :
  heap_after_set_target self t old h !! x
  = (fun i =>
       (if decide (t = x) then incr else id)
         ((if decide (self = x) then retarget (Some t) else id)
            ((if decide (old = Some x) then decr else id) i))) <$> (h !! x).
Proof.
  unfold heap_after_set_target.
  rewrite !lookup_alter_dec, release_lookup.
  destruct (h !! x); reflexivity.
Qed.

Lemma Py_XDECREF_fwd old w :
  match old with
  | None => True
  | Some q => exists iq, py_heap w !! q = Some iq /\ ob_refcnt iq <> 1
  end ->
  Py_XDECREF old w = Some (tt, set_py_heap (release old (py_heap w)) w).
Proof.
  destruct old as [q|]; cbn [Py_XDECREF XDECREF_with release].
  - intros (iq & Hq & Hrc). apply (Py_DECREF_fwd q w iq Hq Hrc).
  - intros _. destruct w; reflexivity.
Qed.

Lemma git_tag_set_target_fwd w tag p gt gp tt0 ty0 :
  git_heap w !! tag = Some gt -> body gt = Tag_body tt0 ty0 ->
  git_heap w !! p = Some gp ->
  git_tag_set_target tag p w
  = Some (tt, set_git_heap
                (<[tag := mkGitObject (object_id gt) (object_owner gt)
                            (Tag_body (Some p) (body_type (body gp)))]> (git_heap w)) w).
Proof.
  intros Hgt Hbt Hgp.
  unfold git_tag_set_target, get_tag, git_object_type.
  unfold bind at 1. unfold bind at 1. unfold get_git at 1. rewrite Hgt, Hbt. cbn [ret].
  unfold bind at 1. unfold get_git at 1. rewrite Hgt.
  unfold bind at 1. unfold bind at 1. unfold get_git at 1. rewrite Hgp. cbn [ret].
  reflexivity.
Qed.

Lemma as_Object_after self t old h x i :
  h !! x = Some i ->
  exists i', heap_after_set_target self t old h !! x = Some i'
    /\ as_Object (ob_struct i') = as_Object (ob_struct i)
    /\ ob_refcnt i' = ob_refcnt i + (if decide (t = x) then 1 else 0)
                      - (if decide (old = Some x) then 1 else 0)
    /\ (self = x -> forall o u, ob_struct i = Tag_struct o u ->
        ob_struct i' = Tag_struct o (Some t)).
Proof.
  intros Hi. rewrite heap_after_lookup, Hi. eexists. split; [reflexivity|].
  destruct (decide (t = x)), (decide (self = x)), (decide (old = Some x));
    cbn [incr retarget decr id ob_struct ob_refcnt];
    (split; [destruct (ob_struct i); reflexivity|]);
    (split; [lia|]); intros Hx o u Hs; try congruence; rewrite Hs; reflexivity.
Qed.

Lemma get_obj_after self t old w w' x i o p :
  py_heap w' = heap_after_set_target self t old (py_heap w) ->
  py_heap w !! x = Some i -> as_Object (ob_struct i) = Some o -> obj o = Some p ->
  get_obj x w' = Some (p, w').
Proof.
  intros Hh Hi Ho Hp.
  destruct (as_Object_after self t old _ x i Hi) as (i' & Hi' & Hs & _).
  unfold get_obj, get_Object, get_inst, bind, nonnull, ret.
  rewrite Hh, Hi', Hs, Ho, Hp. reflexivity.
Qed.

Lemma Tag_set_target_ok w self t iself os old tag gt tt0 ty0 it ot p gp :
  py_heap w !! self = Some iself -> ob_struct iself = Tag_struct os old ->
  obj os = Some tag -> git_heap w !! tag = Some gt -> body gt = Tag_body tt0 ty0 ->
  py_heap w !! t = Some it -> PyType_IsSubtype (ob_type it) ObjectType = true ->
  as_Object (ob_struct it) = Some ot -> obj ot = Some p -> git_heap w !! p = Some gp ->
  match old with
  | None => True
  | Some q => exists iq, py_heap w !! q = Some iq /\ ob_refcnt iq <> 1
  end ->
  Tag_set_target self (PyInstance t) w
  = Some (0,
          set_git_heap
            (<[tag := mkGitObject (object_id gt) (object_owner gt)
                        (Tag_body (Some p) (body_type (body gp)))]> (git_heap w))
            (set_py_heap (heap_after_set_target self t old (py_heap w)) w)).
Proof.
  intros Hself Hss Htag Hgt Hbt Ht Hsub Hot Hp Hgp Hold.
  unfold Tag_set_target.
  unfold bind at 1. unfold PyObject_TypeCheck, bind at 1, get_inst. rewrite Ht.
  cbn [ret]. rewrite Hsub. cbn [negb].
  unfold bind at 1. unfold get_target, bind at 1, get_inst. rewrite Hself, Hss. cbn [ret].
  rewrite (bind_Some _ _ _ _ _ (Py_XDECREF_fwd old w Hold)).
  set (w1 := set_py_heap (release old (py_heap w)) w).
  assert (H1 : exists i1, py_heap w1 !! self = Some i1 /\ ob_struct i1 = Tag_struct os old).
  { unfold w1. cbn [py_heap set_py_heap]. rewrite release_lookup, Hself.
    destruct (decide (old = Some self)); eexists; (split; [reflexivity|exact Hss]). }
  destruct H1 as (i1 & Hi1 & Hs1).
  rewrite (bind_Some _ _ _ _ _ (put_target_fwd self (Some t) w1 i1 os old Hi1 Hs1)).
  set (w2 := set_py_heap _ w1).
  assert (H2 : is_Some (py_heap w2 !! t)).
  { unfold w2, w1. cbn [py_heap set_py_heap]. rewrite lookup_alter_dec, release_lookup, Ht.
    eauto. }
  rewrite (bind_Some _ _ _ _ _ (Py_INCREF_fwd t w2 H2)).
  set (w3 := set_py_heap _ w2).
  assert (Hh3 : py_heap w3 = heap_after_set_target self t old (py_heap w)) by reflexivity.
  assert (Hos : as_Object (ob_struct iself) = Some os) by (rewrite Hss; reflexivity).
  rewrite (bind_Some _ _ _ _ _ (get_obj_after self t old w w3 self iself os tag Hh3 Hself Hos Htag)).
  rewrite (bind_Some _ _ _ _ _ (get_obj_after self t old w w3 t it ot p Hh3 Ht Hot Hp)).
  rewrite (bind_Some _ _ _ _ _ (git_tag_set_target_fwd w3 tag p gt gp tt0 ty0 Hgt Hbt Hgp)).
  reflexivity.
Qed.

Lemma tp_alloc_inv t w a w' :
  tp_alloc t w = Some (Some a, w') ->
  struct_of w' a = Some (zeroed t)
  /\ py_err w' = py_err w /\ git_heap w' = git_heap w.
Proof.
  unfold tp_alloc. destruct (mem w); [discriminate|].
  intros H. injection H as <- <-. unfold struct_of. cbn [py_heap set_mem set_py_heap].
  rewrite lookup_insert_eq. auto.
Qed.

Lemma type_call_Object_inv t type args kwds w a w' :
  type_call t (fun o => Object_init_with_type o type) args kwds w = Some (Some a, w') ->
  exists b repo p owner,
    struct_of w' a
    = Some (with_Object (zeroed t) (mkObject (Some repo) true (Some p)))
    /\ new_body type = Some b
    /\ git_heap w' !! p = Some (mkGitObject None owner b)
    /\ py_err w' = py_err w.
Proof.
  unfold type_call. intros H.
  apply bind_inv in H as ([a0|] & w1 & Hal & H); [|discriminate].
  apply tp_alloc_inv in Hal as (Hs1 & He1 & _).
  apply bind_inv in H as (r & w2 & Hinit & H).
  apply Object_init_with_type_inv in Hinit as [->|(-> & s & b & repo & p & owner & Hs & Hs' & Hb & Hg & He)].
  - cbn in H. apply bind_inv in H as (? & ? & _ & H). discriminate.
  - cbn in H. injection H as <- <-.
    rewrite Hs1 in Hs. injection Hs as <-.
    exists b, repo, p, owner. repeat split; try assumption. congruence.
Qed.

Lemma struct_of_inv w a s :
  struct_of w a = Some s -> exists i, py_heap w !! a = Some i /\ ob_struct i = s.
Proof.
  unfold struct_of. destruct (py_heap w !! a) as [i|]; [|discriminate].
  intros H. injection H as <-. eauto.
Qed.

(** X24: the life of a tag's target.  A freshly constructed [Tag] has no
    target and no target type; the setter rejects with a [TypeError]
    every value that is no instance of a type of the module, and every
    [Repository]; and a successful [set_target] of an [Object] that has
    its libgit2 object stores it as the target, makes [target_type] equal
    to the object's [type], takes one more reference to it and gives up
    the reference to the previous target (stated here while that one
    stays alive: a count that reaches zero hands the object to
    [tp_dealloc]). *)
Theorem Tag_target_lifecycle :
  (forall w args kwds a w',
     type_call TagType Tag_init args kwds w = Some (Some a, w') ->
     Tag_get_target a w' = Some (Some PyNone, w')
     /\ Tag_get_target_type a w' = Some (Some PyNone, w'))
  /\ (forall w self target n,
        match target with
        | PyInstance a =>
            exists i, py_heap w !! a = Some i /\ ob_type i = RepositoryType
        | _ => True
        end ->
        ob_type_name target w = Some (n, w) ->
        Tag_set_target self target w
        = Some (-1,
                set_py_err
                  (Some (mkErr PyExc_TypeError
                           (ExcString ("target must be pygit2.Object, not " +:+ s200 n)))) w))
  /\ (forall w self t old gt tt0 ty0 it gp,
        target_of w self = Some old ->
        git_of w self = Some gt -> body gt = Tag_body tt0 ty0 ->
        py_heap w !! t = Some it ->
        PyType_IsSubtype (ob_type it) ObjectType = true ->
        git_of w t = Some gp ->
        match old with
        | None => True
        | Some q => exists k, refcnt_of w q = Some k /\ k <> 1
        end ->
        exists w',
          Tag_set_target self (PyInstance t) w = Some (0, w')
          /\ py_err w' = py_err w
          /\ target_of w' self = Some (Some t)
          /\ (exists ty,
                Object_get_type t w' = Some (Some (PyInt (otype_code ty)), w')
                /\ Tag_get_target_type self w' = Some (Some (PyInt (otype_code ty)), w'))
          /\ forall x,
               refcnt_of w' x
               = (fun k => k + (if decide (t = x) then 1 else 0)
                           - (if decide (old = Some x) then 1 else 0))
                   <$> refcnt_of w x).
Proof.
  split; [|split].
  - intros w args kwds a w' H.
    apply (type_call_Object_inv TagType GIT_OBJ_TAG) in H
      as (b & repo & p & owner & Hs & Hb & Hg & _).
    injection Hb as <-. cbn [zeroed with_Object] in Hs.
    apply struct_of_inv in Hs as (i & Hi & Hs).
    unfold Tag_get_target, Tag_get_target_type, get_target, get_obj, get_Object,
      get_inst, git_tag_target, get_tag, get_git, bind, nonnull, ret.
    rewrite Hi, Hs. cbn [as_Object obj]. rewrite Hg. cbn [body fst]. auto.
  - intros w self target n Hno Hn. unfold Tag_set_target.
    assert (Hck : PyObject_TypeCheck target ObjectType w = Some (false, w)).
    { destruct target as [| | | | |a| |]; try reflexivity.
      destruct Hno as (i & Hi & Hty).
      unfold PyObject_TypeCheck, bind, get_inst. rewrite Hi, Hty. reflexivity. }
    rewrite (bind_Some _ _ _ _ _ Hck). cbn [negb].
    rewrite (bind_Some _ _ _ _ _ Hn). reflexivity.
  - intros w self t old gt tt0 ty0 it gp Htgt Hgs Hbt Ht Hsub Hgt Hold.
    assert (Hself : exists iself os, py_heap w !! self = Some iself
                                     /\ ob_struct iself = Tag_struct os old).
    { unfold target_of in Htgt. destruct (py_heap w !! self) as [i|]; [|discriminate].
      destruct (ob_struct i) eqn:E; try discriminate. injection Htgt as <-. eauto. }
    destruct Hself as (iself & os & Hself & Hss).
    apply git_of_inv in Hgs as (i1 & o1 & tag & Hi1 & Ho1 & Htag & Hgtag).
    rewrite Hself in Hi1. injection Hi1 as <-. rewrite Hss in Ho1.
    cbn [as_Object] in Ho1. injection Ho1 as <-.
    apply git_of_inv in Hgt as (i2 & ot & p & Hi2 & Hot & Hp & Hgp).
    rewrite Ht in Hi2. injection Hi2 as <-.
    assert (Hold' : match old with
                    | None => True
                    | Some q => exists iq, py_heap w !! q = Some iq /\ ob_refcnt iq <> 1
                    end).
    { destruct old as [q|]; [|exact I]. destruct Hold as (k & Hk & Hk1).
      unfold refcnt_of in Hk. destruct (py_heap w !! q) as [iq|]; [|discriminate].
      injection Hk as <-. eauto. }
    eexists. split.
    { apply (Tag_set_target_ok w self t iself os old tag gt tt0 ty0 it ot p gp);
        assumption. }
    set (w' := set_git_heap _ _).
    assert (Hh : py_heap w' = heap_after_set_target self t old (py_heap w)) by reflexivity.
    assert (Hos : as_Object (ob_struct iself) = Some os) by (rewrite Hss; reflexivity).
    pose proof (get_obj_after self t old w w' self iself os tag Hh Hself Hos Htag) as Hobj_self.
    pose proof (get_obj_after self t old w w' t it ot p Hh Ht Hot Hp) as Hobj_t.
    destruct (as_Object_after self t old _ self iself Hself) as (i' & Hi' & _ & _ & Hst).
    specialize (Hst eq_refl os old Hss).
    split; [reflexivity|]. split.
    { unfold target_of. rewrite Hh, Hi', Hst. reflexivity. }
    split.
    { exists (body_type (body gp)). split.
      - unfold Object_get_type. rewrite (bind_Some _ _ _ _ _ Hobj_t).
        unfold git_object_type, get_git, bind, ret. unfold w' at 1.
        cbn [git_heap set_git_heap].
        destruct (decide (tag = p)) as [->|Hne].
        + rewrite lookup_insert_eq. cbn [body body_type].
          rewrite Hgtag in Hgp. injection Hgp as <-. rewrite Hbt. reflexivity.
        + rewrite lookup_insert_ne by exact Hne. rewrite Hgp. reflexivity.
      - unfold Tag_get_target_type, get_target, get_inst.
        unfold bind at 1. unfold bind at 1. rewrite Hh, Hi', Hst. cbn [ret].
        rewrite (bind_Some _ _ _ _ _ Hobj_self).
        unfold git_tag_type, get_tag, get_git, bind, ret. unfold w' at 1.
        cbn [git_heap set_git_heap]. rewrite lookup_insert_eq. reflexivity. }
    intros x. unfold refcnt_of. rewrite Hh, heap_after_lookup.
    destruct (py_heap w !! x) as [ix|]; [|reflexivity].
    cbn [fmap option_fmap option_map]. f_equal.
    destruct (decide (t = x)), (decide (self = x)), (decide (old = Some x));
      cbn [incr retarget decr id ob_refcnt]; lia.
Qed.

(** ** Lookup *)

(** ** What a release of references leaves of the instances *)

Lemma structs_kept_refl w : structs_kept w w.
Proof. intros x i H. eauto. Qed.

Lemma structs_kept_trans w1 w2 w3 :
  structs_kept w1 w2 -> structs_kept w2 w3 -> structs_kept w1 w3.
Proof.
  intros H12 H23 x i3 H3.
  destruct (H23 x i3 H3) as (i2 & H2 & Ht2 & Hs2).
  destruct (H12 x i2 H2) as (i1 & H1 & Ht1 & Hs1).
  exists i1. repeat split; congruence.
Qed.

Lemma structs_kept_heap w w' : py_heap w' = py_heap w -> structs_kept w w'.
Proof. intros E x i H. rewrite E in H. eauto. Qed.

Lemma tp_free_kept a w w' : tp_free a w = Some (tt, w') -> structs_kept w w'.
Proof.
  unfold tp_free, modify. intros H. injection H as <-. intros x i Hx.
  cbn [py_heap set_py_heap] in Hx. apply lookup_delete_Some in Hx as [_ Hx]. eauto.
Qed.

Lemma XDECREF_with_kept (decref : addr -> M unit) p w w' :
  (forall a w1 w2, decref a w1 = Some (tt, w2) -> structs_kept w1 w2) ->
  XDECREF_with decref p w = Some (tt, w') -> structs_kept w w'.
Proof.
  intros Hd. destruct p as [a|]; cbn [XDECREF_with].
  - apply Hd.
  - intros H. injection H as <-. apply structs_kept_refl.
Qed.

Lemma get_inst_inv a w i w' :
  get_inst a w = Some (i, w') -> w' = w /\ py_heap w !! a = Some i.
Proof.
  unfold get_inst. destruct (py_heap w !! a); [|discriminate].
  intros H. injection H as <- <-. auto.
Qed.

Lemma tp_dealloc_kept t (decref : addr -> M unit) a w w' :
  (forall b w1 w2, decref b w1 = Some (tt, w2) -> structs_kept w1 w2) ->
  tp_dealloc t decref a w = Some (tt, w') -> structs_kept w w'.
Proof.
  intros Hd H.
  assert (HO : Object_dealloc decref a w = Some (tt, w') -> structs_kept w w').
  { clear H. unfold Object_dealloc. intros H.
    apply bind_inv in H as (o & w1 & Ho & H).
    apply get_Object_inv in Ho as [-> _].
    apply bind_inv in H as ([] & w1 & Hfree & H).
    apply bind_inv in H as ([] & w2 & Hx & H).
    apply (structs_kept_trans w w1); [|apply (structs_kept_trans w1 w2)].
    - apply structs_kept_heap. destruct (own_obj o).
      + apply bind_inv in Hfree as (p & w0 & Hp & Hfree).
        destruct (obj o); [|discriminate]. injection Hp as _ <-.
        unfold git_object_free, modify in Hfree. now injection Hfree as <-.
      + now injection Hfree as <-.
    - apply (XDECREF_with_kept decref _ _ _ Hd Hx).
    - apply (tp_free_kept a _ _ H). }
  destruct t; cbn [tp_dealloc] in H; try (apply HO; exact H).
  - unfold Repository_dealloc in H.
    apply bind_inv in H as (i & w1 & Hi & H). apply get_inst_inv in Hi as [-> _].
    destruct (ob_struct i) as [r| | |]; try discriminate.
    apply bind_inv in H as ([] & w1 & Hfree & H).
    apply (structs_kept_trans w w1); [|apply (tp_free_kept a _ _ H)].
    apply structs_kept_heap. destruct r.
    + unfold git_repository_free, modify in Hfree. now injection Hfree as <-.
    + now injection Hfree as <-.
  - unfold TreeEntry_dealloc in H.
    apply bind_inv in H as (i & w1 & Hi & H). apply get_inst_inv in Hi as [-> _].
    destruct (ob_struct i) as [| | |en tr]; try discriminate.
    apply bind_inv in H as ([] & w1 & Hx & H).
    apply (structs_kept_trans w w1); [|apply (tp_free_kept a _ _ H)].
    apply (XDECREF_with_kept decref _ _ _ Hd Hx).
  - unfold Tag_dealloc in H.
    apply bind_inv in H as (old & w1 & Hold & H).
    assert (w1 = w) as ->.
    { unfold get_target in Hold. apply bind_inv in Hold as (i & w0 & Hi & Hold).
      apply get_inst_inv in Hi as [-> _].
      destruct (ob_struct i); try discriminate. now injection Hold as _ <-. }
    apply bind_inv in H as ([] & w1 & Hx & H).
    apply (structs_kept_trans w w1); [|apply (tp_free_kept a _ _ H)].
    apply (XDECREF_with_kept decref _ _ _ Hd Hx).
Qed.

Lemma Py_DECREF_rec_kept fuel :
  forall a w w', Py_DECREF_rec fuel a w = Some (tt, w') -> structs_kept w w'.
Proof.
  induction fuel as [|fuel IH]; intros a w w' H.
  - cbn [Py_DECREF_rec] in H.
    apply bind_inv in H as (i & w1 & Hi & H). apply get_inst_inv in Hi as [-> Hi].
    apply bind_inv in H as ([] & w1 & Hput & H).
    unfold put_inst, modify in Hput. injection Hput as <-.
    destruct (ob_refcnt i - 1 =? 0); [discriminate|]. injection H as <-.
    intros x i' Hx. cbn [py_heap set_py_heap] in Hx.
    destruct (decide (a = x)) as [->|Hne].
    + rewrite lookup_insert_eq in Hx. injection Hx as <-. eauto.
    + rewrite lookup_insert_ne in Hx by exact Hne. eauto.
  - cbn [Py_DECREF_rec] in H.
    apply bind_inv in H as (i & w1 & Hi & H). apply get_inst_inv in Hi as [-> Hi].
    apply bind_inv in H as ([] & w1 & Hput & H).
    unfold put_inst, modify in Hput. injection Hput as <-.
    match type of H with _ ?W = _ => apply (structs_kept_trans w W) end.
    + intros x i' Hx. cbn [py_heap set_py_heap] in Hx.
      destruct (decide (a = x)) as [->|Hne].
      * rewrite lookup_insert_eq in Hx. injection Hx as <-. eauto.
      * rewrite lookup_insert_ne in Hx by exact Hne. eauto.
    + destruct (ob_refcnt i - 1 =? 0).
      * apply (tp_dealloc_kept _ _ _ _ _ (IH) H).
      * injection H as <-. apply structs_kept_refl.
Qed.

Lemma Py_XDECREF_kept p w w' : Py_XDECREF p w = Some (tt, w') -> structs_kept w w'.
Proof.
  unfold Py_XDECREF. apply XDECREF_with_kept. intros a w1 w2. unfold Py_DECREF.
  apply Py_DECREF_rec_kept.
Qed.

(** C9: the setter does not reject every argument that is no [Object].
    [initpygit2] gives [TreeEntryType] the base [ObjectType], so a
    [TreeEntry] passes the type test of the setter and no [TypeError] is
    raised; the setter goes on to read the field [obj] of an [Object],
    which the struct of a [TreeEntry] does not have, and the run leaves
    what the C text defines, in every world and for every [self]. *)
Theorem Tag_set_target_reads_past_TreeEntry w self e ie en tr :
  py_heap w !! e = Some ie ->
  ob_type ie = TreeEntryType ->
  ob_struct ie = TreeEntry_struct en tr ->
  PyObject_TypeCheck (PyInstance e) ObjectType w = Some (true, w)
  /\ Tag_set_target self (PyInstance e) w = None.
Proof.
  intros He Hty Hst.
  assert (Hck : PyObject_TypeCheck (PyInstance e) ObjectType w = Some (true, w)).
  { unfold PyObject_TypeCheck, bind, get_inst. rewrite He, Hty. reflexivity. }
  split; [exact Hck|].
  destruct (Tag_set_target self (PyInstance e) w) as [[r w']|] eqn:H; [exfalso|reflexivity].
  unfold Tag_set_target in H. rewrite (bind_Some _ _ _ _ _ Hck) in H. cbn [negb] in H.
  apply bind_inv in H as (old & w1 & Hold & H).
  assert (w1 = w) as ->.
  { unfold get_target in Hold. apply bind_inv in Hold as (i & w0 & Hi & Hold).
    apply get_inst_inv in Hi as [-> _].
    destruct (ob_struct i); try discriminate. now injection Hold as _ <-. }
  apply bind_inv in H as ([] & w1 & Hx & H).
  apply Py_XDECREF_kept in Hx.
  assert (H1 : forall i, py_heap w1 !! e = Some i -> ob_struct i = TreeEntry_struct en tr).
  { intros i Hi. destruct (Hx e i Hi) as (i0 & Hi0 & _ & Hs).
    rewrite He in Hi0. injection Hi0 as <-. congruence. }
  apply bind_inv in H as ([] & w2 & Hput & H).
  assert (H2 : forall i, py_heap w2 !! e = Some i -> ob_struct i = TreeEntry_struct en tr).
  { unfold put_target in Hput. apply bind_inv in Hput as (i & w0 & Hi & Hput).
    apply get_inst_inv in Hi as [-> Hi].
    destruct (ob_struct i) as [| |o t|] eqn:Hs; try discriminate.
    unfold put_inst, modify in Hput. injection Hput as <-.
    intros i2 Hi2. cbn [py_heap set_py_heap] in Hi2.
    destruct (decide (self = e)) as [->|Hne].
    - rewrite (H1 i Hi) in Hs. discriminate.
    - rewrite lookup_insert_ne in Hi2 by exact Hne. auto. }
  apply bind_inv in H as ([] & w3 & Hinc & H).
  assert (H3 : forall i, py_heap w3 !! e = Some i -> ob_struct i = TreeEntry_struct en tr).
  { unfold Py_INCREF in Hinc. apply bind_inv in Hinc as (i & w0 & Hi & Hinc).
    apply get_inst_inv in Hi as [-> Hi].
    unfold put_inst, modify in Hinc. injection Hinc as <-.
    intros i3 Hi3. cbn [py_heap set_py_heap] in Hi3.
    rewrite lookup_insert_eq in Hi3. injection Hi3 as <-. cbn [ob_struct]. auto. }
  apply bind_inv in H as (tag & w4 & Htag & H).
  assert (w4 = w3) as ->.
  { unfold get_obj in Htag. apply bind_inv in Htag as (o & w0 & Ho & Htag).
    apply get_Object_inv in Ho as [-> _].
    destruct (obj o); [|discriminate]. now injection Htag as _ <-. }
  apply bind_inv in H as (p & w4 & Hp & _).
  unfold get_obj in Hp. apply bind_inv in Hp as (o & w0 & Ho & _).
  unfold get_Object in Ho. apply bind_inv in Ho as (i & w5 & Hi & Ho).
  apply get_inst_inv in Hi as [-> Hi].
  rewrite (H3 i Hi) in Ho. discriminate.
Qed.

Lemma set_field_fwd (f : Object -> Object) a w i o :
  py_heap w !! a = Some i -> as_Object (ob_struct i) = Some o ->
  (let* o := get_Object a in put_Object a (f o)) w
  = Some (tt, set_py_heap
                (<[a := mkInst (ob_refcnt i) (ob_type i)
                          (with_Object (ob_struct i) (f o))]> (py_heap w)) w).
Proof.
  intros Hi Ho.
  unfold get_Object, put_Object, get_inst, put_inst, bind, nonnull, modify, ret.
  rewrite Hi, Ho. cbn [undefined]. rewrite Hi. reflexivity.
Qed.

(** Wrapping an object that is no tag, with one allocation left. *)
Lemma wrap_object_plain w p repo g :
  git_heap w !! p = Some g -> body_type (body g) <> GIT_OBJ_TAG ->
  (0 < mem w)%nat -> is_Some (py_heap w !! repo) ->
  exists a w',
    wrap_object p repo w = Some (Some a, w')
    /\ py_heap w !! a = None
    /\ Object_of w' a = Some (mkObject (Some repo) false (Some p))
    /\ py_err w' = py_err w /\ git_heap w' = git_heap w.
Proof.
  intros Hg Hty Hm Hr.
  set (a := fresh (dom (py_heap w))).
  assert (Ha : py_heap w !! a = None) by (apply not_elem_of_dom, is_fresh).
  assert (Hne : repo <> a) by (intros E; rewrite E in Hr; rewrite Ha in Hr; destruct Hr; discriminate).
  exists a. unfold wrap_object. cbn [wrap_object_rec].
  unfold bind at 1. unfold git_object_type, get_git, bind at 1. rewrite Hg. cbn [ret].
  destruct (mem w) as [|m] eqn:Em; [lia|].
  assert (Halloc : forall t, zeroed t = Object_struct (mkObject None false None) ->
            exists w',
            (let* py_obj := tp_alloc t in
             match py_obj with
             | None => PyErr_NoMemory
             | Some py_obj =>
                 set_obj py_obj (Some p);; set_repo py_obj (Some repo);;
                 Py_INCREF repo;; ret (Some py_obj)
             end) w = Some (Some a, w')
            /\ Object_of w' a = Some (mkObject (Some repo) false (Some p))
            /\ py_err w' = py_err w /\ git_heap w' = git_heap w).
  { intros t Hz. unfold bind at 1, tp_alloc. rewrite Em. fold a.
    set (w1 := set_mem m _).
    assert (H1 : py_heap w1 !! a = Some (mkInst 1 t (zeroed t)))
      by (unfold w1; cbn [py_heap set_mem set_py_heap]; apply lookup_insert_eq).
    unfold set_obj.
    rewrite (bind_Some _ _ _ _ _
               (set_field_fwd (fun o => mkObject (Py.repo o) (own_obj o) (Some p))
                  a w1 _ (mkObject None false None) H1
                  ltac:(rewrite Hz; reflexivity))).
    set (w2 := set_py_heap _ w1).
    assert (H2 : py_heap w2 !! a
                 = Some (mkInst 1 t (Object_struct (mkObject None false (Some p))))).
    { unfold w2. cbn [py_heap set_py_heap ob_refcnt ob_type ob_struct].
      rewrite lookup_insert_eq, Hz. reflexivity. }
    unfold set_repo.
    rewrite (bind_Some _ _ _ _ _
               (set_field_fwd (fun o => mkObject (Some repo) (own_obj o) (obj o))
                  a w2 _ (mkObject None false (Some p)) H2 eq_refl)).
    set (w3 := set_py_heap _ w2).
    assert (H3 : is_Some (py_heap w3 !! repo)).
    { unfold w3, w2, w1. cbn [py_heap set_mem set_py_heap].
      rewrite !lookup_insert_ne by auto. exact Hr. }
    rewrite (bind_Some _ _ _ _ _ (Py_INCREF_fwd repo w3 H3)).
    eexists. split; [reflexivity|]. split; [|split; reflexivity].
    unfold Object_of. cbn [py_heap set_py_heap].
    rewrite lookup_alter_ne by exact Hne.
    unfold w3. cbn [py_heap set_py_heap]. rewrite lookup_insert_eq. reflexivity. }
  destruct (body g) eqn:Hb; cbn [body_type] in *; try congruence.
  - destruct (Halloc CommitType eq_refl) as (w' & Hw & Ho & He & Hgh).
    exists w'. split; [exact Hw|]. auto.
  - destruct (Halloc BlobType eq_refl) as (w' & Hw & Ho & He & Hgh).
    exists w'. split; [exact Hw|]. auto.
  - destruct (Halloc TreeType eq_refl) as (w' & Hw & Ho & He & Hgh).
    exists w'. split; [exact Hw|]. auto.
Qed.

(** C4: for a well-formed identifier text that names no object of the
    repository, the lookup fails with [KeyError] carrying the value that
    was looked up; when the store returns a match (here one that is no
    tag, whose wrapper needs one allocation) the lookup returns a new
    wrapper of it that is Borrowed; and whatever object a lookup returns is
    Borrowed ([own_obj] is 0). *)
Theorem Repository_getitem_lookup w self x value t :
  repository_of w self = Some x ->
  c_string value = Some t ->
  is_hex40 t = true ->
  (forall oid, git_oid_mkstr t = inr oid -> objects x !! oid = None ->
     Repository_getitem self value w
     = Some (None, set_py_err (Some (KeyError value)) w))
  /\ (forall oid p g,
        git_oid_mkstr t = inr oid -> objects x !! oid = Some p ->
        git_heap w !! p = Some g -> body_type (body g) <> GIT_OBJ_TAG ->
        (0 < mem w)%nat ->
        exists a w',
          Repository_getitem self value w = Some (Some (PyInstance a), w')
          /\ py_heap w !! a = None
          /\ Object_of w' a = Some (mkObject (Some self) false (Some p))
          /\ py_err w' = py_err w /\ git_heap w' = git_heap w)
  /\ forall v a w',
       Repository_getitem self v w = Some (Some (PyInstance a), w') ->
       exists o, Object_of w' a = Some o /\ own_obj o = false.
Proof.
  intros Hx Hc Ht.
  destruct (repository_of_inv _ _ _ Hx) as (r & Hr & Hrx).
  pose proof (py_str_to_git_oid_c_string value t w Hc) as Hparse.
  split; [|split].
  - intros oid Ho Habs. unfold Repository_getitem.
    rewrite (bind_Some _ _ _ _ _ Hparse), Ho.
    rewrite (bind_Some _ _ _ _ _ Hr).
    unfold git_repository_lookup.
    rewrite bind_bind, (bind_Some _ _ _ _ _ Hrx), Habs.
    reflexivity.
  - intros oid p g Ho Hp Hg Hty Hm.
    assert (Hself : is_Some (py_heap w !! self)).
    { unfold repository_of in Hx. destruct (py_heap w !! self); [eauto|discriminate]. }
    destruct (wrap_object_plain w p self g Hg Hty Hm Hself)
      as (a & w1 & Hw & Hfresh & Ho1 & He1 & Hg1).
    assert (Hset : exists w2,
               set_own_obj a false w1 = Some (tt, w2)
               /\ Object_of w2 a = Some (mkObject (Some self) false (Some p))
               /\ py_err w2 = py_err w1 /\ git_heap w2 = git_heap w1).
    { unfold set_own_obj, get_Object, put_Object, get_inst, put_inst, bind,
        nonnull, modify, ret.
      unfold Object_of in Ho1. destruct (py_heap w1 !! a) as [i|] eqn:Hi; [|discriminate].
      rewrite Ho1. cbn [undefined]. rewrite Hi. eexists. split; [reflexivity|].
      unfold Object_of. cbn [py_heap py_err git_heap set_py_heap].
      rewrite lookup_insert_eq. cbn [ob_struct].
      destruct (ob_struct i); try discriminate; auto. }
    destruct Hset as (w2 & Hset & Ho2 & He2 & Hg2).
    exists a, w2. unfold Repository_getitem.
    rewrite (bind_Some _ _ _ _ _ Hparse), Ho.
    rewrite (bind_Some _ _ _ _ _ Hr).
    assert (Hlook : git_repository_lookup r oid GIT_OBJ_ANY w = Some (Some p, w)).
    { unfold git_repository_lookup.
      rewrite (bind_Some _ _ _ _ _ Hrx), Hp.
      unfold git_object_type, get_git, bind, ret. rewrite Hg. reflexivity. }
    rewrite (bind_Some _ _ _ _ _ Hlook).
    rewrite (bind_Some _ _ _ _ _ Hw).
    rewrite (bind_Some _ _ _ _ _ Hset).
    repeat split; congruence.
  - intros v a w' H. unfold Repository_getitem in H.
    apply bind_inv in H as ([err|oid] & w1 & _ & H).
    { apply Error_set_py_str_NULL in H. discriminate. }
    apply bind_inv in H as (r' & w2 & _ & H).
    apply bind_inv in H as ([p|] & w3 & _ & H).
    2:{ apply Error_set_py_str_NULL in H. discriminate. }
    apply bind_inv in H as ([py_obj|] & w4 & _ & H); [|discriminate].
    apply bind_inv in H as ([] & w5 & Hset & H).
    injection H as <- <-.
    apply (set_own_obj_spec _ _ _ _ Hset).
Qed.

(** ** Identifier and raw read of an object *)

Lemma Object_of_git_of w self g :
  git_of w self = Some g ->
  exists o p, Object_of w self = Some o /\ obj o = Some p /\ git_heap w !! p = Some g.
Proof.
  unfold git_of. destruct (Object_of w self) as [o|]; [|discriminate].
  destruct (obj o) as [p|] eqn:Hp; [|discriminate]. eauto.
Qed.

Lemma get_obj_of w self o p :
  Object_of w self = Some o -> obj o = Some p -> get_obj self w = Some (p, w).
Proof.
  unfold Object_of, get_obj, get_Object, get_inst, bind, nonnull, ret.
  destruct (py_heap w !! self) as [i|]; [|discriminate].
  intros -> ->. reflexivity.
Qed.

Lemma get_Object_of w self o :
  Object_of w self = Some o -> get_Object self w = Some (o, w).
Proof.
  unfold Object_of, get_Object, get_inst, bind, nonnull, ret.
  destruct (py_heap w !! self) as [i|]; [|discriminate].
  intros ->. reflexivity.
Qed.

Lemma Object_read_raw_spec w self g :
  git_of w self = Some g ->
  match object_id g with
  | None => Object_read_raw self w = Some (Some PyNone, w)
  | Some id =>
      forall o ra r,
        Object_of w self = Some o -> repo o = Some ra ->
        get_Repository ra w = Some (r, w) ->
        Object_read_raw self w
        = match Repository_read_raw r id w with
          | Some (inr raw, _) => Some (Some (PyString (raw_data raw)), w)
          | Some (inl err, _) =>
              Error_set_py_str err
                (PyString_FromStringAndSize (git_oid_fmt id) GIT_OID_HEXSZ) w
          | None => None
          end
  end.
Proof.
  intros Hg. destruct (Object_of_git_of _ _ _ Hg) as (o & p & Ho & Hp & Hgp).
  pose proof (get_obj_of _ _ _ _ Ho Hp) as Hobj.
  assert (Hid : git_object_id p w = Some (object_id g, w)).
  { unfold git_object_id, get_git, bind, ret. now rewrite Hgp. }
  destruct (object_id g) as [id|] eqn:Eid.
  - intros o' ra r Ho' Hra Hr. rewrite Ho in Ho'. injection Ho' as <-.
    unfold Object_read_raw.
    rewrite (bind_Some _ _ _ _ _ Hobj), (bind_Some _ _ _ _ _ Hid).
    rewrite (bind_Some _ _ _ _ _ (get_Object_of _ _ _ Ho)). rewrite Hra.
    unfold bind at 1. cbn [nonnull ret].
    rewrite (bind_Some _ _ _ _ _ Hr).
    unfold Repository_read_raw.
    destruct (git_odb_read r id w) as [[res w1]|] eqn:E.
    2:{ unfold bind. now rewrite E. }
    assert (w1 = w) as ->.
    { unfold git_odb_read, get_repo, bind, ret in E.
      destruct (git_repos w !! r); [|discriminate]. now injection E as _ <-. }
    rewrite (bind_Some _ _ _ _ _ E).
    destruct res as [err|raw].
    + rewrite (bind_Some _ _ _ _ _ (Object_get_sha_spec _ _ _ Hg)). rewrite Eid.
      reflexivity.
    + unfold PyString_FromStringAndSize. now rewrite substring_all.
  - unfold Object_read_raw.
    rewrite (bind_Some _ _ _ _ _ Hobj), (bind_Some _ _ _ _ _ Hid). reflexivity.
Qed.

Lemma Object_read_raw_None_inv w self g :
  git_of w self = Some g ->
  Object_read_raw self w = Some (Some PyNone, w) -> object_id g = None.
Proof.
  intros Hg H. destruct (Object_of_git_of _ _ _ Hg) as (o & p & Ho & Hp & Hgp).
  pose proof (get_obj_of _ _ _ _ Ho Hp) as Hobj.
  assert (Hid : git_object_id p w = Some (object_id g, w)).
  { unfold git_object_id, get_git, bind, ret. now rewrite Hgp. }
  destruct (object_id g) as [id|] eqn:Eid; [|reflexivity].
  exfalso. unfold Object_read_raw in H.
  rewrite (bind_Some _ _ _ _ _ Hobj), (bind_Some _ _ _ _ _ Hid) in H.
  apply bind_inv in H as (o1 & w1 & _ & H).
  apply bind_inv in H as (ra & w2 & _ & H).
  apply bind_inv in H as (r & w3 & _ & H).
  apply bind_inv in H as ([err|raw] & w4 & _ & H).
  - apply bind_inv in H as (s1 & w5 & _ & H).
    apply bind_inv in H as (s2 & w6 & _ & H).
    apply Error_set_py_str_NULL in H. discriminate.
  - discriminate.
Qed.

Lemma Object_write_inv w self w' :
  Object_write self w = Some (Some PyNone, w') ->
  exists g id, git_of w' self = Some g /\ object_id g = Some id.
Proof.
  unfold Object_write. intros H.
  apply bind_inv in H as (p & w1 & Hobj & H).
  apply bind_inv in H as ([err|[]] & w2 & Hw & H).
  { apply bind_inv in H as (s1 & w5 & _ & H).
    apply bind_inv in H as (s2 & w6 & _ & H).
    apply Error_set_py_str_NULL in H. discriminate. }
  injection H as <-.
  unfold get_obj in Hobj. apply bind_inv in Hobj as (o & w0 & Hgo & Hnn).
  apply get_Object_inv in Hgo as (-> & s & Hs & Hos).
  destruct (obj o) as [p'|] eqn:Hp; [|discriminate]. injection Hnn as Hpp Hww. subst p' w1.
  unfold git_object_write in Hw.
  apply bind_inv in Hw as (g & w0 & Hg & Hw).
  unfold get_git in Hg. destruct (git_heap w !! p) as [g0|] eqn:Hgp; [|discriminate].
  injection Hg as <- <-.
  destruct (store_write g0) as [e|[oid raw]]; [discriminate|].
  apply bind_inv in Hw as (x & w0 & Hx & Hw).
  unfold get_repo in Hx. destruct (git_repos w !! object_owner g0); [|discriminate].
  injection Hx as <- <-.
  unfold put_git, modify, bind, ret in Hw. injection Hw as <-.
  exists (mkGitObject (Some oid) (object_owner g0) (body g0)), oid. split; [|reflexivity].
  unfold git_of, Object_of. cbn [py_heap git_heap set_git_heap set_git_repos].
  unfold struct_of in Hs. destruct (py_heap w !! self) as [i|]; [|discriminate].
  injection Hs as <-. rewrite Hos, Hp, lookup_insert_eq. reflexivity.
Qed.

(** C5 (amended): [identifier()] is [None] if and only if the libgit2
    object behind the wrapper has never been written, whatever the
    ownership tag of the wrapper; [read_raw()] is [None] in exactly that
    case, and otherwise is the raw read of the repository at the object's
    identifier (its data, or the error translated with the identifier's
    text).  An object fresh from its constructor is Owned and unwritten,
    so both are [None] for it; after a successful write the identifier is a
    text. *)
Theorem identifier_None_iff_unwritten :
  (forall w self g,
     git_of w self = Some g ->
     (Object_get_sha self w = Some (Some PyNone, w) <-> object_id g = None)
     /\ (Object_read_raw self w = Some (Some PyNone, w) <-> object_id g = None))
  /\ (forall w self g id o ra r,
        git_of w self = Some g -> object_id g = Some id ->
        Object_of w self = Some o -> repo o = Some ra ->
        get_Repository ra w = Some (r, w) ->
        Object_read_raw self w
        = match Repository_read_raw r id w with
          | Some (inr raw, _) => Some (Some (PyString (raw_data raw)), w)
          | Some (inl err, _) =>
              Error_set_py_str err
                (PyString_FromStringAndSize (git_oid_fmt id) GIT_OID_HEXSZ) w
          | None => None
          end)
  /\ (forall t type args kwds w0 a w,
        type_call t (fun o => Object_init_with_type o type) args kwds w0
        = Some (Some a, w) ->
        exists o g,
          Object_of w a = Some o /\ own_obj o = true
          /\ git_of w a = Some g /\ object_id g = None
          /\ Object_get_sha a w = Some (Some PyNone, w)
          /\ Object_read_raw a w = Some (Some PyNone, w))
  /\ (forall w self w',
        Object_write self w = Some (Some PyNone, w') ->
        exists t, Object_get_sha self w' = Some (Some (PyString t), w')).
Proof.
  split; [|split; [|split]].
  - intros w self g Hg. pose proof (Object_get_sha_spec _ _ _ Hg) as Hsha.
    pose proof (Object_read_raw_spec _ _ _ Hg) as Hraw. split.
    + rewrite Hsha. destruct (object_id g); split; intros H; try reflexivity; discriminate.
    + split; [apply Object_read_raw_None_inv; exact Hg|].
      intros Hid. rewrite Hid in Hraw. exact Hraw.
  - intros w self g id o ra r Hg Hid.
    pose proof (Object_read_raw_spec _ _ _ Hg) as Hraw.
    rewrite Hid in Hraw. apply Hraw.
  - intros t type args kwds w0 a w Hcall.
    apply type_call_Object_inv in Hcall as (b & ra & p & owner & Hs & Hb & Hgp & _).
    apply struct_of_inv in Hs as (i & Hi & Hs).
    assert (Hz : is_Some (as_Object (ob_struct i))).
    { rewrite Hs. destruct (zeroed t); cbn; eauto. }
    assert (Ho : Object_of w a = Some (mkObject (Some ra) true (Some p))).
    { unfold Object_of. rewrite Hi, Hs. destruct (zeroed t); reflexivity. }
    assert (Hga : git_of w a = Some (mkGitObject None owner b)).
    { unfold git_of. rewrite Ho. exact Hgp. }
    eexists _, _. split; [exact Ho|]. split; [reflexivity|].
    split; [exact Hga|]. split; [reflexivity|]. split.
    + rewrite (Object_get_sha_spec _ _ _ Hga). reflexivity.
    + apply (Object_read_raw_spec _ _ _ Hga).
  - intros w self w' Hw. apply Object_write_inv in Hw as (g' & id & Hg' & Hid).
    eexists. rewrite (Object_get_sha_spec _ _ _ Hg'), Hid. reflexivity.
Qed.

End proofs.

(** * The theorems at work on the example worlds *)

Import Git Py CInt CPython Libgit2 Obs Example.

Example git_oid_mkstr_mixed_case :
  git_oid_mkstr "00ff10ABcdef00ff10abcdef00ff10abcdef0A1b"
  = inr [0; 255; 16; 171; 205; 239; 0; 255; 16; 171; 205; 239; 0; 255; 16;
         171; 205; 239; 10; 27]%N.
Proof. reflexivity. Qed.

Example git_oid_fmt_lowercase : git_oid_fmt [0; 255; 16; 171]%N = "00ff10ab"%string.
Proof. reflexivity. Qed.

Example w_tree_entries : entries_of w_tree 1%nat = Some abc.
Proof. vm_compute. reflexivity. Qed.

(** The lookup of the blob of the example store returns a Borrowed [Blob]
    at a new address. *)
Example lookup_returns_borrowed_blob :
  exists w',
    Repository_getitem (ext:=ext0) 0%nat (PyString hex_a) w0
    = Some (Some (PyInstance 1%nat), w')
    /\ py_heap w' !! 1%nat
       = Some (mkInst 1 BlobType
                 (Object_struct (mkObject (Some 0%nat) false (Some 0%nat)))).
Proof. eexists. split; vm_compute; reflexivity. Qed.

(** [tag.target], read after [tag.target = blob], is a new wrapper of the
    blob's unwritten object, and the wrapper is Borrowed. *)
Example tag_target_wrapper :
  Tag_get_target 1%nat w_tag_set = Some (Some (PyInstance 3%nat), w_tag_target)
  /\ Object_of w_tag_target 3%nat = Some (mkObject (Some 0%nat) false (Some 2%nat))
  /\ Object_of w_tag_target 2%nat = Some (mkObject (Some 0%nat) true (Some 2%nat))
  /\ git_heap w_tag_target !! 2%nat = Some (mkGitObject None 0%nat Blob_body).
Proof. repeat split; vm_compute; reflexivity. Qed.

(** When the tag holds the last reference to its previous target,
    replacing the target deallocates it: the wrapper is gone, and so is
    the libgit2 object it owned. *)
Example previous_target_deallocated :
  refcnt_of w_tag_dropped 2%nat = Some 1
  /\ Tag_set_target 1%nat (PyInstance 3%nat) w_tag_dropped = Some (0, w_tag_replaced)
  /\ py_heap w_tag_replaced !! 2%nat = None
  /\ git_heap w_tag_replaced !! 2%nat = None
  /\ target_of w_tag_replaced 1%nat = Some (Some 3%nat)
  /\ refcnt_of w_tag_replaced 3%nat = Some 2.
Proof. repeat split; vm_compute; reflexivity. Qed.

(** Looking up a tag of the store wraps the tag and its target; both
    wrappers are Borrowed, and the target's wrapper is left with two
    references, one of them the tag's. *)
Example lookup_returns_borrowed_tag :
  Repository_getitem (ext:=ext0) 0%nat (PyString hex_b) w_store_tag
  = Some (Some (PyInstance 1%nat), w_store_tag_looked)
  /\ py_heap w_store_tag_looked !! 1%nat
     = Some (mkInst 1 TagType
               (Tag_struct (mkObject (Some 0%nat) false (Some 1%nat)) (Some 2%nat)))
  /\ py_heap w_store_tag_looked !! 2%nat
     = Some (mkInst 2 BlobType
               (Object_struct (mkObject (Some 0%nat) false (Some 0%nat))))
  /\ py_err w_store_tag_looked = None.
Proof.
  assert (E : exists w',
            Repository_getitem (ext:=ext0) 0%nat (PyString hex_b) w_store_tag
            = Some (Some (PyInstance 1%nat), w')
            /\ py_heap w' !! 1%nat
               = Some (mkInst 1 TagType
                         (Tag_struct (mkObject (Some 0%nat) false (Some 1%nat))
                            (Some 2%nat)))
            /\ py_heap w' !! 2%nat
               = Some (mkInst 2 BlobType
                         (Object_struct (mkObject (Some 0%nat) false (Some 0%nat))))
            /\ py_err w' = None).
  { eexists. split; [vm_compute; reflexivity|]. repeat split; vm_compute; reflexivity. }
  destruct E as (w' & H1 & H2 & H3 & H4).
  assert (Ew : w_store_tag_looked = w').
  { unfold w_store_tag_looked, after. rewrite H1. reflexivity. }
  rewrite Ew. auto.
Qed.

(** [TreeEntryType] is registered with [ObjectType] as its base, so an
    entry object passes the type test of [Tag_set_target]; the function
    then reads the entry as an [Object], beyond the fields an entry has,
    which C leaves undefined. *)
Example entry_object_passes_target_check :
  PyType_IsSubtype TreeEntryType ObjectType = true
  /\ py_heap w_entry_tag !! 2%nat
     = Some (mkInst 1 TreeEntryType (TreeEntry_struct (Some 0%nat) (Some 1%nat)))
  /\ option_map fst (PyObject_TypeCheck (PyInstance 2%nat) ObjectType w_entry_tag)
     = Some true
  /\ Tag_set_target 3%nat (PyInstance 2%nat) w_entry_tag = None.
Proof. repeat split; vm_compute; reflexivity. Qed.

(** A [TypeError] left pending by [Tree_contains] makes the next indexing
    by a valid position fail. *)
Example stale_error_breaks_indexing :
  getitem_outcome (Tree_getitem 1%nat (PyInt 0) w_tree) = Entry 0%nat
  /\ getitem_outcome
       (Tree_getitem 1%nat (PyInt 0) (after (Tree_contains 1%nat (PyInt 5)) w_tree))
     = Raised (mkErr PyExc_TypeError ExcInternal).
Proof. split; vm_compute; reflexivity. Qed.

(** C5, counterexample: the object [tag.target] returns for a tag whose
    target is an unwritten blob has no identifier and is Borrowed. *)
Lemma borrowed_wrapper_has_no_identifier :
  ~ identifier_None_iff_Owned_unwritten w_tag_target 3%nat.
Proof.
  intros [H _].
  assert (E : Object_get_sha 3%nat w_tag_target = Some (Some PyNone, w_tag_target))
    by (vm_compute; reflexivity).
  destruct (H E) as (o & g & Ho & _ & Hown & _).
  vm_compute in Ho. injection Ho as <-. discriminate Hown.
Qed.

(** C3, counterexample: a [str] of 44 characters, 40 hexadecimal digits
    followed by a NUL and [xyz], is not exactly 40 hexadecimal characters,
    and it parses; and the [unicode] text [xyz], which does not parse, is
    reported with a [TypeError]. *)
Lemma text_after_NUL_is_not_parsed :
  ~ malformed_text_is_ValueError (ext:=ext0) w0 (PyString hex_a_NUL_xyz)
  /\ ~ malformed_text_is_ValueError (ext:=ext0) w0 (PyUnicode (Some "xyz")).
Proof.
  split; intros H.
  - destruct (H hex_a_NUL_xyz eq_refl eq_refl) as [E _].
    vm_compute in E. discriminate E.
  - destruct (H "xyz"%string eq_refl eq_refl) as [_ E].
    vm_compute in E. discriminate E.
Qed.

(** C6, counterexample: no entry of the tree a, b, c has the name made of
    [b], a NUL and [zz], and deleting by that name removes the entry b. *)
Lemma NUL_key_deletes_prefix_entry :
  ~ delete_resolves_key w_tree 1%nat (PyString b_NUL_zz).
Proof.
  intros H.
  assert (Hes : entries_of w_tree 1%nat = Some abc) by (vm_compute; reflexivity).
  specialize (H abc Hes). vm_compute in H. discriminate H.
Qed.

(** Both [get] and [delete] take the key made of [b], a NUL and [zz] for
    the name [b]. *)
Example NUL_key_is_read_as_its_C_string :
  getitem_outcome (Tree_getitem 1%nat (PyString b_NUL_zz) w_tree) = Entry 1%nat
  /\ Tree_contains 1%nat (PyString b_NUL_zz) w_tree = Some (1, w_tree)
  /\ entries_of (after (Tree_delitem 1%nat (PyString b_NUL_zz) None) w_tree) 1%nat
     = Some [mkEntry "a" 33188 oid_a; mkEntry "c" 33188 oid_a].
Proof. repeat split; vm_compute; reflexivity. Qed.

Lemma Tree_getitem_index_witness :
  (getitem_outcome (Tree_getitem 1%nat (PyInt (-1)) w_tree) = Entry 2%nat
   /\ getitem_outcome (Tree_getitem 1%nat (PyInt 2) w_tree) = Entry 2%nat)
  /\ Tree_getitem 1%nat (PyInt 3) w_tree
     = Some (None, set_py_err (Some (IndexError (PyInt 3))) w_tree)
  /\ Tree_getitem 1%nat (PyInt (-4)) w_tree
     = Some (None, set_py_err (Some (IndexError (PyInt (-4)))) w_tree).
Proof.
  assert (He : py_err w_tree = None) by (vm_compute; reflexivity).
  assert (Hes : entries_of w_tree 1%nat = Some abc) by (vm_compute; reflexivity).
  assert (Hn : Z.of_nat (List.length abc) <= INT_MAX) by (vm_compute; discriminate).
  assert (Hm : (0 < mem w_tree)%nat) by (vm_compute; lia).
  split; [|split].
  - apply (proj2 (proj2 (proj2 (Tree_getitem_index w_tree 1%nat abc 0 He Hes Hn))));
      [exact Hm | simpl; lia].
  - apply (proj1 (proj2 (Tree_getitem_index w_tree 1%nat abc 3 He Hes Hn))).
    simpl; lia.
  - apply (proj1 (proj2 (Tree_getitem_index w_tree 1%nat abc (-4) He Hes Hn))).
    simpl; lia.
Defined.

Lemma oid_parse_format_roundtrip_witness :
  exists oid,
    py_str_to_git_oid (PyString hex_b) w0 = Some (inr oid, w0)
    /\ oid_wf oid
    /\ forall w' self g,
         git_of w' self = Some g -> object_id g = Some oid ->
         Object_get_sha self w'
         = Some (Some (PyString "bbbbbbbbbbbbbbbbbbbbbbbbbbbbbbbbbbbbbbbb"), w').
Proof.
  apply (proj1 (oid_parse_format_roundtrip hex_b w0 eq_refl)).
Defined.

Lemma Repository_getitem_lookup_witness :
  Repository_getitem (ext:=ext0) 0%nat (PyString hex_b) w0
  = Some (None, set_py_err (Some (KeyError (PyString hex_b))) w0).
Proof.
  apply (proj1 (Repository_getitem_lookup (ext:=ext0) w0 0%nat repo0
                  (PyString hex_b) hex_b eq_refl eq_refl eq_refl)
           (repeat 187%N 20));
    vm_compute; reflexivity.
Defined.

Lemma Tree_delitem_resolves_like_getitem_witness :
  ((0 < mem w_tree)%nat ->
   getitem_outcome (Tree_getitem 1%nat (PyString "b") w_tree) = Entry 1%nat)
  /\ exists w',
       Tree_delitem 1%nat (PyString "b") None w_tree = Some (0, w')
       /\ py_err w' = None
       /\ entries_of w' 1%nat
          = Some [mkEntry "a" 33188 oid_a; mkEntry "c" 33188 oid_a].
Proof.
  assert (He : py_err w_tree = None) by (vm_compute; reflexivity).
  assert (Hes : entries_of w_tree 1%nat = Some abc) by (vm_compute; reflexivity).
  assert (Hn : Z.of_nat (List.length abc) <= INT_MAX) by (vm_compute; discriminate).
  exact (proj1 (Tree_delitem_resolves_like_getitem w_tree 1%nat abc (PyString "b")
                  He Hes Hn)).
Defined.

Lemma Tree_key_type_error_witness :
  Tree_getitem 1%nat PyNone w_tree
  = Some (None, set_py_err (Some TypeError_key) w_tree)
  /\ Tree_delitem 1%nat PyNone None w_tree
     = Some (-1, set_py_err (Some TypeError_key) w_tree).
Proof.
  pose proof (Tree_key_type_error w_tree 1%nat PyNone eq_refl eq_refl) as H.
  cbv zeta in H. exact (conj (proj1 H) (proj1 (proj2 H))).
Defined.

Lemma Tag_target_lifecycle_witness :
  (Tag_get_target 1%nat w_tag = Some (Some PyNone, w_tag)
   /\ Tag_get_target_type 1%nat w_tag = Some (Some PyNone, w_tag))
  /\ exists w',
       Tag_set_target 1%nat (PyInstance 2%nat) w_tag_blob = Some (0, w')
       /\ py_err w' = py_err w_tag_blob
       /\ target_of w' 1%nat = Some (Some 2%nat)
       /\ (exists ty,
             Object_get_type 2%nat w' = Some (Some (PyInt (otype_code ty)), w')
             /\ Tag_get_target_type 1%nat w' = Some (Some (PyInt (otype_code ty)), w'))
       /\ forall x,
            refcnt_of w' x
            = (fun k => k + (if decide (2%nat = x) then 1 else 0)
                        - (if decide (None = Some x) then 1 else 0))
                <$> refcnt_of w_tag_blob x.
Proof.
  destruct Tag_target_lifecycle as (Hfresh & _ & Hset). split.
  - apply (Hfresh w0 [PyInstance 0%nat] None 1%nat w_tag).
    vm_compute. reflexivity.
  - apply (Hset w_tag_blob 1%nat 2%nat None
             (mkGitObject None 0%nat (Tag_body None GIT_OBJ_BAD)) None GIT_OBJ_BAD
             (mkInst 1 BlobType
                (Object_struct (mkObject (Some 0%nat) true (Some 2%nat))))
             (mkGitObject None 0%nat Blob_body));
      vm_compute; reflexivity.
Defined.

Lemma Tag_set_target_reads_past_TreeEntry_witness :
  PyObject_TypeCheck (PyInstance 2%nat) ObjectType w_entry_tag
  = Some (true, w_entry_tag)
  /\ Tag_set_target 3%nat (PyInstance 2%nat) w_entry_tag = None.
Proof.
  apply (Tag_set_target_reads_past_TreeEntry w_entry_tag 3%nat 2%nat
           (mkInst 1 TreeEntryType (TreeEntry_struct (Some 0%nat) (Some 1%nat)))
           (Some 0%nat) (Some 1%nat));
    vm_compute; reflexivity.
Defined.

Lemma identifier_None_iff_unwritten_witness :
  (Object_get_sha 2%nat w_tag_blob = Some (Some PyNone, w_tag_blob)
   <-> object_id (mkGitObject None 0%nat Blob_body) = None)
  /\ (Object_read_raw (ext:=ext0) 2%nat w_tag_blob = Some (Some PyNone, w_tag_blob)
      <-> object_id (mkGitObject None 0%nat Blob_body) = None).
Proof.
  apply (proj1 (identifier_None_iff_unwritten (ext:=ext0)) w_tag_blob 2%nat).
  vm_compute. reflexivity.
Defined.

Lemma Tree_add_entry_malformed_unchanged_witness :
  Tree_add_entry (ext:=ext0) 1%nat [PyString "xyz"; PyString "d"; PyInt 33188] w_tree
  = Some (None,
          set_py_err
            (Some (mkErr PyExc_ValueError (ExcString "Invalid hex SHA: 'xyz'"))) w_tree)
  /\ entries_of w_tree 1%nat = Some abc.
Proof.
  assert (Ha : INT_MIN <= 33188 <= INT_MAX) by (vm_compute; split; discriminate).
  assert (He : 33188 = -1 -> py_err w_tree = None) by discriminate.
  assert (Hbad : forall s, c_string (PyString "xyz") = Some s -> is_hex40 s = false)
    by (intros s H; injection H as <-; reflexivity).
  split.
  - exact (proj1 (Tree_add_entry_malformed_unchanged (ext:=ext0) w_tree 1%nat
                    (PyString "xyz") "d" 33188 "str" eq_refl Ha He Hbad eq_refl)).
  - vm_compute. reflexivity.
Defined.

(** * The rest of the file: proofs *)

Section more_proofs.
Import Git Py CInt CPython Libgit2 Obs CPython2 Libgit2_more Obs2.
Context {ext : Externals} {fs : Filesystem}.

(** ** The error translator *)

Lemma Error_set_py_str_raised {A} err value w e0 n :
  ob_type_name value w = Some (n, w) ->
  Error_set_py_str (A:=A) err value (set_py_err e0 w)
  = Some (None, set_py_err (Some (raised_for err value n)) w).
Proof.
  intros Hn. destruct err; cbn [raised_for].
  - destruct (PyString_Check value) eqn:Hc.
    + destruct value; try discriminate.
      unfold Error_set_py_str, invalid_hex_message. cbn [PyString_Check negb].
      destruct (PyObject_Repr (PyString s)); reflexivity.
    + apply Error_set_py_str_not_str; assumption.
  - reflexivity.
  - reflexivity.
  - reflexivity.
  - reflexivity.
  - unfold Error_set_py_str. destruct (PyObject_Str value); reflexivity.
  - reflexivity.
Qed.

Lemma Error_set_py_str_raised' {A} err value w n :
  ob_type_name value w = Some (n, w) ->
  Error_set_py_str (A:=A) err value w
  = Some (None, set_py_err (Some (raised_for err value n)) w).
Proof.
  intros Hn. rewrite <- (set_py_err_same w) at 1.
  apply Error_set_py_str_raised. exact Hn.
Qed.

(** X2: the error translator never returns a value: for every result code
    and every context value it returns [NULL] with exactly one exception
    set, the one of the table, replacing whatever was pending, and touches
    nothing else; without a context value, [Error_set] raises the same
    exception for the codes that need none. *)
Theorem Error_translator_always_raises w err value n e0 :
  ob_type_name value w = Some (n, w) ->
  let w' := set_py_err (Some (raised_for err value n)) w in
  Error_set_py_str (A:=PyObject) err value (set_py_err e0 w) = Some (None, w')
  /\ (err <> GIT_ENOTOID -> err <> GIT_ENOTFOUND -> err <> GIT_EOBJCORRUPTED ->
      Error_set (A:=PyObject) err (set_py_err e0 w) = Some (None, w'))
  /\ py_heap w' = py_heap w /\ git_heap w' = git_heap w
  /\ git_repos w' = git_repos w /\ mem w' = mem w.
Proof.
  intros Hn w'. split; [|split; [|repeat split]].
  - apply Error_set_py_str_raised. exact Hn.
  - intros H1 H2 H3. subst w'.
    destruct err; try congruence; reflexivity.
Qed.

(** ** Repository: membership and raw reads *)

Lemma Repository_contains_wellformed w self x value t oid :
  repository_of w self = Some x ->
  c_string value = Some t ->
  git_oid_mkstr t = inr oid ->
  Repository_contains self value w
  = Some (match odb x !! oid with Some _ => 1 | None => 0 end, w).
Proof.
  intros Hx Hc Hp.
  destruct (repository_of_inv _ _ _ Hx) as (r & Hr & Hg).
  unfold Repository_contains.
  rewrite (bind_Some _ _ _ _ _ (py_str_to_git_oid_c_string _ _ w Hc)), Hp.
  rewrite (bind_Some _ _ _ _ _ Hr).
  unfold git_odb_exists. rewrite (bind_Some _ _ _ _ _ Hg). reflexivity.
Qed.

Lemma Repository_contains_malformed w self value n :
  (forall s, c_string value = Some s -> is_hex40 s = false) ->
  ob_type_name value w = Some (n, w) ->
  Repository_contains self value w
  = Some (-1, set_py_err (Some (raised_for GIT_ENOTOID value n)) w).
Proof.
  intros Hbad Hn. unfold Repository_contains.
  destruct (py_str_to_git_oid_fails value w Hbad) as (e0 & He0).
  rewrite (bind_Some _ _ _ _ _ He0).
  rewrite (bind_Some _ _ _ _ _ (Error_set_py_str_raised (A:=unit) _ _ _ e0 _ Hn)).
  reflexivity.
Qed.

Lemma Repository_read_wellformed w self x value t oid :
  repository_of w self = Some x ->
  c_string value = Some t ->
  git_oid_mkstr t = inr oid ->
  forall n, ob_type_name value w = Some (n, w) ->
  Repository_read self value w
  = match odb x !! oid with
    | Some (inr raw) =>
        Some (Some [PyInt (otype_code (raw_type raw)); PyString (raw_data raw)], w)
    | Some (inl err) => Some (None, set_py_err (Some (raised_for err value n)) w)
    | None => Some (None, set_py_err (Some (KeyError value)) w)
    end.
Proof.
  intros Hx Hc Hp n Hn.
  destruct (repository_of_inv _ _ _ Hx) as (r & Hr & Hg).
  unfold Repository_read.
  rewrite (bind_Some _ _ _ _ _ (py_str_to_git_oid_c_string _ _ w Hc)), Hp.
  rewrite (bind_Some _ _ _ _ _ Hr).
  unfold Repository_read_raw, git_odb_read.
  rewrite bind_bind, (bind_Some _ _ _ _ _ Hg).
  unfold bind at 1. cbn [ret].
  destruct (odb x !! oid) as [[err|raw]|].
  - apply Error_set_py_str_raised'. exact Hn.
  - unfold ret, Py_BuildValue_ns, PyInt_FromLong, PyString_FromStringAndSize.
    rewrite substring_all. reflexivity.
  - apply (Error_set_py_str_raised' GIT_ENOTFOUND value w n Hn).
Qed.

Lemma Repository_read_malformed w self value n :
  (forall s, c_string value = Some s -> is_hex40 s = false) ->
  ob_type_name value w = Some (n, w) ->
  Repository_read self value w
  = Some (None, set_py_err (Some (raised_for GIT_ENOTOID value n)) w).
Proof.
  intros Hbad Hn. unfold Repository_read.
  destruct (py_str_to_git_oid_fails value w Hbad) as (e0 & He0).
  rewrite (bind_Some _ _ _ _ _ He0).
  apply Error_set_py_str_raised. exact Hn.
Qed.

(** X3: [value in repo] parses the C string of the value (its characters
    before the first NUL) as an identifier and asks the object database:
    for a well-formed identifier it answers 1 or 0 as the database has it
    or not and changes nothing; for a malformed one it answers -1 with the
    [ValueError] or [TypeError] of the parse, and changes nothing but the
    error indicator. *)
Theorem Repository_contains_answers_store w self x value n :
  repository_of w self = Some x ->
  ob_type_name value w = Some (n, w) ->
  (forall t oid, c_string value = Some t -> git_oid_mkstr t = inr oid ->
     Repository_contains self value w
     = Some (if decide (is_Some (odb x !! oid)) then 1 else 0, w))
  /\ ((forall s, c_string value = Some s -> is_hex40 s = false) ->
      Repository_contains self value w
      = Some (-1, set_py_err (Some (raised_for GIT_ENOTOID value n)) w)).
Proof.
  intros Hx Hn. split.
  - intros t oid Hc Hp.
    rewrite (Repository_contains_wellformed w self x value t oid Hx Hc Hp).
    destruct (odb x !! oid) as [res|] eqn:Ho.
    + rewrite decide_True by eauto. reflexivity.
    + rewrite decide_False by (intros [? ?]; discriminate). reflexivity.
  - intros Hbad. apply Repository_contains_malformed; assumption.
Qed.

(** X4: [repo.read(hex)] reads the C string of its argument (its
    characters before the first NUL) as an identifier.  It returns the
    pair of the type code and the bytes that the object database keeps
    for the identifier and changes nothing;
    an identifier the database does not have raises [KeyError] carrying
    the value that was given; an error of the database raises the
    exception of the error translator; a malformed identifier raises the
    [ValueError] or [TypeError] of the parse.  Whenever [read] returns a
    value, [value in repo] is 1. *)
Theorem Repository_read_answers_store w self x value n :
  repository_of w self = Some x ->
  ob_type_name value w = Some (n, w) ->
  (forall t oid, c_string value = Some t -> git_oid_mkstr t = inr oid ->
     Repository_read self value w
     = match odb x !! oid with
       | Some (inr raw) =>
           Some (Some [PyInt (otype_code (raw_type raw)); PyString (raw_data raw)], w)
       | Some (inl err) => Some (None, set_py_err (Some (raised_for err value n)) w)
       | None => Some (None, set_py_err (Some (KeyError value)) w)
       end)
  /\ ((forall s, c_string value = Some s -> is_hex40 s = false) ->
      Repository_read self value w
      = Some (None, set_py_err (Some (raised_for GIT_ENOTOID value n)) w))
  /\ (forall r w', Repository_read self value w = Some (Some r, w') ->
        w' = w /\ Repository_contains self value w = Some (1, w)).
Proof.
  intros Hx Hn. split; [|split].
  - intros t oid Hc Hp. apply (Repository_read_wellformed w self x value t oid Hx Hc Hp n Hn).
  - intros Hbad. apply Repository_read_malformed; assumption.
  - intros r w' Hr.
    destruct (c_string value) as [t|] eqn:Hc.
    + destruct (git_oid_mkstr t) as [err|oid] eqn:Hp.
      * assert (Hbad : forall s, c_string value = Some s -> is_hex40 s = false).
        { intros s Hs. rewrite Hc in Hs. injection Hs as <-.
          destruct (is_hex40 t) eqn:Hh; [|reflexivity].
          destruct (git_oid_mkstr_ok t Hh) as (oid & Ho & _). congruence. }
        rewrite (Repository_read_malformed w self value n Hbad Hn) in Hr. discriminate.
      * rewrite (Repository_read_wellformed w self x value t oid Hx Hc Hp n Hn) in Hr.
        rewrite (Repository_contains_wellformed w self x value t oid Hx Hc Hp).
        destruct (odb x !! oid) as [[err|raw]|]; try discriminate.
        injection Hr as _ <-. auto.
    + assert (Hbad : forall s, c_string value = Some s -> is_hex40 s = false)
        by (intros s Hs; rewrite Hc in Hs; discriminate).
      rewrite (Repository_read_malformed w self value n Hbad Hn) in Hr. discriminate.
Qed.

(** ** Reference counts and deallocation *)

Lemma Py_DECREF_rec_eq fuel a :
  Py_DECREF_rec fuel a
  = (let* i := get_inst a in
     put_inst a (mkInst (ob_refcnt i - 1) (ob_type i) (ob_struct i)) ;;
     if ob_refcnt i - 1 =? 0 then
       match fuel with
       | O => undefined
       | S fuel => tp_dealloc (ob_type i) (Py_DECREF_rec fuel) a
       end
     else ret tt).
Proof. destruct fuel; reflexivity. Qed.

Lemma Py_DECREF_rec_alive fuel b w i :
  py_heap w !! b = Some i -> ob_refcnt i <> 1 ->
  Py_DECREF_rec fuel b w = Some (tt, set_py_heap (alter decr b (py_heap w)) w).
Proof.
  intros Hi Hrc. rewrite Py_DECREF_rec_eq.
  unfold get_inst, put_inst, bind, modify. rewrite Hi.
  destruct (Z.eqb_spec (ob_refcnt i - 1) 0); [lia|].
  rewrite <- (insert_alter_heap _ _ _ decr Hi). reflexivity.
Qed.

Lemma set_py_heap_same w : set_py_heap (py_heap w) w = w.
Proof. destruct w; reflexivity. Qed.

Lemma XDECREF_alive fuel old a w :
  stays_alive w a old ->
  XDECREF_with (Py_DECREF_rec fuel) old w
  = Some (tt, set_py_heap (release old (py_heap w)) w).
Proof.
  destruct old as [q|]; cbn [stays_alive XDECREF_with release].
  - intros (_ & iq & Hq & Hrc). apply (Py_DECREF_rec_alive fuel q w iq Hq Hrc).
  - intros _. unfold ret. rewrite set_py_heap_same. reflexivity.
Qed.

Lemma Py_DECREF_last a w i :
  py_heap w !! a = Some i -> ob_refcnt i = 1 ->
  exists fuel,
    Py_DECREF a w
    = tp_dealloc (ob_type i) (Py_DECREF_rec fuel) a
        (set_py_heap (<[a := mkInst 0 (ob_type i) (ob_struct i)]> (py_heap w)) w).
Proof.
  intros Hi Hrc. unfold Py_DECREF.
  destruct (size (py_heap w)) as [|k] eqn:Hs.
  - exfalso. apply map_size_empty_iff in Hs. rewrite Hs, lookup_empty in Hi.
    discriminate.
  - exists k. rewrite Py_DECREF_rec_eq. unfold get_inst, bind at 1. rewrite Hi.
    unfold put_inst, modify, bind. rewrite Hrc. reflexivity.
Qed.

Lemma stays_alive_insert w a old x :
  stays_alive w a old ->
  stays_alive (set_py_heap (<[a := x]> (py_heap w)) w) a old.
Proof.
  destruct old as [q|]; cbn [stays_alive]; [|auto].
  intros (Hne & iq & Hq & Hrc). split; [exact Hne|].
  exists iq. cbn [py_heap set_py_heap]. rewrite lookup_insert_ne by auto. auto.
Qed.

Lemma delete_release_insert (h : gmap nat PyInst) a old x :
  (forall q, old = Some q -> q <> a) ->
  delete a (release old (<[a := x]> h)) = delete a (release old h).
Proof.
  intros Hne. apply map_eq. intros b.
  destruct (decide (a = b)) as [->|Hab].
  - rewrite !lookup_delete_eq. reflexivity.
  - rewrite !lookup_delete_ne by exact Hab.
    rewrite !release_lookup. rewrite lookup_insert_ne by exact Hab. reflexivity.
Qed.

Lemma stays_alive_ne w a old : stays_alive w a old -> forall q, old = Some q -> q <> a.
Proof. intros H q ->. exact (proj1 H). Qed.

(** The last reference to an instance with the fields of an [Object]
    that is no [Tag] goes away. *)
Lemma Object_dealloc_last w a t o :
  py_heap w !! a = Some (mkInst 1 t (Object_struct o)) ->
  t <> RepositoryType -> t <> TreeEntryType -> t <> TagType ->
  (own_obj o = true -> is_Some (obj o)) ->
  stays_alive w a (repo o) ->
  Py_DECREF a w
  = Some (tt,
          mkWorld (py_err w) (delete a (release (repo o) (py_heap w)))
            (if own_obj o
             then match obj o with
                  | Some p => delete p (git_heap w)
                  | None => git_heap w
                  end
             else git_heap w)
            (git_repos w) (mem w)).
Proof.
  intros Hi Ht1 Ht2 Ht3 Hown Hrepo.
  destruct (Py_DECREF_last a w _ Hi eq_refl) as (fuel & ->).
  cbn [ob_type ob_struct].
  set (w1 := set_py_heap _ w).
  assert (H1 : py_heap w1 !! a = Some (mkInst 0 t (Object_struct o)))
    by (unfold w1; cbn [py_heap set_py_heap]; apply lookup_insert_eq).
  assert (Hd : tp_dealloc t (Py_DECREF_rec fuel) a = Object_dealloc (Py_DECREF_rec fuel) a)
    by (destruct t; try congruence; reflexivity).
  rewrite Hd. unfold Object_dealloc.
  assert (Hgo : get_Object a w1 = Some (o, w1)).
  { unfold get_Object, get_inst, bind. rewrite H1. reflexivity. }
  rewrite (bind_Some _ _ _ _ _ Hgo).
  assert (Ha1 : stays_alive w1 a (repo o)) by (apply stays_alive_insert; exact Hrepo).
  destruct (own_obj o) eqn:Eo.
  - destruct (Hown eq_refl) as [p Hp]. rewrite Hp. cbn [nonnull].
    unfold bind at 1. unfold bind at 1. cbn [ret git_object_free modify].
    set (w2 := set_git_heap _ w1).
    rewrite (bind_Some _ _ _ _ _ (XDECREF_alive fuel (repo o) a w2 Ha1)).
    unfold tp_free, modify. cbn [py_heap set_py_heap set_git_heap w2 w1 py_err git_heap git_repos mem].
    rewrite (delete_release_insert _ _ _ _ (stays_alive_ne _ _ _ Hrepo)). reflexivity.
  - unfold bind at 1. cbn [ret].
    rewrite (bind_Some _ _ _ _ _ (XDECREF_alive fuel (repo o) a w1 Ha1)).
    unfold tp_free, modify. cbn [py_heap set_py_heap set_git_heap w1 py_err git_heap git_repos mem].
    rewrite (delete_release_insert _ _ _ _ (stays_alive_ne _ _ _ Hrepo)). reflexivity.
Qed.

(** The last reference to a [Tag] goes away. *)
Lemma Tag_dealloc_last w a o target :
  py_heap w !! a = Some (mkInst 1 TagType (Tag_struct o target)) ->
  stays_alive w a target ->
  Py_DECREF a w
  = Some (tt, set_py_heap (delete a (release target (py_heap w))) w).
Proof.
  intros Hi Htarget.
  destruct (Py_DECREF_last a w _ Hi eq_refl) as (fuel & ->).
  cbn [ob_type ob_struct tp_dealloc].
  set (w1 := set_py_heap _ w).
  assert (H1 : py_heap w1 !! a = Some (mkInst 0 TagType (Tag_struct o target)))
    by (unfold w1; cbn [py_heap set_py_heap]; apply lookup_insert_eq).
  unfold Tag_dealloc.
  assert (Hgt : get_target a w1 = Some (target, w1)).
  { unfold get_target, get_inst, bind. rewrite H1. reflexivity. }
  rewrite (bind_Some _ _ _ _ _ Hgt).
  assert (Ha1 : stays_alive w1 a target) by (apply stays_alive_insert; exact Htarget).
  rewrite (bind_Some _ _ _ _ _ (XDECREF_alive fuel target a w1 Ha1)).
  unfold tp_free, modify. cbn [py_heap set_py_heap w1 py_err git_heap git_repos mem].
  rewrite (delete_release_insert _ _ _ _ (stays_alive_ne _ _ _ Htarget)). reflexivity.
Qed.

(** X5: when the last reference to a wrapper with the dealloc of [Object]
    (a [Commit], a [Tree], a [Blob]) goes away, the wrapper is freed and
    its [Repository] gets one reference back; the libgit2 object behind it
    is freed exactly when the wrapper is Owned, and a Borrowed wrapper
    leaves the object of the store where it is. *)
Theorem Object_dealloc_frees_only_owned w a t o p q iq :
  py_heap w !! a = Some (mkInst 1 t (Object_struct o)) ->
  t = ObjectType \/ t = CommitType \/ t = TreeType \/ t = BlobType ->
  obj o = Some p -> repo o = Some q -> q <> a ->
  py_heap w !! q = Some iq -> ob_refcnt iq <> 1 ->
  exists w',
    Py_DECREF a w = Some (tt, w')
    /\ py_heap w' !! a = None
    /\ py_heap w' !! q = Some (mkInst (ob_refcnt iq - 1) (ob_type iq) (ob_struct iq))
    /\ (forall b, b <> a -> b <> q -> py_heap w' !! b = py_heap w !! b)
    /\ git_heap w' = (if own_obj o then delete p (git_heap w) else git_heap w)
    /\ py_err w' = py_err w /\ git_repos w' = git_repos w.
Proof.
  intros Hi Ht Hp Hq Hne Hiq Hrc.
  eexists. split.
  - apply (Object_dealloc_last w a t o Hi).
    + destruct Ht as [->|[->|[->| ->]]]; discriminate.
    + destruct Ht as [->|[->|[->| ->]]]; discriminate.
    + destruct Ht as [->|[->|[->| ->]]]; discriminate.
    + intros _. rewrite Hp. eauto.
    + rewrite Hq. split; [exact Hne|]. eauto.
  - cbn [py_heap git_heap py_err git_repos]. rewrite Hq, Hp. cbn [release].
    split; [apply lookup_delete_eq|].
    split.
    { rewrite lookup_delete_ne by auto. rewrite lookup_alter_eq, Hiq. reflexivity. }
    split.
    { intros b Hb1 Hb2. rewrite lookup_delete_ne by auto.
      rewrite lookup_alter_ne by auto. reflexivity. }
    auto.
Qed.

(** X6: [Tag] has a dealloc of its own, which releases the target and
    frees the wrapper, and nothing more: the libgit2 tag object stays
    allocated even when the wrapper is Owned, and the reference to the
    [Repository] that the constructor took is never given back. *)
Theorem Tag_dealloc_keeps_handle_and_repository w a o target :
  py_heap w !! a = Some (mkInst 1 TagType (Tag_struct o target)) ->
  stays_alive w a target ->
  exists w',
    Py_DECREF a w = Some (tt, w')
    /\ py_heap w' !! a = None
    /\ git_heap w' = git_heap w
    /\ (forall b ib, target = Some b -> py_heap w !! b = Some ib ->
        py_heap w' !! b = Some (decr ib))
    /\ (forall b, b <> a -> target <> Some b -> py_heap w' !! b = py_heap w !! b)
    /\ (forall q, repo o = Some q -> q <> a -> target <> Some q ->
        refcnt_of w' q = refcnt_of w q)
    /\ py_err w' = py_err w /\ git_repos w' = git_repos w.
Proof.
  intros Hi Ht.
  eexists. split; [apply (Tag_dealloc_last w a o target Hi Ht)|].
  cbn [py_heap git_heap py_err git_repos set_py_heap].
  assert (Hother : forall b, b <> a -> target <> Some b ->
            delete a (release target (py_heap w)) !! b = py_heap w !! b).
  { intros b Hb1 Hb2. rewrite lookup_delete_ne by auto.
    rewrite release_lookup. rewrite decide_False by exact Hb2.
    destruct (py_heap w !! b); reflexivity. }
  split; [apply lookup_delete_eq|]. split; [reflexivity|]. split.
  { intros b ib -> Hb. destruct Ht as (Hne & _).
    rewrite lookup_delete_ne by auto. cbn [release].
    rewrite lookup_alter_eq, Hb. reflexivity. }
  split; [exact Hother|]. split; [|auto].
  intros q _ Hq1 Hq2. unfold refcnt_of. cbn [py_heap set_py_heap].
  rewrite (Hother q Hq1 Hq2). reflexivity.
Qed.

(** ** Construction *)

Lemma fresh_heap {A} (h : gmap nat A) : h !! fresh (dom h) = None.
Proof. apply not_elem_of_dom, is_fresh. Qed.

Lemma tp_alloc_ok t w n :
  mem w = S n ->
  tp_alloc t w
  = Some (Some (fresh (dom (py_heap w))),
          set_mem n
            (set_py_heap
               (<[fresh (dom (py_heap w)) := mkInst 1 t (zeroed t)]> (py_heap w)) w)).
Proof. intros H. unfold tp_alloc. rewrite H. reflexivity. Qed.

Lemma with_Object_twice s x y : with_Object (with_Object s x) y = with_Object s y.
Proof. destruct s; reflexivity. Qed.

Lemma as_Object_with_Object s x : as_Object (with_Object s x) = Some x.
Proof. destruct s; reflexivity. Qed.

Lemma tp_init_Object t init type :
  tp_init t = Some init -> init_type t = Some type ->
  init = (fun o => Object_init_with_type o type)
  /\ new_body type <> None
  /\ as_Object (zeroed t) = Some (mkObject None false None)
  /\ t <> RepositoryType /\ t <> TreeEntryType.
Proof.
  destruct t; cbn [tp_init init_type]; intros H1 H2; try discriminate;
    injection H1 as <-; injection H2 as <-; repeat split; discriminate.
Qed.

(** [Object_init_with_type] on a [Repository] argument, with one
    allocation left for libgit2. *)
Lemma Object_init_with_type_ok py_obj type repo w i ir r b n :
  py_heap w !! py_obj = Some i -> is_Some (as_Object (ob_struct i)) ->
  py_heap w !! repo = Some ir ->
  PyType_IsSubtype (ob_type ir) RepositoryType = true ->
  ob_struct ir = Repository_struct (Some r) ->
  repo <> py_obj ->
  new_body type = Some b -> mem w = S n ->
  Object_init_with_type py_obj type [PyInstance repo] None w
  = Some (0,
          mkWorld (py_err w)
            (<[py_obj := mkInst (ob_refcnt i) (ob_type i)
                           (with_Object (ob_struct i)
                              (mkObject (Some repo) true
                                 (Some (fresh (dom (git_heap w))))))]>
               (alter incr repo (py_heap w)))
            (<[fresh (dom (git_heap w)) := mkGitObject None r b]> (git_heap w))
            (git_repos w) n).
Proof.
  intros Hi [o0 Ho0] Hir Hsub Hst Hne Hb Hm.
  unfold Object_init_with_type. cbn [PyArg_ParseTuple_O].
  unfold bind at 1. cbn [ret].
  assert (Hck : PyObject_TypeCheck (PyInstance repo) RepositoryType w = Some (true, w)).
  { unfold PyObject_TypeCheck, get_inst, bind. rewrite Hir. unfold ret. now rewrite Hsub. }
  rewrite (bind_Some _ _ _ _ _ Hck). cbn [negb].
  assert (Hgr : get_Repository repo w = Some (r, w)).
  { unfold get_Repository, get_inst, bind. rewrite Hir, Hst. reflexivity. }
  rewrite (bind_Some _ _ _ _ _ Hgr).
  unfold bind at 1. unfold git_object_new. rewrite Hm, Hb.
  set (p := fresh (dom (git_heap w))).
  set (w1 := set_mem n _).
  assert (H1 : is_Some (py_heap w1 !! repo)) by (unfold w1; cbn; eauto).
  rewrite (bind_Some _ _ _ _ _ (Py_INCREF_fwd repo w1 H1)).
  set (w2 := set_py_heap _ w1).
  assert (H2 : py_heap w2 !! py_obj = Some i).
  { unfold w2, w1. cbn [py_heap set_py_heap set_mem set_git_heap].
    rewrite lookup_alter_ne by exact Hne. exact Hi. }
  unfold set_repo.
  rewrite (bind_Some _ _ _ _ _
             (set_field_fwd (fun o => mkObject (Some repo) (own_obj o) (obj o))
                py_obj w2 i o0 H2 Ho0)).
  set (w3 := set_py_heap _ w2).
  assert (H3 : py_heap w3 !! py_obj
               = Some (mkInst (ob_refcnt i) (ob_type i)
                         (with_Object (ob_struct i)
                            (mkObject (Some repo) (own_obj o0) (obj o0)))))
    by (unfold w3; cbn [py_heap set_py_heap]; apply lookup_insert_eq).
  unfold set_own_obj.
  rewrite (bind_Some _ _ _ _ _
             (set_field_fwd (fun o => mkObject (Py.repo o) true (obj o))
                py_obj w3 _ _ H3 (as_Object_with_Object _ _))).
  set (w4 := set_py_heap _ w3).
  assert (H4 : py_heap w4 !! py_obj
               = Some (mkInst (ob_refcnt i) (ob_type i)
                         (with_Object (ob_struct i)
                            (mkObject (Some repo) true (obj o0))))).
  { unfold w4. cbn [py_heap set_py_heap ob_refcnt ob_type ob_struct Py.repo obj].
    rewrite lookup_insert_eq, with_Object_twice. reflexivity. }
  unfold set_obj.
  rewrite (bind_Some _ _ _ _ _
             (set_field_fwd (fun o => mkObject (Py.repo o) (own_obj o) (Some p))
                py_obj w4 _ _ H4 (as_Object_with_Object _ _))).
  unfold ret. f_equal. f_equal.
  unfold w4, w3, w2, w1.
  cbn [py_heap set_py_heap set_mem set_git_heap py_err git_heap git_repos mem
       ob_refcnt ob_type ob_struct Py.repo own_obj obj].
  rewrite !insert_insert_eq, with_Object_twice. reflexivity.
Qed.

Lemma type_call_Object_ok t init type w repo ir r n :
  tp_init t = Some init -> init_type t = Some type ->
  py_heap w !! repo = Some ir ->
  PyType_IsSubtype (ob_type ir) RepositoryType = true ->
  ob_struct ir = Repository_struct (Some r) ->
  mem w = S (S n) ->
  exists b, new_body type = Some b /\
  type_call t init [PyInstance repo] None w
  = Some (Some (fresh (dom (py_heap w))),
          mkWorld (py_err w)
            (<[fresh (dom (py_heap w)) :=
                 mkInst 1 t (with_Object (zeroed t)
                               (mkObject (Some repo) true
                                  (Some (fresh (dom (git_heap w))))))]>
               (alter incr repo (py_heap w)))
            (<[fresh (dom (git_heap w)) := mkGitObject None r b]> (git_heap w))
            (git_repos w) n).
Proof.
  intros Hinit Hty Hir Hsub Hst Hm.
  destruct (tp_init_Object t init type Hinit Hty) as (-> & Hb & Hz & _).
  destruct (new_body type) as [b|] eqn:Eb; [|congruence].
  exists b. split; [reflexivity|].
  set (a := fresh (dom (py_heap w))).
  assert (Ha : py_heap w !! a = None) by apply fresh_heap.
  assert (Hne : repo <> a) by (intros ->; congruence).
  unfold type_call. rewrite (bind_Some _ _ _ _ _ (tp_alloc_ok t w _ Hm)). fold a.
  set (w1 := set_mem (S n) _).
  assert (H1 : py_heap w1 !! a = Some (mkInst 1 t (zeroed t)))
    by (unfold w1; cbn [py_heap set_py_heap set_mem]; apply lookup_insert_eq).
  assert (H2 : py_heap w1 !! repo = Some ir).
  { unfold w1. cbn [py_heap set_py_heap set_mem]. rewrite lookup_insert_ne by auto. exact Hir. }
  rewrite (bind_Some _ _ _ _ _
             (Object_init_with_type_ok a type repo w1 _ ir r b n H1
                ltac:(cbn [ob_struct]; rewrite Hz; eauto) H2 Hsub Hst Hne Eb eq_refl)).
  cbn [Z.ltb Z.compare]. unfold ret. f_equal. f_equal.
  unfold w1. cbn [py_heap set_py_heap set_mem py_err git_heap git_repos ob_refcnt ob_type ob_struct].
  f_equal. rewrite alter_insert_ne by auto. rewrite insert_insert_eq. reflexivity.
Qed.

Lemma new_body_type type b : new_body type = Some b -> body_type b = type.
Proof. destruct type; intros H; try discriminate; injection H as <-; reflexivity. Qed.

(** X7: calling [Commit], [Tree], [Blob] or [Tag] on a [Repository], with
    two allocations left (the wrapper and the libgit2 object), returns a
    new wrapper with one reference that is Owned, bound to the repository,
    which gets one more reference, around a new libgit2 object that has no
    identifier; the [type] of the wrapper is the number of the object
    type of its class; no other instance changes. *)
Theorem constructor_builds_owned_object w t init type repo ir r n :
  tp_init t = Some init -> init_type t = Some type ->
  py_heap w !! repo = Some ir ->
  PyType_IsSubtype (ob_type ir) RepositoryType = true ->
  ob_struct ir = Repository_struct (Some r) ->
  mem w = S (S n) ->
  exists a p b w',
    type_call t init [PyInstance repo] None w = Some (Some a, w')
    /\ py_heap w !! a = None /\ git_heap w !! p = None
    /\ py_heap w' !! a = Some (mkInst 1 t (with_Object (zeroed t)
                                    (mkObject (Some repo) true (Some p))))
    /\ py_heap w' !! repo = Some (incr ir)
    /\ (forall x, x <> a -> x <> repo -> py_heap w' !! x = py_heap w !! x)
    /\ new_body type = Some b
    /\ git_heap w' = <[p := mkGitObject None r b]> (git_heap w)
    /\ Object_get_type a w' = Some (Some (PyInt (otype_code type)), w')
    /\ py_err w' = py_err w /\ git_repos w' = git_repos w /\ mem w' = n.
Proof.
  intros Hinit Hty Hir Hsub Hst Hm.
  destruct (type_call_Object_ok t init type w repo ir r n Hinit Hty Hir Hsub Hst Hm)
    as (b & Hb & Hcall).
  set (a := fresh (dom (py_heap w))) in *.
  set (p := fresh (dom (git_heap w))) in *.
  assert (Ha : py_heap w !! a = None) by apply fresh_heap.
  assert (Hp : git_heap w !! p = None) by apply fresh_heap.
  assert (Hne : repo <> a) by (intros ->; congruence).
  exists a, p, b. eexists. split; [exact Hcall|].
  cbn [py_heap git_heap py_err git_repos mem].
  split; [exact Ha|]. split; [exact Hp|].
  split; [apply lookup_insert_eq|].
  split.
  { rewrite lookup_insert_ne by auto. rewrite lookup_alter_eq, Hir. reflexivity. }
  split.
  { intros x Hx1 Hx2. rewrite lookup_insert_ne by auto.
    rewrite lookup_alter_ne by auto. reflexivity. }
  split; [exact Hb|]. split; [reflexivity|].
  split; [|auto].
  match goal with |- Object_get_type a ?W = _ => set (w' := W) end.
  assert (Hgo : get_obj a w' = Some (p, w')).
  { apply (get_obj_of w' a (mkObject (Some repo) true (Some p))); [|reflexivity].
    unfold Object_of, w'. cbn [py_heap]. rewrite lookup_insert_eq.
    cbn [ob_struct]. apply as_Object_with_Object. }
  unfold Object_get_type. rewrite (bind_Some _ _ _ _ _ Hgo).
  unfold git_object_type, get_git, bind. unfold w' at 1. cbn [git_heap].
  rewrite lookup_insert_eq. cbn [body ret].
  rewrite (new_body_type _ _ Hb). reflexivity.
Qed.

Lemma not_a_Repository_alloc w a x o n e :
  py_heap w !! a = None ->
  not_a_Repository w o ->
  not_a_Repository (set_py_err e (set_mem n (set_py_heap (<[a := x]> (py_heap w)) w))) o.
Proof.
  intros Ha. destruct o; cbn [not_a_Repository]; auto.
  intros (ib & Hb & Hs). exists ib. split; [|exact Hs].
  cbn [py_heap set_py_heap set_mem set_py_err].
  rewrite lookup_insert_ne by (intros ->; congruence). exact Hb.
Qed.

Lemma Object_init_with_type_rejects py_obj type args kwds w :
  is_Some (py_heap w !! py_obj) ->
  bad_arguments w args kwds ->
  exists v,
    Object_init_with_type py_obj type args kwds w
    = Some (-1, set_py_err (Some (mkErr PyExc_TypeError v)) w).
Proof.
  intros [i Hi] Hbad. unfold Object_init_with_type.
  destruct kwds as [k|].
  - unfold ob_type_name, get_inst, bind. rewrite Hi. eexists. reflexivity.
  - destruct Hbad as [[k Hk]|[Hargs|(o & -> & Ho)]]; [discriminate| |].
    + destruct args as [|o [|o' args]]; [| exfalso; exact (Hargs o eq_refl) |];
        eexists; reflexivity.
    + cbn [PyArg_ParseTuple_O]. unfold bind at 1. cbn [ret].
      destruct o; cbn [not_a_Repository] in Ho;
        try (eexists; reflexivity).
      destruct Ho as (ib & Hb & Hs).
      unfold PyObject_TypeCheck, ob_type_name, get_inst, bind. rewrite Hb.
      cbn [ret]. rewrite Hs. cbn [negb]. rewrite Hb. eexists. reflexivity.
Qed.

(** The instance a failed [tp_init] leaves is released without a trace. *)
Lemma release_failed_instance t init type w a e n :
  tp_init t = Some init -> init_type t = Some type ->
  py_heap w !! a = None ->
  Py_DECREF a
    (set_py_err e (set_mem n (set_py_heap (<[a := mkInst 1 t (zeroed t)]> (py_heap w)) w)))
  = Some (tt, mkWorld e (py_heap w) (git_heap w) (git_repos w) n).
Proof.
  intros Hinit Hty Ha.
  set (w2 := set_py_err e _).
  assert (H2 : py_heap w2 !! a = Some (mkInst 1 t (zeroed t)))
    by (unfold w2; cbn [py_heap set_py_err set_mem set_py_heap]; apply lookup_insert_eq).
  destruct t; try discriminate; cbn [zeroed] in H2.
  - rewrite (Object_dealloc_last w2 a CommitType _ H2); try discriminate; try exact I.
    cbn [own_obj repo release]. unfold w2.
    cbn [py_heap set_py_err set_mem set_py_heap py_err git_heap git_repos mem].
    rewrite (delete_insert_id _ _ _ Ha). reflexivity.
  - rewrite (Object_dealloc_last w2 a TreeType _ H2); try discriminate; try exact I.
    cbn [own_obj repo release]. unfold w2.
    cbn [py_heap set_py_err set_mem set_py_heap py_err git_heap git_repos mem].
    rewrite (delete_insert_id _ _ _ Ha). reflexivity.
  - rewrite (Object_dealloc_last w2 a BlobType _ H2); try discriminate; try exact I.
    cbn [own_obj repo release]. unfold w2.
    cbn [py_heap set_py_err set_mem set_py_heap py_err git_heap git_repos mem].
    rewrite (delete_insert_id _ _ _ Ha). reflexivity.
  - rewrite (Tag_dealloc_last w2 a _ None H2 I).
    cbn [release]. unfold w2.
    cbn [py_heap set_py_err set_mem set_py_heap py_err git_heap git_repos mem].
    rewrite (delete_insert_id _ _ _ Ha). reflexivity.
Qed.

Lemma type_call_rejects t init type args kwds w n :
  tp_init t = Some init -> init_type t = Some type ->
  mem w = S n -> bad_arguments w args kwds ->
  exists v,
    type_call t init args kwds w
    = Some (None,
            mkWorld (Some (mkErr PyExc_TypeError v)) (py_heap w) (git_heap w)
              (git_repos w) n).
Proof.
  intros Hinit Hty Hm Hbad.
  destruct (tp_init_Object t init type Hinit Hty) as (Ei & _).
  set (a := fresh (dom (py_heap w))).
  assert (Ha : py_heap w !! a = None) by apply fresh_heap.
  unfold type_call. rewrite (bind_Some _ _ _ _ _ (tp_alloc_ok t w _ Hm)). fold a.
  set (w1 := set_mem n _).
  assert (Hbad1 : bad_arguments w1 args kwds).
  { destruct Hbad as [H|[H|(o & H1 & H2)]]; [left; exact H|right; left; exact H|].
    right; right. exists o. split; [exact H1|].
    pose proof (not_a_Repository_alloc w a (mkInst 1 t (zeroed t)) o n (py_err w) Ha H2) as H.
    unfold w1. destruct o; auto. }
  assert (H1 : is_Some (py_heap w1 !! a))
    by (unfold w1; cbn [py_heap set_mem set_py_heap]; rewrite lookup_insert_eq; eauto).
  rewrite Ei.
  destruct (Object_init_with_type_rejects a type args kwds w1 H1 Hbad1) as (v & Hv).
  exists v. rewrite (bind_Some _ _ _ _ _ Hv). cbn [Z.ltb Z.compare].
  unfold w1.
  rewrite (bind_Some _ _ _ _ _
             (release_failed_instance t init type w a _ n Hinit Hty Ha)).
  reflexivity.
Qed.

Lemma type_call_no_memory t init type w repo ir r :
  tp_init t = Some init -> init_type t = Some type ->
  py_heap w !! repo = Some ir ->
  PyType_IsSubtype (ob_type ir) RepositoryType = true ->
  ob_struct ir = Repository_struct (Some r) ->
  (mem w <= 1)%nat ->
  type_call t init [PyInstance repo] None w
  = Some (None,
          mkWorld (Some (mkErr PyExc_MemoryError ExcNone)) (py_heap w) (git_heap w)
            (git_repos w) 0).
Proof.
  intros Hinit Hty Hir Hsub Hst Hm.
  destruct (tp_init_Object t init type Hinit Hty) as (Ei & _).
  destruct (mem w) as [|[|k]] eqn:Em; [| |lia].
  - unfold type_call, tp_alloc, bind. rewrite Em. destruct w; cbn in *. subst. reflexivity.
  - set (a := fresh (dom (py_heap w))).
    assert (Ha : py_heap w !! a = None) by apply fresh_heap.
    assert (Hne : repo <> a) by (intros ->; congruence).
    unfold type_call. rewrite (bind_Some _ _ _ _ _ (tp_alloc_ok t w _ Em)). fold a.
    set (w1 := set_mem 0 _).
    assert (H2 : py_heap w1 !! repo = Some ir).
    { unfold w1. cbn [py_heap set_py_heap set_mem]. rewrite lookup_insert_ne by auto. exact Hir. }
    assert (Hfail : init a [PyInstance repo] None w1
                    = Some (-1, set_py_err (Some (mkErr PyExc_MemoryError ExcNone)) w1)).
    { rewrite Ei. unfold Object_init_with_type. cbn [PyArg_ParseTuple_O].
      unfold bind at 1. cbn [ret].
      unfold PyObject_TypeCheck, get_Repository, get_inst, bind. rewrite H2.
      cbn [ret]. rewrite Hsub. cbn [negb]. rewrite H2, Hst. cbn [nonnull ret].
      reflexivity. }
    rewrite (bind_Some _ _ _ _ _ Hfail). cbn [Z.ltb Z.compare].
    unfold w1.
    rewrite (bind_Some _ _ _ _ _
               (release_failed_instance t init type w a _ 0%nat Hinit Hty Ha)).
    reflexivity.
Qed.

(** X8: a constructor call that fails leaves nothing behind.  With
    keywords, with a number of arguments other than one, or with an
    argument that is no [Repository], [Commit], [Tree], [Blob] and [Tag]
    raise [TypeError]; with fewer than the two allocations they need they
    raise [MemoryError]; in each case the instance that was allocated is
    released again, the [Repository] keeps its reference count, and no
    libgit2 object is left. *)
Theorem failed_construction_leaves_nothing w t init type args kwds :
  tp_init t = Some init -> init_type t = Some type ->
  ((0 < mem w)%nat -> bad_arguments w args kwds ->
     exists v w',
       type_call t init args kwds w = Some (None, w')
       /\ py_err w' = Some (mkErr PyExc_TypeError v)
       /\ py_heap w' = py_heap w /\ git_heap w' = git_heap w
       /\ git_repos w' = git_repos w)
  /\ (forall repo ir r,
        args = [PyInstance repo] -> kwds = None ->
        py_heap w !! repo = Some ir ->
        PyType_IsSubtype (ob_type ir) RepositoryType = true ->
        ob_struct ir = Repository_struct (Some r) ->
        (mem w <= 1)%nat ->
        exists w',
          type_call t init args kwds w = Some (None, w')
          /\ py_err w' = Some (mkErr PyExc_MemoryError ExcNone)
          /\ py_heap w' = py_heap w /\ git_heap w' = git_heap w
          /\ git_repos w' = git_repos w).
Proof.
  intros Hinit Hty. split.
  - intros Hm Hbad. destruct (mem w) as [|n] eqn:Em; [lia|].
    destruct (type_call_rejects t init type args kwds w n Hinit Hty Em Hbad) as (v & Hv).
    exists v. eexists. split; [exact Hv|]. repeat split.
  - intros repo ir r -> -> Hir Hsub Hst Hm.
    eexists. split; [apply (type_call_no_memory t init type w repo ir r); assumption|].
    repeat split.
Qed.

Lemma decr_incr i : decr (incr i) = i.
Proof. destruct i as [c t s]. unfold decr, incr. cbn. f_equal. lia. Qed.

(** X9: constructing an object and dropping it again.  For [Commit],
    [Tree] and [Blob] the two undo each other: the instances and their
    counts, and the libgit2 objects, are as before the call.  For [Tag]
    they do not: the wrapper is gone, but the [Repository] keeps the
    reference the constructor took and the libgit2 tag object stays. *)
Theorem construct_then_drop w t init type repo ir r n :
  tp_init t = Some init -> init_type t = Some type ->
  py_heap w !! repo = Some ir ->
  PyType_IsSubtype (ob_type ir) RepositoryType = true ->
  ob_struct ir = Repository_struct (Some r) ->
  0 < ob_refcnt ir ->
  mem w = S (S n) ->
  exists a w1 w2,
    type_call t init [PyInstance repo] None w = Some (Some a, w1)
    /\ Py_DECREF a w1 = Some (tt, w2)
    /\ py_err w2 = py_err w /\ git_repos w2 = git_repos w
    /\ if decide (t = TagType)
       then py_heap w2 = alter incr repo (py_heap w)
            /\ exists p, git_heap w !! p = None
                 /\ git_heap w2
                    = <[p := mkGitObject None r (Tag_body None GIT_OBJ_BAD)]> (git_heap w)
       else py_heap w2 = py_heap w /\ git_heap w2 = git_heap w.
Proof.
  intros Hinit Hty Hir Hsub Hst Hrc Hm.
  destruct (type_call_Object_ok t init type w repo ir r n Hinit Hty Hir Hsub Hst Hm)
    as (b & Hb & Hcall).
  set (a := fresh (dom (py_heap w))) in *.
  set (p := fresh (dom (git_heap w))) in *.
  assert (Ha : py_heap w !! a = None) by apply fresh_heap.
  assert (Hp : git_heap w !! p = None) by apply fresh_heap.
  assert (Hne : repo <> a) by (intros ->; congruence).
  match type of Hcall with _ = Some (_, ?W) => set (w1 := W) in * end.
  assert (Hrepo1 : stays_alive w1 a (Some repo)).
  { split; [exact Hne|]. exists (incr ir). split.
    - unfold w1. cbn [py_heap]. rewrite lookup_insert_ne by auto.
      rewrite lookup_alter_eq, Hir. reflexivity.
    - cbn [incr ob_refcnt]. lia. }
  assert (Hback : delete a (alter decr repo
                              (<[a := mkInst 1 t
                                        (with_Object (zeroed t)
                                           (mkObject (Some repo) true (Some p)))]>
                                 (alter incr repo (py_heap w))))
                  = py_heap w).
  { apply map_eq. intros x. destruct (decide (a = x)) as [<-|Hax].
    - rewrite lookup_delete_eq. auto.
    - rewrite lookup_delete_ne by auto. rewrite !lookup_alter_dec.
      rewrite lookup_insert_ne by auto. rewrite lookup_alter_dec.
      destruct (decide (repo = x)); destruct (py_heap w !! x); cbn; auto.
      now rewrite decr_incr. }
  destruct (decide (t = TagType)) as [->|Ht].
  - assert (H1 : py_heap w1 !! a
                 = Some (mkInst 1 TagType
                           (Tag_struct (mkObject (Some repo) true (Some p)) None)))
      by (unfold w1; cbn [py_heap]; apply lookup_insert_eq).
    exists a, w1. eexists. split; [exact Hcall|].
    split; [apply (Tag_dealloc_last w1 a _ None H1 I)|].
    cbn [py_err git_repos py_heap git_heap set_py_heap w1 release].
    split; [reflexivity|]. split; [reflexivity|]. split.
    + apply delete_insert_id. rewrite lookup_alter_ne by auto. exact Ha.
    + exists p. split; [exact Hp|]. injection Hty as <-. injection Hb as <-. reflexivity.
  - assert (Hz : with_Object (zeroed t) (mkObject (Some repo) true (Some p))
                 = Object_struct (mkObject (Some repo) true (Some p)))
      by (destruct t; try discriminate; try reflexivity; congruence).
    assert (H1 : py_heap w1 !! a
                 = Some (mkInst 1 t (Object_struct (mkObject (Some repo) true (Some p)))))
      by (unfold w1; cbn [py_heap]; rewrite lookup_insert_eq, Hz; reflexivity).
    exists a, w1. eexists. split; [exact Hcall|].
    split.
    + apply (Object_dealloc_last w1 a t _ H1).
      * destruct t; discriminate.
      * destruct t; discriminate.
      * exact Ht.
      * cbn [obj]. eauto.
      * exact Hrepo1.
    + cbn [py_err git_repos py_heap git_heap own_obj obj Py.repo w1 release].
      split; [reflexivity|]. split; [reflexivity|]. split.
      * exact Hback.
      * apply delete_insert_id. exact Hp.
Qed.

(** ** Wrapping *)

Lemma wrapper_type_plain ty :
  ty <> GIT_OBJ_TAG -> ty <> GIT_OBJ_ANY -> ty <> GIT_OBJ_BAD ->
  exists t, wrapper_type ty = Some t.
Proof. destruct ty; intros; try congruence; eexists; reflexivity. Qed.

Lemma wrapper_type_zeroed ty t :
  wrapper_type ty = Some t -> zeroed t = Object_struct (mkObject None false None).
Proof. destruct ty; intros H; try discriminate; injection H as <-; reflexivity. Qed.

(** The wrapper of an object that is no tag: a new instance with one
    reference, all of whose fields but the handle and the repository are
    zero, and one more reference to the repository. *)
Lemma wrap_object_rec_plain fuel w p repo g t n :
  git_heap w !! p = Some g -> wrapper_type (body_type (body g)) = Some t ->
  mem w = S n -> is_Some (py_heap w !! repo) ->
  wrap_object_rec (S fuel) p repo w
  = Some (Some (fresh (dom (py_heap w))),
          mkWorld (py_err w)
            (alter incr repo
               (<[fresh (dom (py_heap w)) :=
                    mkInst 1 t (Object_struct (mkObject (Some repo) false (Some p)))]>
                  (py_heap w)))
            (git_heap w) (git_repos w) n).
Proof.
  intros Hg Hty Hm Hr.
  set (a := fresh (dom (py_heap w))).
  assert (Ha : py_heap w !! a = None) by apply fresh_heap.
  assert (Hne : repo <> a)
    by (intros E; rewrite E in Hr; rewrite Ha in Hr; destruct Hr; discriminate).
  pose proof (wrapper_type_zeroed _ _ Hty) as Hz.
  cbn [wrap_object_rec].
  unfold bind at 1. unfold git_object_type, get_git, bind at 1. rewrite Hg. cbn [ret].
  assert (Halloc :
            (let* py_obj := tp_alloc t in
             match py_obj with
             | None => PyErr_NoMemory
             | Some py_obj =>
                 set_obj py_obj (Some p);; set_repo py_obj (Some repo);;
                 Py_INCREF repo;; ret (Some py_obj)
             end) w
            = Some (Some a,
                    mkWorld (py_err w)
                      (alter incr repo
                         (<[a := mkInst 1 t
                                   (Object_struct (mkObject (Some repo) false (Some p)))]>
                            (py_heap w)))
                      (git_heap w) (git_repos w) n)).
  { rewrite (bind_Some _ _ _ _ _ (tp_alloc_ok t w n Hm)). fold a.
    set (w1 := set_mem n _).
    assert (H1 : py_heap w1 !! a = Some (mkInst 1 t (zeroed t)))
      by (unfold w1; cbn [py_heap set_mem set_py_heap]; apply lookup_insert_eq).
    unfold set_obj.
    rewrite (bind_Some _ _ _ _ _
               (set_field_fwd (fun o => mkObject (Py.repo o) (own_obj o) (Some p))
                  a w1 _ (mkObject None false None) H1
                  ltac:(cbn [ob_struct]; rewrite Hz; reflexivity))).
    set (w2 := set_py_heap _ w1).
    assert (H2 : py_heap w2 !! a
                 = Some (mkInst 1 t (Object_struct (mkObject None false (Some p))))).
    { unfold w2. cbn [py_heap set_py_heap ob_refcnt ob_type ob_struct].
      rewrite lookup_insert_eq, Hz. reflexivity. }
    unfold set_repo.
    rewrite (bind_Some _ _ _ _ _
               (set_field_fwd (fun o => mkObject (Some repo) (own_obj o) (obj o))
                  a w2 _ (mkObject None false (Some p)) H2 eq_refl)).
    set (w3 := set_py_heap _ w2).
    assert (H3 : is_Some (py_heap w3 !! repo)).
    { unfold w3, w2, w1. cbn [py_heap set_mem set_py_heap].
      rewrite !lookup_insert_ne by auto. exact Hr. }
    rewrite (bind_Some _ _ _ _ _ (Py_INCREF_fwd repo w3 H3)).
    unfold ret. f_equal. f_equal.
    unfold w3, w2, w1.
    cbn [py_heap set_mem set_py_heap py_err git_heap git_repos mem
         ob_refcnt ob_type ob_struct with_Object Py.repo own_obj obj].
    rewrite !insert_insert_eq. reflexivity. }
  destruct (body g) eqn:Hb; cbn [body_type wrapper_type] in Hty; try discriminate;
    injection Hty as <-; cbn [body_type]; exact Halloc.
Qed.

Lemma wrap_object_rec_plain_nomem fuel w p repo g t :
  git_heap w !! p = Some g -> wrapper_type (body_type (body g)) = Some t ->
  mem w = 0%nat ->
  wrap_object_rec (S fuel) p repo w
  = Some (None, set_py_err (Some (mkErr PyExc_MemoryError ExcNone)) w).
Proof.
  intros Hg Hty Hm. cbn [wrap_object_rec].
  unfold bind at 1. unfold git_object_type, get_git, bind at 1. rewrite Hg. cbn [ret].
  assert (Halloc : forall t,
            (let* py_obj := tp_alloc t in
             match py_obj with
             | None => PyErr_NoMemory
             | Some py_obj =>
                 set_obj py_obj (Some p);; set_repo py_obj (Some repo);;
                 Py_INCREF repo;; ret (Some py_obj)
             end) w
            = Some (None, set_py_err (Some (mkErr PyExc_MemoryError ExcNone)) w)).
  { intros t'. unfold bind at 1, tp_alloc. rewrite Hm. reflexivity. }
  destruct (body g) eqn:Hb; cbn [body_type wrapper_type] in Hty; try discriminate;
    cbn [body_type]; apply Halloc.
Qed.

Lemma size_lookup_S {A} (h : gmap nat A) p g : h !! p = Some g -> exists k, size h = S k.
Proof.
  intros H. destruct (size h) eqn:Hs; [|eauto].
  apply map_size_empty_iff in Hs. rewrite Hs, lookup_empty in H. discriminate.
Qed.

Lemma wrap_object_plain_world w p repo g t n :
  git_heap w !! p = Some g -> wrapper_type (body_type (body g)) = Some t ->
  mem w = S n -> is_Some (py_heap w !! repo) ->
  wrap_object p repo w
  = Some (Some (fresh (dom (py_heap w))),
          mkWorld (py_err w)
            (alter incr repo
               (<[fresh (dom (py_heap w)) :=
                    mkInst 1 t (Object_struct (mkObject (Some repo) false (Some p)))]>
                  (py_heap w)))
            (git_heap w) (git_repos w) n).
Proof.
  intros Hg Hty Hm Hr. unfold wrap_object.
  apply (wrap_object_rec_plain _ w p repo g t n Hg Hty Hm Hr).
Qed.

(** ** Tags *)

Lemma git_tag_target_spec w tag gt tgt ty :
  git_heap w !! tag = Some gt -> body gt = Tag_body tgt ty ->
  git_tag_target tag w = Some (tgt, w).
Proof.
  intros Hg Hb. unfold git_tag_target, get_tag, get_git, bind. rewrite Hg, Hb. reflexivity.
Qed.

(** X10: the getter of [tag.target] asks libgit2 for the target and does
    not read the object that was assigned.  A tag without a target gives
    [None] and changes nothing; otherwise each call builds a new wrapper
    of the target (here one that is no tag), which is Borrowed, bound to
    the tag's repository, and different from every instance that existed,
    so also from the object that was assigned; the repository gets one
    more reference and the tag keeps its stored target. *)
Theorem Tag_get_target_wraps_anew w self o ptag gt tgt ty :
  Object_of w self = Some o -> obj o = Some ptag ->
  git_heap w !! ptag = Some gt -> body gt = Tag_body tgt ty ->
  match tgt with
  | None => Tag_get_target self w = Some (Some PyNone, w)
  | Some p =>
      forall rp gp t n,
        repo o = Some rp -> is_Some (py_heap w !! rp) ->
        git_heap w !! p = Some gp ->
        wrapper_type (body_type (body gp)) = Some t ->
        mem w = S n ->
        exists a w',
          Tag_get_target self w = Some (Some (PyInstance a), w')
          /\ py_heap w !! a = None
          /\ py_heap w' !! a
             = Some (mkInst 1 t (Object_struct (mkObject (Some rp) false (Some p))))
          /\ (forall b, b <> a -> b <> rp -> py_heap w' !! b = py_heap w !! b)
          /\ refcnt_of w' rp = Z.succ <$> refcnt_of w rp
          /\ (forall q, target_of w self = Some (Some q) ->
              is_Some (py_heap w !! q) -> a <> q)
          /\ (rp <> self -> target_of w' self = target_of w self)
          /\ py_err w' = py_err w /\ git_heap w' = git_heap w
  end.
Proof.
  intros Ho Hp Hg Hb.
  pose proof (get_obj_of w self o ptag Ho Hp) as Hgo.
  pose proof (git_tag_target_spec w ptag gt tgt ty Hg Hb) as Hgt.
  destruct tgt as [p|].
  - intros rp gp t n Hrp Hin Hgp Hty Hm.
    set (a := fresh (dom (py_heap w))).
    assert (Ha : py_heap w !! a = None) by apply fresh_heap.
    assert (Hne : rp <> a)
      by (intros E; rewrite E in Hin; rewrite Ha in Hin; destruct Hin; discriminate).
    exists a. eexists. split.
    { unfold Tag_get_target.
      rewrite (bind_Some _ _ _ _ _ Hgo), (bind_Some _ _ _ _ _ Hgt).
      rewrite (bind_Some _ _ _ _ _ (get_Object_of w self o Ho)).
      rewrite Hrp. cbn [nonnull]. unfold bind at 1. cbn [ret].
      rewrite (bind_Some _ _ _ _ _ (wrap_object_plain_world w p rp gp t n Hgp Hty Hm Hin)).
      reflexivity. }
    cbn [py_heap py_err git_heap]. fold a.
    split; [exact Ha|]. split.
    { rewrite lookup_alter_ne by exact Hne. apply lookup_insert_eq. }
    split.
    { intros b Hb1 Hb2. rewrite lookup_alter_ne by auto.
      rewrite lookup_insert_ne by auto. reflexivity. }
    split.
    { unfold refcnt_of. cbn [py_heap]. rewrite lookup_alter_eq.
      rewrite lookup_insert_ne by auto.
      destruct (py_heap w !! rp) as [irp|]; [|reflexivity].
      cbn. f_equal. }
    split.
    { intros q _ [iq Hq] ->. congruence. }
    split; [|auto].
    intros Hself. unfold target_of. cbn [py_heap].
    rewrite lookup_alter_ne by exact Hself.
    assert (Hsa : self <> a).
    { intros E. unfold Object_of in Ho. rewrite E, Ha in Ho. discriminate. }
    rewrite lookup_insert_ne by auto. reflexivity.
  - unfold Tag_get_target.
    rewrite (bind_Some _ _ _ _ _ Hgo), (bind_Some _ _ _ _ _ Hgt). reflexivity.
Qed.

Lemma repository_of_heap w self x :
  repository_of w self = Some x -> is_Some (py_heap w !! self).
Proof.
  unfold repository_of. destruct (py_heap w !! self); [eauto|discriminate].
Qed.

Lemma lookup_finds w r x oid p g :
  get_repo r w = Some (x, w) -> objects x !! oid = Some p ->
  git_heap w !! p = Some g ->
  git_repository_lookup r oid GIT_OBJ_ANY w = Some (Some p, w).
Proof.
  intros Hr Ho Hg. unfold git_repository_lookup.
  rewrite (bind_Some _ _ _ _ _ Hr), Ho.
  unfold git_object_type, get_git, bind. rewrite Hg. reflexivity.
Qed.

Lemma lookup_misses w r x oid :
  get_repo r w = Some (x, w) -> objects x !! oid = None ->
  git_repository_lookup r oid GIT_OBJ_ANY w = Some (None, w).
Proof.
  intros Hr Ho. unfold git_repository_lookup.
  rewrite (bind_Some _ _ _ _ _ Hr), Ho. reflexivity.
Qed.

(** Wrapping a tag whose target is no tag, with two allocations left. *)
Lemma wrap_object_tag w ptag gtag p ty gp tb repo irepo n :
  git_heap w !! ptag = Some gtag -> body gtag = Tag_body (Some p) ty ->
  git_heap w !! p = Some gp -> wrapper_type (body_type (body gp)) = Some tb ->
  py_heap w !! repo = Some irepo ->
  mem w = S (S n) ->
  let a := fresh (dom (py_heap w)) in
  let b := fresh (dom (<[a := mkInst 1 TagType (zeroed TagType)]> (py_heap w))) in
  wrap_object ptag repo w
  = Some (Some a,
          mkWorld (py_err w)
            (<[a := mkInst 1 TagType
                      (Tag_struct (mkObject (Some repo) false (Some ptag)) (Some b))]>
               (<[b := mkInst 2 tb
                         (Object_struct (mkObject (Some repo) false (Some p)))]>
                  (<[repo := incr (incr irepo)]> (py_heap w))))
            (git_heap w) (git_repos w) n).
Proof.
  intros Hg Hb Hgp Hty Hrepo Hm a b.
  assert (Ha : py_heap w !! a = None) by apply fresh_heap.
  assert (Hb' : (<[a := mkInst 1 TagType (zeroed TagType)]> (py_heap w)) !! b = None)
    by apply fresh_heap.
  assert (Hab : a <> b) by (intros E; rewrite <- E, lookup_insert_eq in Hb'; discriminate).
  assert (Hbw : py_heap w !! b = None) by (rewrite lookup_insert_ne in Hb' by exact Hab; exact Hb').
  assert (Har : repo <> a) by (intros ->; congruence).
  assert (Hbr : repo <> b) by (intros ->; congruence).
  destruct (size_lookup_S _ _ _ Hg) as (k & Hk).
  unfold wrap_object. rewrite Hk. cbn [wrap_object_rec].
  unfold bind at 1. unfold git_object_type at 1, get_git, bind at 1. rewrite Hg, Hb.
  cbn [ret body_type].
  (* wrap_tag *)
  unfold wrap_tag.
  rewrite bind_bind, (bind_Some _ _ _ _ _ (tp_alloc_ok TagType w _ Hm)). fold a.
  set (w1 := set_mem (S n) _).
  assert (Hg1 : git_heap w1 !! ptag = Some gtag) by exact Hg.
  rewrite bind_bind, (bind_Some _ _ _ _ _ (git_tag_target_spec w1 ptag gtag _ ty Hg1 Hb)).
  cbn [nonnull]. rewrite bind_bind. unfold bind at 1. cbn [ret].
  assert (Hr1 : is_Some (py_heap w1 !! repo)).
  { unfold w1. cbn [py_heap set_mem set_py_heap]. rewrite lookup_insert_ne by auto. eauto. }
  rewrite bind_bind.
  rewrite (bind_Some _ _ _ _ _
             (wrap_object_rec_plain k w1 p repo gp tb n Hgp Hty eq_refl Hr1)).
  change (fresh (dom (py_heap w1))) with b.
  set (w2 := mkWorld _ _ _ _ _).
  assert (H2a : py_heap w2 !! a = Some (mkInst 1 TagType (zeroed TagType))).
  { unfold w2, w1. cbn [py_heap set_mem set_py_heap].
    rewrite lookup_alter_ne by exact Har. rewrite lookup_insert_ne by auto.
    apply lookup_insert_eq. }
  rewrite bind_bind.
  rewrite (bind_Some _ _ _ _ _ (put_target_fwd a (Some b) w2 _ _ None H2a eq_refl)).
  set (w3 := set_py_heap _ w2).
  assert (H3b : is_Some (py_heap w3 !! b)).
  { unfold w3, w2. cbn [py_heap set_py_heap].
    rewrite lookup_alter_ne by exact Hab. rewrite lookup_alter_ne by exact Hbr.
    rewrite lookup_insert_eq. eauto. }
  rewrite bind_bind.
  rewrite (bind_Some _ _ _ _ _ (Py_INCREF_fwd b w3 H3b)).
  set (w4 := set_py_heap _ w3).
  unfold bind at 1. cbn [ret].
  assert (H4a : py_heap w4 !! a
                = Some (mkInst 1 TagType (Tag_struct (mkObject None false None) (Some b)))).
  { unfold w4, w3. cbn [py_heap set_py_heap].
    rewrite lookup_alter_ne by auto. rewrite lookup_alter_eq, H2a. reflexivity. }
  unfold set_obj.
  rewrite (bind_Some _ _ _ _ _
             (set_field_fwd (fun o => mkObject (Py.repo o) (own_obj o) (Some ptag))
                a w4 _ _ H4a eq_refl)).
  set (w5 := set_py_heap _ w4).
  assert (H5a : py_heap w5 !! a
                = Some (mkInst 1 TagType
                          (Tag_struct (mkObject None false (Some ptag)) (Some b))))
    by (unfold w5; cbn [py_heap set_py_heap]; apply lookup_insert_eq).
  unfold set_repo.
  rewrite (bind_Some _ _ _ _ _
             (set_field_fwd (fun o => mkObject (Some repo) (own_obj o) (obj o))
                a w5 _ _ H5a eq_refl)).
  set (w6 := set_py_heap _ w5).
  assert (H6r : is_Some (py_heap w6 !! repo)).
  { unfold w6, w5, w4, w3, w2. cbn [py_heap set_py_heap].
    rewrite !lookup_insert_ne by auto.
    rewrite lookup_alter_ne by auto. rewrite lookup_alter_ne by auto.
    rewrite lookup_alter_is_Some. rewrite lookup_insert_ne by auto. exact Hr1. }
  rewrite (bind_Some _ _ _ _ _ (Py_INCREF_fwd repo w6 H6r)).
  unfold ret. f_equal. f_equal.
  unfold w6, w5, w4, w3, w2, w1, set_py_heap, set_mem.
  cbn [py_heap py_err git_heap git_repos mem
       ob_refcnt ob_type ob_struct with_Object Py.repo own_obj obj].

  f_equal. apply map_eq. intros c.
  rewrite !lookup_alter_dec, !lookup_insert, !lookup_alter_dec, !lookup_insert.
  repeat case_decide; subst; try congruence; cbn;
    rewrite ?Ha, ?Hbw, ?Hrepo; try reflexivity.
  all: destruct (py_heap w !! c); reflexivity.
Qed.

Lemma wrap_object_tag_nomem w ptag gtag p ty gp tb repo :
  git_heap w !! ptag = Some gtag -> body gtag = Tag_body (Some p) ty ->
  git_heap w !! p = Some gp -> wrapper_type (body_type (body gp)) = Some tb ->
  (mem w <= 1)%nat ->
  wrap_object ptag repo w
  = Some (None,
          mkWorld (Some (mkErr PyExc_MemoryError ExcNone)) (py_heap w) (git_heap w)
            (git_repos w) 0).
Proof.
  intros Hg Hb Hgp Hty Hm.
  destruct (size_lookup_S _ _ _ Hg) as (k & Hk).
  unfold wrap_object. rewrite Hk. cbn [wrap_object_rec].
  unfold bind at 1. unfold git_object_type at 1, get_git, bind at 1. rewrite Hg, Hb.
  cbn [ret body_type]. unfold wrap_tag.
  destruct (mem w) as [|[|m]] eqn:Em; [| |lia].
  - unfold bind at 1. unfold bind at 1. unfold tp_alloc. rewrite Em.
    cbn [ret]. unfold PyErr_NoMemory, PyErr_Set, modify, bind, ret, set_py_err.
    cbn [py_heap git_heap git_repos mem]. rewrite Em. reflexivity.
  - rewrite bind_bind, (bind_Some _ _ _ _ _ (tp_alloc_ok TagType w _ Em)).
    set (a := fresh (dom (py_heap w))).
    assert (Ha : py_heap w !! a = None) by apply fresh_heap.
    set (w1 := set_mem 0 _).
    assert (Hg1 : git_heap w1 !! ptag = Some gtag) by exact Hg.
    rewrite bind_bind, (bind_Some _ _ _ _ _ (git_tag_target_spec w1 ptag gtag _ ty Hg1 Hb)).
    cbn [nonnull]. rewrite bind_bind. unfold bind at 1. cbn [ret].
    rewrite bind_bind.
    rewrite (bind_Some _ _ _ _ _
               (wrap_object_rec_plain_nomem k w1 p repo gp tb Hgp Hty eq_refl)).
    unfold tp_free, PyErr_NoMemory, PyErr_Set, modify, bind, ret.
    unfold w1, set_py_err, set_py_heap, set_mem.
    cbn [py_heap py_err git_heap git_repos mem].
    rewrite (delete_insert_id _ _ _ Ha). reflexivity.
Qed.

(** X11: looking up a tag of the store (whose target is no tag) takes two
    allocations and builds two wrappers, the tag's and, in its [target]
    field, the target's; both are Borrowed and bound to the repository,
    which gets two more references.  The wrapper of the target is left
    with two references although only the tag refers to it.  With fewer
    than two allocations the lookup fails with [MemoryError] and no
    wrapper is left behind. *)
Theorem Repository_getitem_tag w self x value t oid ptag gtag p ty gp tb :
  repository_of w self = Some x ->
  c_string value = Some t -> git_oid_mkstr t = inr oid ->
  objects x !! oid = Some ptag ->
  git_heap w !! ptag = Some gtag -> body gtag = Tag_body (Some p) ty ->
  git_heap w !! p = Some gp -> wrapper_type (body_type (body gp)) = Some tb ->
  (forall n, mem w = S (S n) ->
     exists a b w',
       Repository_getitem self value w = Some (Some (PyInstance a), w')
       /\ py_heap w !! a = None /\ py_heap w !! b = None /\ a <> b
       /\ py_heap w' !! a
          = Some (mkInst 1 TagType
                    (Tag_struct (mkObject (Some self) false (Some ptag)) (Some b)))
       /\ py_heap w' !! b
          = Some (mkInst 2 tb (Object_struct (mkObject (Some self) false (Some p))))
       /\ refcnt_of w' self = (fun c => c + 2) <$> refcnt_of w self
       /\ (forall c, c <> a -> c <> b -> c <> self -> py_heap w' !! c = py_heap w !! c)
       /\ py_err w' = py_err w /\ git_heap w' = git_heap w /\ mem w' = n)
  /\ ((mem w <= 1)%nat ->
      Repository_getitem self value w
      = Some (None,
              mkWorld (Some (mkErr PyExc_MemoryError ExcNone)) (py_heap w)
                (git_heap w) (git_repos w) 0)).
Proof.
  intros Hx Hc Hp Ho Hg Hb Hgp Hty.
  destruct (repository_of_inv _ _ _ Hx) as (r & Hr & Hgr).
  destruct (repository_of_heap _ _ _ Hx) as (iself & Hself).
  assert (Hlook : Repository_getitem self value w
                  = (let* py_obj := wrap_object ptag self in
                     match py_obj with
                     | None => ret None
                     | Some py_obj =>
                         set_own_obj py_obj false ;; ret (Some (PyInstance py_obj))
                     end) w).
  { unfold Repository_getitem.
    rewrite (bind_Some _ _ _ _ _ (py_str_to_git_oid_c_string _ _ w Hc)), Hp.
    rewrite (bind_Some _ _ _ _ _ Hr).
    rewrite (bind_Some _ _ _ _ _ (lookup_finds w r x oid ptag gtag Hgr Ho Hg)).
    reflexivity. }
  split.
  - intros n Hm.
    pose proof (wrap_object_tag w ptag gtag p ty gp tb self iself n Hg Hb Hgp Hty Hself Hm)
      as Hw. cbv zeta in Hw.
    set (a := fresh (dom (py_heap w))) in *.
    set (b := fresh (dom (<[a := mkInst 1 TagType (zeroed TagType)]> (py_heap w)))) in *.
    assert (Ha : py_heap w !! a = None) by apply fresh_heap.
    assert (Hb' : (<[a := mkInst 1 TagType (zeroed TagType)]> (py_heap w)) !! b = None)
      by apply fresh_heap.
    assert (Hab : a <> b) by (intros E; rewrite <- E, lookup_insert_eq in Hb'; discriminate).
    assert (Hbw : py_heap w !! b = None)
      by (rewrite lookup_insert_ne in Hb' by exact Hab; exact Hb').
    assert (Har : self <> a) by (intros E; rewrite E in Hself; congruence).
    assert (Hbr : self <> b) by (intros E; rewrite E in Hself; congruence).
    match type of Hw with _ = Some (_, ?W) => set (w2 := W) in * end.
    assert (H2a : py_heap w2 !! a
                  = Some (mkInst 1 TagType
                            (Tag_struct (mkObject (Some self) false (Some ptag)) (Some b))))
      by (unfold w2; cbn [py_heap]; apply lookup_insert_eq).
    exists a, b. eexists. split.
    { rewrite Hlook, (bind_Some _ _ _ _ _ Hw).
      unfold set_own_obj.
      rewrite (bind_Some _ _ _ _ _
                 (set_field_fwd (fun o => mkObject (repo o) false (obj o)) a w2 _ _
                    H2a eq_refl)).
      reflexivity. }
    unfold w2.
    cbn [py_heap py_err git_heap mem set_py_heap ob_refcnt ob_type ob_struct
         with_Object repo own_obj obj].
    split; [exact Ha|]. split; [exact Hbw|]. split; [exact Hab|].
    split; [apply lookup_insert_eq|].
    split.
    { rewrite !lookup_insert_ne by auto. apply lookup_insert_eq. }
    split.
    { unfold refcnt_of. cbn [py_heap set_py_heap].
      rewrite !lookup_insert_ne by auto. rewrite lookup_insert_eq, Hself.
      cbn. f_equal. lia. }
    split; [|auto].
    intros c Hc1 Hc2 Hc3. rewrite !lookup_insert_ne by auto. reflexivity.
  - intros Hm. rewrite Hlook.
    rewrite (bind_Some _ _ _ _ _
               (wrap_object_tag_nomem w ptag gtag p ty gp tb self Hg Hb Hgp Hty Hm)).
    reflexivity.
Qed.

(** ** Trees *)

Lemma find_name_Exists name es :
  is_Some (find_name name es) <-> Exists (fun e => filename e = name) es.
Proof.
  split.
  - intros [i Hi]. destruct (find_name_Some _ _ _ Hi) as (e & He & Hn).
    apply Exists_exists. exists e. split; [|exact Hn].
    eapply list_elem_of_lookup_2. exact He.
  - intros Hex. destruct (find_name name es) as [i|] eqn:Hf; [eauto|].
    exfalso. apply find_name_None in Hf.
    apply Exists_exists in Hex. destruct Hex as (e & He & Hn).
    rewrite Forall_forall in Hf. exact (Hf e He Hn).
Qed.

Lemma Tree_contains_c_string w self es v name :
  entries_of w self = Some es -> c_string v = Some name ->
  Tree_contains self v w
  = Some (match find_name name es with Some _ => 1 | None => 0 end, w).
Proof.
  intros Hes Hc.
  destruct (get_obj_entries _ _ _ Hes) as (p & Hp & Hpe).
  unfold Tree_contains, PyString_AsString. rewrite Hc.
  unfold bind at 1. cbn [ret].
  rewrite (bind_Some _ _ _ _ _ Hp).
  unfold git_tree_entry_byname.
  rewrite bind_bind, (bind_Some _ _ _ _ _ Hpe). reflexivity.
Qed.

(** X12: [name in tree], for a value whose C string is [name], is 1
    exactly when an entry has the name and 0 otherwise, and changes
    nothing.  For a [str] it agrees with indexing, which reads the same C
    string: it is 1 exactly when [tree[name]] returns an entry and 0
    exactly when [tree[name]] raises [KeyError].  A [unicode] name is
    looked for all the same, although [tree[name]] rejects it with
    [TypeError]. *)
Theorem Tree_contains_iff_named_entry w self es v name :
  entries_of w self = Some es ->
  c_string v = Some name ->
  exists r,
    Tree_contains self v w = Some (r, w)
    /\ (r = 1 <-> Exists (fun e => filename e = name) es)
    /\ (r = 0 <-> Forall (fun e => filename e <> name) es)
    /\ (PyString_Check v = true -> (0 < mem w)%nat ->
        (r = 1 <-> exists s, getitem_outcome (Tree_getitem self v w) = Entry s)
        /\ (r = 0 <->
            Tree_getitem self v w = Some (None, set_py_err (Some (KeyError v)) w)))
    /\ (PyString_Check v = false ->
        Tree_getitem self v w = Some (None, set_py_err (Some TypeError_key) w)).
Proof.
  intros Hes Hc.
  eexists. split; [apply (Tree_contains_c_string w self es v name Hes Hc)|].
  pose proof (find_name_Exists name es) as Hex.
  pose proof (find_name_None name es) as Hno.
  destruct (find_name name es) as [i|] eqn:Hf.
  - split; [split; [intros _; apply Hex; eauto|reflexivity]|].
    split.
    { split; [discriminate|]. intros HF. apply Hno in HF. discriminate. }
    split.
    + intros Hs Hm. destruct v as [s| | | | | | |]; try discriminate.
      unfold c_string in Hc. cbn [text_of] in Hc. injection Hc as <-.
      cbn [Tree_getitem PyString_Check].
      rewrite (Tree_getitem_by_name_found w self es s i Hes Hm Hf).
      split; [split; eauto|]. split; [discriminate|].
      pose proof (Tree_getitem_by_name_found w self es s i Hes Hm Hf) as Hg.
      intros E. rewrite E in Hg. unfold getitem_outcome in Hg. cbn in Hg. discriminate.
    + intros Hs. destruct v as [|[enc|]| | | | | |]; try discriminate. reflexivity.
  - split.
    { split; [discriminate|]. intros HE. apply Hex in HE. destruct HE. discriminate. }
    split; [split; [intros _; apply Hno; reflexivity|reflexivity]|].
    split.
    + intros Hs Hm. destruct v as [s| | | | | | |]; try discriminate.
      unfold c_string in Hc. cbn [text_of] in Hc. injection Hc as <-.
      cbn [Tree_getitem PyString_Check].
      rewrite (Tree_getitem_by_name_absent w self es s Hes Hf).
      split; [split; [discriminate|]|split; reflexivity].
      intros [s' Hs']. unfold getitem_outcome in Hs'. cbn in Hs'. discriminate.
    + intros Hs. destruct v as [|[enc|]| | | | | |]; try discriminate. reflexivity.
Qed.

Lemma Tree_getitem_by_name_returns w self es name i :
  entries_of w self = Some es -> (0 < mem w)%nat ->
  find_name (c_str name) es = Some i ->
  exists a w' e,
    Tree_getitem_by_name self (PyString name) w = Some (Some a, w')
    /\ py_heap w !! a = None
    /\ py_heap w' !! a
       = Some (mkInst 1 TreeEntryType (TreeEntry_struct (Some i) (Some self)))
    /\ es !! i = Some e /\ filename e = c_str name
    /\ py_err w' = py_err w /\ entries_of w' self = Some es.
Proof.
  intros Hes Hm Hf.
  destruct (get_obj_entries _ _ _ Hes) as (p & Hp & Hpe).
  destruct (entries_of_inv _ _ _ Hes) as (it & o & p' & g & Hit & Ho & Hop & Hg & Hb).
  destruct (find_name_Some _ _ _ Hf) as (e & He & Hn).
  destruct (wrap_tree_entry_spec w i self it Hm Hit)
    as (a & w' & Hw & Hfresh & Ha & Hself & _ & Herr & Hgh & _).
  exists a, w', e. split.
  - unfold Tree_getitem_by_name. cbn [PyString_AS_STRING].
    unfold bind at 1. cbn [ret].
    rewrite (bind_Some _ _ _ _ _ Hp).
    unfold git_tree_entry_byname.
    rewrite (bind_Some _ _ _ _ _ (bind_Some _ _ _ _ _ Hpe)).
    cbn [ret]. rewrite Hf. exact Hw.
  - repeat (split; [assumption|]).
    unfold entries_of, git_of, Object_of. rewrite Hself. cbn [ob_struct].
    rewrite Ho, Hop, Hgh, Hg, Hb. reflexivity.
Qed.

(** ** Tree entries *)

Lemma get_entry_spec w a rc ty slot tree es :
  py_heap w !! a = Some (mkInst rc ty (TreeEntry_struct (Some slot) (Some tree))) ->
  entries_of w tree = Some es ->
  exists p,
    get_entry a w = Some ((p, slot), w)
    /\ get_obj tree w = Some (p, w)
    /\ get_entries p w = Some (es, w).
Proof.
  intros Ha Hes. destruct (get_obj_entries _ _ _ Hes) as (p & Hp & Hpe).
  exists p. split; [|auto].
  unfold get_entry, get_inst, bind at 1. rewrite Ha. cbn [ob_struct nonnull].
  unfold bind at 1. cbn [ret]. unfold bind at 1. cbn [ret].
  rewrite (bind_Some _ _ _ _ _ Hp). reflexivity.
Qed.

Lemma read_entry_spec w p slot es e :
  get_entries p w = Some (es, w) -> es !! slot = Some e ->
  read_entry (p, slot) w = Some (e, w).
Proof.
  intros Hpe He. unfold read_entry. cbn [fst snd].
  rewrite (bind_Some _ _ _ _ _ Hpe), He. reflexivity.
Qed.

Lemma TreeEntry_getters w a rc ty slot tree es e :
  py_heap w !! a = Some (mkInst rc ty (TreeEntry_struct (Some slot) (Some tree))) ->
  entries_of w tree = Some es -> es !! slot = Some e ->
  TreeEntry_get_name a w = Some (Some (PyString (c_str (filename e))), w)
  /\ TreeEntry_get_attributes a w = Some (Some (PyInt (attributes e)), w)
  /\ TreeEntry_get_sha a w
     = Some (Some (PyString_FromStringAndSize (git_oid_fmt (entry_id e)) GIT_OID_HEXSZ), w).
Proof.
  intros Ha Hes He.
  destruct (get_entry_spec w a rc ty slot tree es Ha Hes) as (p & Hge & _ & Hpe).
  pose proof (read_entry_spec w p slot es e Hpe He) as Hre.
  unfold TreeEntry_get_name, TreeEntry_get_attributes, TreeEntry_get_sha.
  rewrite !(bind_Some _ _ _ _ _ Hge).
  unfold git_tree_entry_name, git_tree_entry_attributes, git_tree_entry_id.
  rewrite !bind_bind, !(bind_Some _ _ _ _ _ Hre). auto.
Qed.

Lemma write_entry_spec w a rc ty slot tree es e x :
  py_heap w !! a = Some (mkInst rc ty (TreeEntry_struct (Some slot) (Some tree))) ->
  entries_of w tree = Some es -> es !! slot = Some e ->
  exists p w',
    get_entry a w = Some ((p, slot), w)
    /\ read_entry (p, slot) w = Some (e, w)
    /\ write_entry (p, slot) x w = Some (tt, w')
    /\ entries_of w' tree = Some (<[slot := x]> es)
    /\ py_err w' = py_err w /\ py_heap w' = py_heap w
    /\ git_repos w' = git_repos w /\ mem w' = mem w.
Proof.
  intros Ha Hes He.
  destruct (get_entry_spec w a rc ty slot tree es Ha Hes) as (p & Hge & Hgo & Hpe).
  destruct (put_entries_spec w tree es (<[slot := x]> es) Hes)
    as (p' & w' & Hp' & _ & Hput & He' & Herr & Hheap & Hrep & Hmem & _).
  assert (p' = p) by congruence. subst p'.
  exists p, w'. split; [exact Hge|]. split; [exact (read_entry_spec w p slot es e Hpe He)|].
  split; [|auto 10].
  unfold write_entry. cbn [fst snd].
  rewrite (bind_Some _ _ _ _ _ Hpe), He. cbn [nonnull].
  unfold bind at 1. cbn [ret]. exact Hput.
Qed.

Lemma Tree_add_entry_ok w self es sha t oid vname name vattr attr n :
  entries_of w self = Some es ->
  c_string sha = Some t -> git_oid_mkstr t = inr oid ->
  text_of vname = Some name -> c_str name = name ->
  PyFloat_Check vattr = false -> integer_of vattr = Some attr ->
  INT_MIN <= attr <= INT_MAX -> (attr = -1 -> py_err w = None) ->
  mem w = S n ->
  exists w',
    Tree_add_entry self [sha; vname; vattr] w = Some (Some PyNone, w')
    /\ entries_of w' self = Some (es ++ [mkEntry name attr oid])
    /\ py_err w' = py_err w /\ py_heap w' = py_heap w
    /\ git_repos w' = git_repos w /\ mem w' = n.
Proof.
  intros Hes Hc Hp Hn Hnul Hf Ha Hr He Hm.
  destruct (entries_of_inv _ _ _ Hes) as (i & o & p & g & Hi & Ho & Hop & Hg & Hb).
  destruct (get_obj_entries _ _ _ Hes) as (p0 & Hp0 & Hpe0).
  assert (p0 = p).
  { unfold get_obj, get_Object, get_inst, bind, nonnull, ret in Hp0.
    rewrite Hi, Ho, Hop in Hp0. congruence. }
  subst p0.
  eexists. split.
  - unfold Tree_add_entry.
    rewrite (bind_Some _ _ _ _ _
               (PyArg_ParseTuple_Osi_parsed sha vname name vattr attr w Hn Hnul Hf Ha Hr He)).
    rewrite (bind_Some _ _ _ _ _ (py_str_to_git_oid_c_string _ _ w Hc)), Hp.
    rewrite (bind_Some _ _ _ _ _ Hp0).
    unfold git_tree_add_entry.
    rewrite bind_bind, (bind_Some _ _ _ _ _ Hpe0).
    rewrite bind_bind. unfold get_world, bind at 1. rewrite Hm.
    rewrite bind_bind. unfold modify, bind at 1.
    unfold put_entries, put_git, get_git, modify, bind, ret.
    cbn [git_heap set_mem]. rewrite Hg. reflexivity.
  - cbn [py_err py_heap git_repos mem set_git_heap set_mem git_heap].
    split; [|auto].
    unfold entries_of, git_of, Object_of. cbn [py_heap git_heap set_git_heap set_mem].
    rewrite Hi, Ho, Hop, lookup_insert_eq. reflexivity.
Qed.

Lemma find_name_app_new name es e :
  Forall (fun x => filename x <> name) es -> filename e = name ->
  find_name name (es ++ [e]) = Some (List.length es).
Proof.
  intros HF He. induction HF as [|x l Hx HF IH]; cbn.
  - rewrite He, String.eqb_refl. reflexivity.
  - destruct (String.eqb_spec (filename x) name); [contradiction|].
    rewrite IH. reflexivity.
Qed.

(** X13: [tree.add_entry(sha, name, attributes)] with a well-formed
    identifier, a name that holds no NUL and that no entry has yet,
    attributes that fit a C [int] (and, for the attributes -1, no error
    pending) and one allocation left returns [None] and adds one entry:
    the length goes up by one, every entry that was there is still there,
    [name in tree] is 1, and [tree[name]] returns an entry object whose
    [name] is the name, whose [attributes] are the attributes and whose
    [sha] is the identifier in lowercase. *)
Theorem Tree_add_entry_then_get w self es sha t name attr n :
  entries_of w self = Some es ->
  c_string sha = Some t -> is_hex40 t = true ->
  c_str name = name ->
  INT_MIN <= attr <= INT_MAX ->
  (attr = -1 -> py_err w = None) ->
  Forall (fun e => filename e <> name) es ->
  Z.of_nat (List.length es) < INT_MAX ->
  mem w = S (S n) ->
  exists w1 es1,
    Tree_add_entry self [sha; PyString name; PyInt attr] w = Some (Some PyNone, w1)
    /\ py_err w1 = py_err w
    /\ entries_of w1 self = Some es1
    /\ List.length es1 = S (List.length es)
    /\ (forall e, e ∈ es -> e ∈ es1)
    /\ Tree_len self w1 = Some (Z.of_nat (List.length es) + 1, w1)
    /\ Tree_contains self (PyString name) w1 = Some (1, w1)
    /\ exists a w2,
         Tree_getitem self (PyString name) w1 = Some (Some a, w2)
         /\ TreeEntry_get_name a w2 = Some (Some (PyString name), w2)
         /\ TreeEntry_get_attributes a w2 = Some (Some (PyInt attr), w2)
         /\ TreeEntry_get_sha a w2 = Some (Some (PyString (lowercase t)), w2).
Proof.
  intros Hes Hc Hh Hnul Hr Hpend HF Hlen Hm.
  destruct (git_oid_mkstr_ok t Hh) as (oid & Hp & Hwf & Hfmt).
  destruct (Tree_add_entry_ok w self es sha t oid (PyString name) name (PyInt attr) attr
              (S n) Hes Hc Hp eq_refl Hnul eq_refl eq_refl Hr Hpend Hm)
    as (w1 & Hadd & Hes1 & Herr & Hheap & Hrep & Hmem).
  set (e := mkEntry name attr oid) in *.
  pose proof (find_name_app_new name es e HF eq_refl) as Hf.
  assert (Hcs : c_string (PyString name) = Some name)
    by (unfold c_string; cbn [text_of]; now rewrite Hnul).
  exists w1, (es ++ [e]). split; [exact Hadd|]. split; [exact Herr|].
  split; [exact Hes1|].
  split; [rewrite length_app; cbn; lia|].
  split; [intros x Hx; apply elem_of_app; left; exact Hx|].
  split.
  { rewrite (Tree_len_spec w1 self _ Hes1).
    - rewrite length_app. cbn [List.length]. f_equal. f_equal. lia.
    - rewrite length_app. cbn [List.length]. lia. }
  split.
  { rewrite (Tree_contains_c_string w1 self _ (PyString name) name Hes1 Hcs), Hf.
    reflexivity. }
  assert (Hf' : find_name (c_str name) (es ++ [e]) = Some (List.length es))
    by (rewrite Hnul; exact Hf).
  destruct (Tree_getitem_by_name_returns w1 self _ name _ Hes1 ltac:(lia) Hf')
    as (a & w2 & e' & Hget & _ & Ha & He' & _ & _ & Hes2).
  assert (e' = e).
  { rewrite lookup_app_r in He' by lia. rewrite Nat.sub_diag in He'.
    cbn in He'. congruence. }
  subst e'.
  exists a, w2. split; [exact Hget|].
  destruct (TreeEntry_getters w2 a _ _ _ self _ e Ha Hes2 He') as (H1 & H2 & H3).
  split; [rewrite H1; cbn [filename e]; now rewrite Hnul|]. split; [exact H2|].
  rewrite H3. cbn [entry_id e]. rewrite (proj1 (format_wf oid Hwf)), Hfmt. reflexivity.
Qed.

(** X14: the failures of [tree.add_entry] other than a malformed
    identifier, each of which returns [NULL] and changes nothing but the
    error indicator.  A call without exactly three arguments raises
    [TypeError].  A name that is no text, or a text with a NUL inside, is
    refused with [TypeError], and a [unicode] without a default encoding
    with [UnicodeEncodeError].  With a name that is accepted, attributes
    that are a [float] raise [TypeError], attributes in which
    [PyInt_AsLong] finds no integer raise its exception, and an integer
    outside a C [int] raises [OverflowError].  Where the parser would
    raise its own [TypeError] it leaves an exception that is pending
    already in place.  A tree that cannot grow raises [MemoryError]. *)
Theorem Tree_add_entry_failures w self :
  (forall args, (forall a b c, args <> [a; b; c]) ->
     Tree_add_entry self args w
     = Some (None, set_py_err (Some (mkErr PyExc_TypeError ExcInternal)) w))
  /\ (forall sha vname vattr,
        (forall s, text_of vname = Some s -> c_str s <> s) ->
        Tree_add_entry self [sha; vname; vattr] w
        = Some (None,
                set_py_err
                  (Some (match vname with
                         | PyUnicode None => mkErr PyExc_UnicodeEncodeError ExcInternal
                         | _ => conversion_error w
                         end)) w))
  /\ (forall sha vname name vattr,
        text_of vname = Some name -> c_str name = name ->
        (PyFloat_Check vattr = true ->
         Tree_add_entry self [sha; vname; vattr] w
         = Some (None, set_py_err (Some (mkErr PyExc_TypeError ExcInternal)) w))
        /\ (PyFloat_Check vattr = false -> integer_of vattr = None ->
            Tree_add_entry self [sha; vname; vattr] w
            = Some (None, set_py_err (Some (no_integer_error vattr)) w))
        /\ (forall attr,
              PyFloat_Check vattr = false -> integer_of vattr = Some attr ->
              attr < INT_MIN \/ INT_MAX < attr ->
              Tree_add_entry self [sha; vname; vattr] w
              = Some (None,
                      set_py_err (Some (mkErr PyExc_OverflowError ExcInternal)) w)))
  /\ (forall es sha t oid vname name vattr attr,
        entries_of w self = Some es ->
        c_string sha = Some t -> git_oid_mkstr t = inr oid ->
        text_of vname = Some name -> c_str name = name ->
        PyFloat_Check vattr = false -> integer_of vattr = Some attr ->
        INT_MIN <= attr <= INT_MAX -> (attr = -1 -> py_err w = None) ->
        mem w = 0%nat ->
        Tree_add_entry self [sha; vname; vattr] w
        = Some (None, set_py_err (Some (mkErr PyExc_MemoryError ExcNone)) w)).
Proof.
  split; [|split; [|split]].
  - intros args Hargs. unfold Tree_add_entry, PyArg_ParseTuple_Osi.
    destruct args as [|a [|b [|c [|d args]]]]; try reflexivity.
    exfalso. exact (Hargs a b c eq_refl).
  - intros sha vname vattr H. unfold Tree_add_entry, PyArg_ParseTuple_Osi.
    rewrite bind_bind, (bind_Some _ _ _ _ _ (convert_s_refused vname w H)).
    reflexivity.
  - intros sha vname name vattr Hn Hnul.
    assert (Hstart : Tree_add_entry self [sha; vname; vattr] w
              = (let* i := convert_i vattr in
                 match i with
                 | None => ret None
                 | Some i =>
                     let* err := py_str_to_git_oid sha in
                     match err with
                     | inl err => Error_set_py_str err sha
                     | inr oid =>
                         let* tree := get_obj self in
                         let* r := git_tree_add_entry tree oid name i in
                         match r with
                         | inl _ => PyErr_NoMemory
                         | inr _ => ret (Some PyNone)
                         end
                     end
                 end) w).
    { unfold Tree_add_entry, PyArg_ParseTuple_Osi.
      rewrite bind_bind, (bind_Some _ _ _ _ _ (convert_s_text vname name w Hn Hnul)).
      rewrite bind_bind. unfold bind. destruct (convert_i vattr w) as [[[i|] w1]|];
        reflexivity. }
    rewrite Hstart. clear Hstart.
    split; [|split].
    + intros Hf. rewrite (bind_Some _ _ _ _ _ (convert_i_float vattr w Hf)).
      reflexivity.
    + intros Hf Hi.
      rewrite (bind_Some _ _ _ _ _ (convert_i_no_integer vattr w Hf Hi)).
      reflexivity.
    + intros attr Hf Hi Hr.
      rewrite (bind_Some _ _ _ _ _ (convert_i_overflow vattr attr w Hf Hi Hr)).
      reflexivity.
  - intros es sha t oid vname name vattr attr Hes Hc Hp Hn Hnul Hf Ha Hr He Hm.
    destruct (get_obj_entries _ _ _ Hes) as (p & Hp0 & Hpe0).
    unfold Tree_add_entry.
    rewrite (bind_Some _ _ _ _ _
               (PyArg_ParseTuple_Osi_parsed sha vname name vattr attr w Hn Hnul Hf Ha Hr He)).
    rewrite (bind_Some _ _ _ _ _ (py_str_to_git_oid_c_string _ _ w Hc)), Hp.
    rewrite (bind_Some _ _ _ _ _ Hp0).
    unfold git_tree_add_entry.
    rewrite bind_bind, (bind_Some _ _ _ _ _ Hpe0).
    rewrite bind_bind. unfold get_world, bind at 1. rewrite Hm. reflexivity.
Qed.

(** X15: a tree fresh from its constructor is empty: its length is 0, no
    name is in it, and indexing or deleting by any name raises [KeyError]
    and by any integer, negative ones included, [IndexError]. *)
Theorem new_tree_is_empty w args kwds a w' :
  type_call TreeType Tree_init args kwds w = Some (Some a, w') ->
  entries_of w' a = Some []
  /\ Tree_len a w' = Some (0, w')
  /\ (forall name,
        Tree_contains a (PyString name) w' = Some (0, w')
        /\ Tree_getitem a (PyString name) w'
           = Some (None, set_py_err (Some (KeyError (PyString name))) w')
        /\ Tree_delitem a (PyString name) None w'
           = Some (-1, set_py_err (Some (KeyError (PyString name))) w'))
  /\ (py_err w = None ->
      forall i,
        Tree_getitem a (PyInt i) w'
        = Some (None, set_py_err (Some (IndexError (PyInt i))) w')
        /\ Tree_delitem a (PyInt i) None w'
           = Some (-1, set_py_err (Some (IndexError (PyInt i))) w')).
Proof.
  intros Hcall.
  destruct (type_call_Object_inv TreeType GIT_OBJ_TREE args kwds w a w' Hcall)
    as (b & repo & p & owner & Hs & Hb & Hg & Herr).
  injection Hb as <-.
  assert (Hes : entries_of w' a = Some []).
  { destruct (struct_of_inv _ _ _ Hs) as (i & Hi & Hst).
    unfold entries_of, git_of, Object_of. rewrite Hi, Hst. cbn. rewrite Hg. reflexivity. }
  assert (H0 : Z.of_nat (List.length (@nil git_tree_entry)) <= INT_MAX) by (cbn; discriminate).
  split; [exact Hes|]. split; [exact (Tree_len_spec w' a [] Hes H0)|].
  split.
  - intros name. split; [|split].
    + rewrite (Tree_contains_c_string w' a [] (PyString name) (c_str name) Hes eq_refl).
      reflexivity.
    + apply (Tree_getitem_by_name_absent w' a [] name Hes eq_refl).
    + apply (Tree_delitem_by_name_absent w' a [] name Hes eq_refl).
  - intros He i. rewrite <- Herr in He. split.
    + apply (Tree_getitem_by_index_out w' a [] i He Hes H0). cbn. lia.
    + apply (Tree_delitem_by_index_out w' a [] i He Hes H0). cbn. lia.
Qed.

Lemma entries_of_same_heaps w w' tree :
  py_heap w' = py_heap w -> git_heap w' = git_heap w ->
  entries_of w' tree = entries_of w tree.
Proof. intros H1 H2. unfold entries_of, git_of, Object_of. rewrite H1, H2. reflexivity. Qed.

Lemma to_unsigned_id z : 0 <= z < 2 ^ INT_BITS -> to_unsigned INT_BITS z = z.
Proof. intros H. unfold to_unsigned. apply Z.mod_small. exact H. Qed.

(** X16: the accessors of an entry object work on the slot of the tree
    it points at.  The getters give the name (as the C string it is), the
    attributes and the identifier of that entry.  A setter replaces that
    one field of that one entry and nothing else of the tree, and the
    getter then gives the value back: the name as the C string of the
    value given (the characters of a [str], or of the encoding of a
    [unicode], before the first NUL), the identifier parsed from 40
    hexadecimal characters in lowercase, and attributes between 0 and
    2^32 - 1 unchanged, whether they are given as an [int], as a [long]
    or as a value that [nb_int] converts to that integer. *)
Theorem TreeEntry_accessors_roundtrip w a rc ty slot tree es e :
  py_heap w !! a = Some (mkInst rc ty (TreeEntry_struct (Some slot) (Some tree))) ->
  entries_of w tree = Some es -> es !! slot = Some e ->
  (TreeEntry_get_name a w = Some (Some (PyString (c_str (filename e))), w)
   /\ TreeEntry_get_attributes a w = Some (Some (PyInt (attributes e)), w)
   /\ (oid_wf (entry_id e) ->
       TreeEntry_get_sha a w = Some (Some (PyString (git_oid_fmt (entry_id e))), w)))
  /\ (forall v s, c_string v = Some s ->
        exists w',
          TreeEntry_set_name a v w = Some (0, w')
          /\ entries_of w' tree
             = Some (<[slot := mkEntry s (attributes e) (entry_id e)]> es)
          /\ TreeEntry_get_name a w' = Some (Some (PyString s), w')
          /\ py_err w' = py_err w /\ py_heap w' = py_heap w)
  /\ (forall v t, c_string v = Some t -> is_hex40 t = true ->
        exists oid w',
          TreeEntry_set_sha a v w = Some (0, w')
          /\ git_oid_mkstr t = inr oid
          /\ entries_of w' tree
             = Some (<[slot := mkEntry (filename e) (attributes e) oid]> es)
          /\ TreeEntry_get_sha a w' = Some (Some (PyString (lowercase t)), w')
          /\ py_err w' = py_err w /\ py_heap w' = py_heap w)
  /\ (forall v n, integer_of v = Some n -> py_err w = None -> 0 <= n < 2 ^ INT_BITS ->
        exists w',
          TreeEntry_set_attributes a v w = Some (0, w')
          /\ entries_of w' tree
             = Some (<[slot := mkEntry (filename e) n (entry_id e)]> es)
          /\ TreeEntry_get_attributes a w' = Some (Some (PyInt n), w')
          /\ py_err w' = py_err w /\ py_heap w' = py_heap w).
Proof.
  intros Ha Hes He.
  assert (Hlt : (slot < List.length es)%nat) by (apply lookup_lt_is_Some; eauto).
  assert (Hnew : forall x, <[slot := x]> es !! slot = Some x)
    by (intros x; apply list_lookup_insert_eq; exact Hlt).
  split; [|split; [|split]].
  - destruct (TreeEntry_getters w a rc ty slot tree es e Ha Hes He) as (H1 & H2 & H3).
    split; [exact H1|]. split; [exact H2|].
    intros Hwf. rewrite H3, (proj1 (format_wf _ Hwf)). reflexivity.
  - intros v s Hc.
    destruct (write_entry_spec w a rc ty slot tree es e
                (mkEntry s (attributes e) (entry_id e)) Ha Hes He)
      as (p & w' & Hge & Hre & Hwr & Hes' & Herr & Hheap & _).
    exists w'. split.
    { unfold TreeEntry_set_name, PyString_AsString. rewrite Hc.
      unfold bind at 1. cbn [ret].
      rewrite (bind_Some _ _ _ _ _ Hge).
      unfold git_tree_entry_set_name.
      rewrite bind_bind, (bind_Some _ _ _ _ _ Hre).
      rewrite (bind_Some _ _ _ _ _ Hwr). reflexivity. }
    split; [exact Hes'|]. split; [|auto].
    rewrite <- Hheap in Ha.
    rewrite (proj1 (TreeEntry_getters w' a rc ty slot tree _ _ Ha Hes' (Hnew _))).
    cbn [filename]. rewrite (c_string_idem v s Hc). reflexivity.
  - intros v t Hc Hh.
    destruct (git_oid_mkstr_ok t Hh) as (oid & Hp & Hwf & Hfmt).
    destruct (write_entry_spec w a rc ty slot tree es e
                (mkEntry (filename e) (attributes e) oid) Ha Hes He)
      as (p & w' & Hge & Hre & Hwr & Hes' & Herr & Hheap & _).
    exists oid, w'. split.
    { unfold TreeEntry_set_sha.
      rewrite (bind_Some _ _ _ _ _ (py_str_to_git_oid_c_string _ _ w Hc)), Hp.
      rewrite (bind_Some _ _ _ _ _ Hge).
      unfold git_tree_entry_set_id.
      rewrite bind_bind, (bind_Some _ _ _ _ _ Hre).
      rewrite (bind_Some _ _ _ _ _ Hwr). reflexivity. }
    split; [exact Hp|]. split; [exact Hes'|]. split; [|auto].
    rewrite <- Hheap in Ha.
    rewrite (proj2 (proj2 (TreeEntry_getters w' a rc ty slot tree _ _ Ha Hes' (Hnew _)))).
    cbn [entry_id]. rewrite (proj1 (format_wf _ Hwf)), Hfmt. reflexivity.
  - intros v n Hv Herr0 Hn.
    destruct (write_entry_spec w a rc ty slot tree es e
                (mkEntry (filename e) n (entry_id e)) Ha Hes He)
      as (p & w' & Hge & Hre & Hwr & Hes' & Herr & Hheap & _).
    assert (Hl : LONG_MIN <= n <= LONG_MAX).
    { unfold INT_BITS, LONG_MIN, LONG_MAX, LONG_BITS in *. cbn in *. lia. }
    exists w'. split.
    { unfold TreeEntry_set_attributes.
      rewrite (bind_Some _ _ _ _ _ (PyInt_AsLong_integer v n w Hv Hl)).
      unfold bind at 1, PyErr_Occurred. rewrite Herr0.
      rewrite (bind_Some _ _ _ _ _ Hge).
      unfold git_tree_entry_set_attributes.
      rewrite bind_bind, (bind_Some _ _ _ _ _ Hre).
      rewrite (to_unsigned_id n Hn).
      rewrite (bind_Some _ _ _ _ _ Hwr). reflexivity. }
    split; [exact Hes'|]. split; [|auto].
    rewrite <- Hheap in Ha.
    exact (proj1 (proj2 (TreeEntry_getters w' a rc ty slot tree _ _ Ha Hes' (Hnew _)))).
Qed.

(** X17: the setters of an entry object check the value before they
    touch the tree.  [attributes] refuses a value in which [PyInt_AsLong]
    finds no integer with the exception of that conversion, a [TypeError]
    unless the slot [nb_int] raised another, and an integer that does not
    fit a C [long] with [OverflowError]; it refuses even an integer while
    an earlier error is pending; [name] refuses a value without text;
    [sha] refuses a malformed identifier with the [ValueError] or
    [TypeError] of the parse.  Each returns -1 and changes nothing but
    the error indicator. *)
Theorem TreeEntry_setters_reject w a :
  (forall v, integer_of v = None ->
     TreeEntry_set_attributes a v w
     = Some (-1, set_py_err (Some (no_integer_error v)) w))
  /\ (forall v n, integer_of v = Some n -> PyInt_Check v = false ->
        n < LONG_MIN \/ LONG_MAX < n ->
        TreeEntry_set_attributes a v w
        = Some (-1, set_py_err (Some (mkErr PyExc_OverflowError ExcInternal)) w))
  /\ (forall n e, py_err w = Some e ->
        TreeEntry_set_attributes a (PyInt n) w = Some (-1, w))
  /\ (forall v, c_string v = None ->
        exists e, TreeEntry_set_name a v w = Some (-1, set_py_err (Some e) w))
  /\ (forall v n, (forall s, c_string v = Some s -> is_hex40 s = false) ->
        ob_type_name v w = Some (n, w) ->
        TreeEntry_set_sha a v w
        = Some (-1, set_py_err (Some (raised_for GIT_ENOTOID v n)) w)).
Proof.
  split; [|split; [|split; [|split]]].
  - intros v Hv. unfold TreeEntry_set_attributes.
    rewrite (bind_Some _ _ _ _ _ (PyInt_AsLong_no_integer v w Hv)). reflexivity.
  - intros v n Hv Hck Hn. unfold TreeEntry_set_attributes.
    rewrite (bind_Some _ _ _ _ _ (PyInt_AsLong_overflow v n w Hv Hck Hn)). reflexivity.
  - intros n e He. unfold TreeEntry_set_attributes. cbn [PyInt_AsLong].
    unfold bind at 1. cbn [ret]. unfold bind at 1, PyErr_Occurred. rewrite He.
    reflexivity.
  - intros v Hc. unfold TreeEntry_set_name, PyString_AsString. rewrite Hc.
    eexists. reflexivity.
  - intros v n Hbad Hn. unfold TreeEntry_set_sha.
    destruct (py_str_to_git_oid_fails v w Hbad) as (e0 & He0).
    rewrite (bind_Some _ _ _ _ _ He0).
    rewrite (bind_Some _ _ _ _ _ (Error_set_py_str_raised (A:=unit) _ _ _ e0 _ Hn)).
    reflexivity.
Qed.

(** X18: [entry.to_object()] looks the identifier of the entry up in the
    repository that owns the tree.  An identifier the repository does not
    have raises [KeyError] carrying the identifier as 40 lowercase
    hexadecimal characters and changes nothing else; otherwise (for an
    object that is no tag, with one allocation left) it returns a new
    wrapper of the object that is Borrowed and bound to the repository of
    the tree, which gets one more reference. *)
Theorem TreeEntry_to_object_resolves w a rc ty slot tree es e gt x o rp :
  py_heap w !! a = Some (mkInst rc ty (TreeEntry_struct (Some slot) (Some tree))) ->
  entries_of w tree = Some es -> es !! slot = Some e -> oid_wf (entry_id e) ->
  git_of w tree = Some gt -> git_repos w !! object_owner gt = Some x ->
  Object_of w tree = Some o -> repo o = Some rp -> is_Some (py_heap w !! rp) ->
  (objects x !! entry_id e = None ->
   TreeEntry_to_object a w
   = Some (None,
           set_py_err (Some (KeyError (PyString (git_oid_fmt (entry_id e))))) w)
   /\ String.length (git_oid_fmt (entry_id e)) = 40%nat
   /\ all_lower_hex (git_oid_fmt (entry_id e)) = true)
  /\ (forall p g t n,
        objects x !! entry_id e = Some p -> git_heap w !! p = Some g ->
        wrapper_type (body_type (body g)) = Some t -> mem w = S n ->
        exists b w',
          TreeEntry_to_object a w = Some (Some (PyInstance b), w')
          /\ py_heap w !! b = None
          /\ py_heap w' !! b
             = Some (mkInst 1 t (Object_struct (mkObject (Some rp) false (Some p))))
          /\ refcnt_of w' rp = Z.succ <$> refcnt_of w rp
          /\ (forall c, c <> b -> c <> rp -> py_heap w' !! c = py_heap w !! c)
          /\ py_err w' = py_err w /\ git_heap w' = git_heap w).
Proof.
  intros Ha Hes He Hwf Hgt Hx Ho Hrp Hin.
  destruct (get_entry_spec w a rc ty slot tree es Ha Hes) as (pt & Hge & Hgo & Hpe).
  pose proof (read_entry_spec w pt slot es e Hpe He) as Hre.
  assert (Hgit : get_git pt w = Some (gt, w)).
  { destruct (Object_of_git_of w tree gt Hgt) as (o' & p' & Ho' & Hp' & Hg').
    pose proof (get_obj_of w tree o' p' Ho' Hp') as Hgo'.
    assert (p' = pt) by congruence. subst p'.
    unfold get_git. rewrite Hg'. reflexivity. }
  assert (Hrepo : get_repo (object_owner gt) w = Some (x, w))
    by (unfold get_repo; rewrite Hx; reflexivity).
  assert (Hstart : TreeEntry_to_object a w
            = (let* obj := git_repository_lookup (object_owner gt) (entry_id e) GIT_OBJ_ANY in
               match obj with
               | None =>
                   let* id := git_tree_entry_id (pt, slot) in
                   PyErr_SetObject PyExc_KeyError
                     (PyString_FromStringAndSize (git_oid_fmt id) GIT_OID_HEXSZ) ;;
                   ret None
               | Some obj =>
                   let* tree := get_tree a in
                   let* o := get_Object tree in
                   let* repo := nonnull (repo o) in
                   let* py_obj := wrap_object obj repo in
                   ret (match py_obj with
                        | Some a => Some (PyInstance a)
                        | None => None
                        end)
               end) w).
  { unfold TreeEntry_to_object. rewrite (bind_Some _ _ _ _ _ Hge).
    unfold git_tree_entry_2object. cbn [fst].
    rewrite bind_bind, (bind_Some _ _ _ _ _ Hre).
    rewrite bind_bind, (bind_Some _ _ _ _ _ Hgit). reflexivity. }
  split.
  - intros Hno. destruct (format_wf _ Hwf) as (Hf1 & Hf2 & Hf3).
    split; [|auto].
    rewrite Hstart, (bind_Some _ _ _ _ _ (lookup_misses w _ x _ Hrepo Hno)).
    unfold git_tree_entry_id. rewrite bind_bind, (bind_Some _ _ _ _ _ Hre).
    unfold bind at 1. cbn [ret]. rewrite Hf1. reflexivity.
  - intros p g t n Hp Hg Hty Hm.
    set (b := fresh (dom (py_heap w))).
    assert (Hb : py_heap w !! b = None) by apply fresh_heap.
    assert (Hne : rp <> b)
      by (intros E; rewrite E in Hin; rewrite Hb in Hin; destruct Hin; discriminate).
    exists b. eexists. split.
    { rewrite Hstart, (bind_Some _ _ _ _ _ (lookup_finds w _ x _ p g Hrepo Hp Hg)).
      assert (Htree : get_tree a w = Some (tree, w))
        by (unfold get_tree, get_inst, bind; rewrite Ha; reflexivity).
      rewrite (bind_Some _ _ _ _ _ Htree).
      rewrite (bind_Some _ _ _ _ _ (get_Object_of w tree o Ho)).
      rewrite Hrp. cbn [nonnull]. unfold bind at 1. cbn [ret].
      rewrite (bind_Some _ _ _ _ _ (wrap_object_plain_world w p rp g t n Hg Hty Hm Hin)).
      reflexivity. }
    cbn [py_heap py_err git_heap]. fold b.
    split; [exact Hb|]. split.
    { rewrite lookup_alter_ne by exact Hne. apply lookup_insert_eq. }
    split.
    { unfold refcnt_of. cbn [py_heap]. rewrite lookup_alter_eq.
      rewrite lookup_insert_ne by auto.
      destruct (py_heap w !! rp) as [irp|]; [|reflexivity].
      cbn. f_equal. }
    split; [|auto].
    intros c Hc1 Hc2. rewrite lookup_alter_ne by auto.
    rewrite lookup_insert_ne by auto. reflexivity.
Qed.

(** ** Writing *)

Lemma from_hex_to_hex_inv v : (v < 16)%N -> from_hex (to_hex v) = Some v.
Proof.
  intros H.
  assert (E : (v = 0 \/ v = 1 \/ v = 2 \/ v = 3 \/ v = 4 \/ v = 5 \/ v = 6 \/ v = 7
               \/ v = 8 \/ v = 9 \/ v = 10 \/ v = 11 \/ v = 12 \/ v = 13 \/ v = 14
               \/ v = 15)%N) by lia.
  repeat (destruct E as [->|E]; [reflexivity|]). subst. reflexivity.
Qed.

Lemma hex_pairs_fmt oid :
  Forall (fun b => (b < 256)%N) oid -> hex_pairs (git_oid_fmt oid) = Some oid.
Proof.
  induction 1 as [|b l Hb Hl IH]; [reflexivity|].
  cbn [git_oid_fmt hex_pairs].
  rewrite (from_hex_to_hex_inv (b / 16)%N)
    by (apply N.Div0.div_lt_upper_bound; lia).
  rewrite (from_hex_to_hex_inv (b mod 16)%N) by (apply N.mod_lt; lia).
  rewrite IH. f_equal. f_equal.
  rewrite (N.div_mod b 16) at 3 by lia. reflexivity.
Qed.

(** Formatting an identifier and parsing the text gives the identifier
    back. *)
Lemma git_oid_mkstr_fmt oid : oid_wf oid -> git_oid_mkstr (git_oid_fmt oid) = inr oid.
Proof.
  intros Hwf. destruct (format_wf oid Hwf) as (_ & Hlen & _).
  unfold git_oid_mkstr. rewrite Hlen. cbn [Nat.eqb GIT_OID_HEXSZ].
  rewrite (hex_pairs_fmt oid (proj2 Hwf)). reflexivity.
Qed.

(** The text of an identifier is its own C string. *)
Lemma c_string_fmt oid :
  oid_wf oid -> c_string (PyString (git_oid_fmt oid)) = Some (git_oid_fmt oid).
Proof.
  intros Hwf. apply c_string_hex40.
  destruct (is_hex40 (git_oid_fmt oid)) eqn:E; [reflexivity|].
  pose proof (git_oid_mkstr_fmt oid Hwf) as H.
  rewrite (git_oid_mkstr_fail _ E) in H. discriminate.
Qed.

Lemma git_object_write_ok w p g oid raw x :
  git_heap w !! p = Some g -> store_write g = inr (oid, raw) ->
  git_repos w !! object_owner g = Some x ->
  git_object_write p w
  = Some (inr tt,
          mkWorld (py_err w) (py_heap w)
            (<[p := mkGitObject (Some oid) (object_owner g) (body g)]> (git_heap w))
            (<[object_owner g :=
                 mkRepo (<[oid := p]> (objects x)) (<[oid := inr raw]> (odb x))]>
               (git_repos w))
            (mem w)).
Proof.
  intros Hg Hs Hx. unfold git_object_write, get_git, bind at 1. rewrite Hg, Hs.
  unfold get_repo, bind at 1. rewrite Hx.
  unfold put_git, modify, bind, ret. reflexivity.
Qed.

(** X19: after [obj.write()] succeeds, the object has the identifier the
    store assigned, [obj.sha] is its 40 lowercase hexadecimal characters,
    and that text finds the object again: it is in the repository,
    [repo.read] gives the type and the bytes the store kept,
    [obj.read_raw()] gives the same bytes, and [repo[sha]] returns a
    Borrowed wrapper of the very object that was written, whose [sha] is
    the same text. *)
Theorem Object_write_then_lookup w self o p g oid raw x ra ira :
  Object_of w self = Some o -> obj o = Some p -> git_heap w !! p = Some g ->
  store_write g = inr (oid, raw) -> oid_wf oid ->
  git_repos w !! object_owner g = Some x ->
  repo o = Some ra -> py_heap w !! ra = Some ira ->
  ob_struct ira = Repository_struct (Some (object_owner g)) ->
  let sha := PyString (git_oid_fmt oid) in
  exists w',
    Object_write self w = Some (Some PyNone, w')
    /\ py_err w' = py_err w /\ py_heap w' = py_heap w
    /\ Object_get_sha self w' = Some (Some sha, w')
    /\ String.length (git_oid_fmt oid) = 40%nat
    /\ all_lower_hex (git_oid_fmt oid) = true
    /\ Repository_contains ra sha w' = Some (1, w')
    /\ Repository_read ra sha w'
       = Some (Some [PyInt (otype_code (raw_type raw)); PyString (raw_data raw)], w')
    /\ Object_read_raw self w' = Some (Some (PyString (raw_data raw)), w')
    /\ (forall t n, wrapper_type (body_type (body g)) = Some t -> mem w = S n ->
        exists a w'',
          Repository_getitem ra sha w' = Some (Some (PyInstance a), w'')
          /\ py_heap w !! a = None
          /\ Object_of w'' a = Some (mkObject (Some ra) false (Some p))
          /\ Object_get_sha a w'' = Some (Some sha, w'')).
Proof.
  intros Ho Hp Hg Hs Hwf Hx Hra Hira Hst sha.
  destruct (format_wf oid Hwf) as (Hf1 & Hf2 & Hf3).
  pose proof (git_oid_mkstr_fmt oid Hwf) as Hparse.
  pose proof (c_string_fmt oid Hwf : c_string sha = Some (git_oid_fmt oid)) as Hcs.
  pose proof (get_obj_of w self o p Ho Hp) as Hgo.
  set (g' := mkGitObject (Some oid) (object_owner g) (body g)).
  set (x' := mkRepo (<[oid := p]> (objects x)) (<[oid := inr raw]> (odb x))).
  set (w' := mkWorld (py_err w) (py_heap w) (<[p := g']> (git_heap w))
               (<[object_owner g := x']> (git_repos w)) (mem w)).
  assert (Hw : Object_write self w = Some (Some PyNone, w')).
  { unfold Object_write. rewrite (bind_Some _ _ _ _ _ Hgo).
    rewrite (bind_Some _ _ _ _ _ (git_object_write_ok w p g oid raw x Hg Hs Hx)).
    reflexivity. }
  assert (Ho' : Object_of w' self = Some o) by exact Ho.
  assert (Hg' : git_of w' self = Some g').
  { unfold git_of. rewrite Ho', Hp. unfold w'. cbn [git_heap]. apply lookup_insert_eq. }
  assert (Hx' : repository_of w' ra = Some x').
  { unfold repository_of, w'. cbn [py_heap git_repos]. rewrite Hira, Hst.
    apply lookup_insert_eq. }
  assert (Hsha : Object_get_sha self w' = Some (Some sha, w')).
  { rewrite (Object_get_sha_spec w' self g' Hg'). cbn [object_id g']. rewrite Hf1.
    reflexivity. }
  exists w'. split; [exact Hw|]. split; [reflexivity|]. split; [reflexivity|].
  split; [exact Hsha|]. split; [exact Hf2|]. split; [exact Hf3|].
  split.
  { rewrite (Repository_contains_wellformed w' ra x' sha _ oid Hx' Hcs Hparse).
    unfold x'. cbn [odb]. rewrite lookup_insert_eq. reflexivity. }
  split.
  { rewrite (Repository_read_wellformed w' ra x' sha _ oid Hx' Hcs Hparse
               "str"%string eq_refl).
    unfold x'. cbn [odb]. rewrite lookup_insert_eq. reflexivity. }
  destruct (repository_of_inv _ _ _ Hx') as (r & Hr & Hgr).
  split.
  { pose proof (Object_read_raw_spec w' self g' Hg') as Hrr.
    cbn [object_id g'] in Hrr.
    rewrite (Hrr o ra r Ho' Hra Hr).
    unfold Repository_read_raw, git_odb_read.
    rewrite (bind_Some _ _ _ _ _ Hgr). unfold ret, x'. cbn [odb].
    rewrite lookup_insert_eq. reflexivity. }
  intros t n Hty Hm.
  assert (Hgp' : git_heap w' !! p = Some g')
    by (unfold w'; cbn [git_heap]; apply lookup_insert_eq).
  assert (Hin : is_Some (py_heap w' !! ra)) by (unfold w'; cbn [py_heap]; eauto).
  set (a := fresh (dom (py_heap w))).
  assert (Ha : py_heap w !! a = None) by apply fresh_heap.
  assert (Hne : ra <> a) by (intros ->; congruence).
  pose proof (wrap_object_plain_world w' p ra g' t n Hgp' Hty Hm Hin) as Hwrap.
  change (fresh (dom (py_heap w'))) with a in Hwrap.
  match type of Hwrap with _ = Some (_, ?W) => set (w2 := W) in * end.
  assert (H2a : py_heap w2 !! a
                = Some (mkInst 1 t (Object_struct (mkObject (Some ra) false (Some p))))).
  { unfold w2. cbn [py_heap]. rewrite lookup_alter_ne by exact Hne.
    apply lookup_insert_eq. }
  exists a. eexists. split.
  { unfold Repository_getitem.
    rewrite (bind_Some _ _ _ _ _ (py_str_to_git_oid_c_string sha _ w' Hcs)), Hparse.
    rewrite (bind_Some _ _ _ _ _ Hr).
    rewrite (bind_Some _ _ _ _ _
               (lookup_finds w' r x' oid p g' Hgr
                  ltac:(unfold x'; cbn [objects]; apply lookup_insert_eq) Hgp')).
    rewrite (bind_Some _ _ _ _ _ Hwrap).
    unfold set_own_obj.
    rewrite (bind_Some _ _ _ _ _
               (set_field_fwd (fun o => mkObject (repo o) false (obj o)) a w2 _ _
                  H2a eq_refl)).
    reflexivity. }
  split; [exact Ha|].
  match goal with |- Object_of ?W a = _ /\ _ => set (w3 := W) end.
  assert (Ho3 : Object_of w3 a = Some (mkObject (Some ra) false (Some p))).
  { unfold Object_of, w3. cbn [py_heap set_py_heap]. rewrite lookup_insert_eq. reflexivity. }
  split; [exact Ho3|].
  assert (Hg3 : git_of w3 a = Some g').
  { unfold git_of. rewrite Ho3. cbn [obj]. exact Hgp'. }
  rewrite (Object_get_sha_spec w3 a g' Hg3). cbn [object_id g']. rewrite Hf1. reflexivity.
Qed.

(** X20: when the store refuses the write, [obj.write()] returns [NULL]
    with the exception of the error translator for the code, given the
    current [sha] of the object as context ([None] for an object never
    written), and changes nothing but the error indicator: the object
    keeps the identifier, or the lack of one, that it had. *)
Theorem Object_write_failure_changes_nothing w self o p g err :
  Object_of w self = Some o -> obj o = Some p -> git_heap w !! p = Some g ->
  store_write g = inl err ->
  let py_sha := match object_id g with
                | None => PyNone
                | Some id => PyString_FromStringAndSize (git_oid_fmt id) GIT_OID_HEXSZ
                end in
  let n := match object_id g with None => "NoneType" | Some _ => "str" end%string in
  let w' := set_py_err (Some (raised_for err py_sha n)) w in
  Object_write self w = Some (None, w')
  /\ git_of w' self = Some g
  /\ Object_get_sha self w' = Some (Some py_sha, w')
  /\ py_heap w' = py_heap w /\ git_heap w' = git_heap w /\ git_repos w' = git_repos w.
Proof.
  intros Ho Hp Hg Hs py_sha n w'.
  pose proof (get_obj_of w self o p Ho Hp) as Hgo.
  assert (Hgit : git_of w self = Some g) by (unfold git_of; rewrite Ho, Hp; exact Hg).
  split; [|split; [exact Hgit|split; [|auto]]].
  - unfold Object_write. rewrite (bind_Some _ _ _ _ _ Hgo).
    assert (Hw : git_object_write p w = Some (inl err, w)).
    { unfold git_object_write, get_git, bind. rewrite Hg, Hs. reflexivity. }
    rewrite (bind_Some _ _ _ _ _ Hw).
    rewrite (bind_Some _ _ _ _ _ (Object_get_sha_spec w self g Hgit)).
    cbn [nonnull]. unfold bind at 1. cbn [ret].
    apply Error_set_py_str_raised'. subst py_sha n.
    destruct (object_id g); reflexivity.
  - apply (Object_get_sha_spec w' self g Hgit).
Qed.

(** ** Text attributes *)

(** X21: the text setters of tags and commits test the value before they
    call libgit2.  A value that is no [str], a [unicode] included, is
    refused with [TypeError] naming the attribute and the type of the
    value; the setter returns -1, libgit2 is not called and nothing but
    the error indicator changes.  A [str] is handed to the libgit2 setter
    as the C string it holds, its characters before the first NUL.  The
    getters of a tag turn a missing name or message into [None]. *)
Theorem text_setters_reject_non_str
  (git_commit_set_message git_tag_set_name git_tag_set_message : gptr -> string -> M unit)
  (git_tag_name git_tag_message : gptr -> M (option string))
  w self v n :
  ob_type_name v w = Some (n, w) ->
  (PyString_Check v = false ->
   Commit_set_message git_commit_set_message self v w
   = Some (-1, set_py_err
                 (Some (mkErr PyExc_TypeError
                          (ExcString ("message must be str, not " +:+ s200 n)))) w)
   /\ Tag_set_name git_tag_set_name self v w
      = Some (-1, set_py_err
                    (Some (mkErr PyExc_TypeError
                             (ExcString ("name must be str, not " +:+ s200 n)))) w)
   /\ Tag_set_message git_tag_set_message self v w
      = Some (-1, set_py_err
                    (Some (mkErr PyExc_TypeError
                             (ExcString ("message must be str, not " +:+ s200 n)))) w))
  /\ (forall s p, v = PyString s -> get_obj self w = Some (p, w) ->
      Commit_set_message git_commit_set_message self v w
      = (git_commit_set_message p (c_str s) ;; ret 0) w
      /\ Tag_set_name git_tag_set_name self v w
         = (git_tag_set_name p (c_str s) ;; ret 0) w
      /\ Tag_set_message git_tag_set_message self v w
         = (git_tag_set_message p (c_str s) ;; ret 0) w)
  /\ (forall p, get_obj self w = Some (p, w) ->
      (git_tag_name p w = Some (None, w) ->
       Tag_get_name git_tag_name self w = Some (Some PyNone, w))
      /\ (git_tag_message p w = Some (None, w) ->
          Tag_get_message git_tag_message self w = Some (Some PyNone, w))).
Proof.
  intros Hn. split; [|split].
  - intros Hc. unfold Commit_set_message, Tag_set_name, Tag_set_message.
    rewrite Hc. cbn [negb]. rewrite !(bind_Some _ _ _ _ _ Hn). auto.
  - intros s p -> Hp. unfold Commit_set_message, Tag_set_name, Tag_set_message.
    cbn [PyString_Check negb PyString_AsString c_string text_of PyString_AS_STRING].
    rewrite !(bind_Some _ _ _ _ _ Hp).
    split; [|split].
    + unfold bind at 1. reflexivity.
    + unfold bind at 1. cbn [ret]. rewrite (bind_Some _ _ _ _ _ Hp). reflexivity.
    + unfold bind at 1. reflexivity.
  - intros p Hp. unfold Tag_get_name, Tag_get_message.
    rewrite !(bind_Some _ _ _ _ _ Hp). split; intros H; rewrite (bind_Some _ _ _ _ _ H);
      reflexivity.
Qed.

(** ** Opening and closing a repository *)

Lemma Repository_dealloc_last w a r :
  py_heap w !! a = Some (mkInst 1 RepositoryType (Repository_struct r)) ->
  Py_DECREF a w
  = Some (tt,
          mkWorld (py_err w) (delete a (py_heap w)) (git_heap w)
            (match r with
             | Some r => delete r (git_repos w)
             | None => git_repos w
             end) (mem w)).
Proof.
  intros Hi.
  destruct (Py_DECREF_last a w _ Hi eq_refl) as (fuel & ->).
  cbn [ob_type ob_struct tp_dealloc].
  unfold Repository_dealloc, get_inst, bind at 1. cbn [py_heap set_py_heap].
  rewrite lookup_insert_eq. cbn [ob_struct].
  destruct r as [r|]; unfold bind, git_repository_free, tp_free, modify, ret;
    cbn [py_heap set_py_heap set_git_repos py_err git_heap git_repos mem];
    rewrite delete_insert_eq; reflexivity.
Qed.

(** X22: [Repository(path)] on the root of a repository, with one
    allocation left, returns a new [Repository] object with one
    reference that holds a new handle to the repository at the path;
    dropping that reference closes the handle and frees the object, so
    that the instances, the handles and the libgit2 objects are as before
    the call.  The root of a repository is a path, so the text given
    holds no NUL, and the argument parser accepts it. *)
Theorem Repository_open_close w v path x n :
  text_of v = Some path -> repository_at path = Some x -> mem w = S n ->
  exists a r w1 w2,
    type_call RepositoryType Repository_init [v] None w = Some (Some a, w1)
    /\ py_heap w !! a = None /\ git_repos w !! r = None
    /\ py_heap w1 !! a = Some (mkInst 1 RepositoryType (Repository_struct (Some r)))
    /\ repository_of w1 a = Some x
    /\ git_repos w1 = <[r := x]> (git_repos w)
    /\ py_err w1 = py_err w /\ git_heap w1 = git_heap w
    /\ Py_DECREF a w1 = Some (tt, w2)
    /\ py_heap w2 = py_heap w /\ git_repos w2 = git_repos w
    /\ git_heap w2 = git_heap w /\ py_err w2 = py_err w.
Proof.
  intros Hc Hx Hm.
  pose proof (repository_at_C_string path x Hx) as Hnul.
  set (a := fresh (dom (py_heap w))).
  set (r := fresh (dom (git_repos w))).
  assert (Ha : py_heap w !! a = None) by apply fresh_heap.
  assert (Hr : git_repos w !! r = None) by apply fresh_heap.
  set (w1 := mkWorld (py_err w)
               (<[a := mkInst 1 RepositoryType (Repository_struct (Some r))]> (py_heap w))
               (git_heap w) (<[r := x]> (git_repos w)) n).
  assert (Hcall : type_call RepositoryType Repository_init [v] None w = Some (Some a, w1)).
  { unfold type_call. rewrite (bind_Some _ _ _ _ _ (tp_alloc_ok RepositoryType w _ Hm)).
    fold a. unfold Repository_init, PyArg_ParseTuple_s.
    rewrite bind_bind, (bind_Some _ _ _ _ _ (convert_s_text v path _ Hc Hnul)).
    rewrite bind_bind.
    unfold bind at 1. unfold git_repository_open at 1. rewrite Hx.
    cbn [git_repos set_mem set_py_heap]. fold r.
    unfold put_Repository, get_inst, put_inst, modify, bind, ret.
    cbn [py_heap set_git_repos set_mem set_py_heap]. rewrite lookup_insert_eq.
    cbn [ob_struct ob_refcnt ob_type zeroed Z.ltb Z.compare].
    unfold w1, set_py_heap, set_git_repos, set_mem.
    cbn [py_heap py_err git_heap git_repos mem].
    rewrite insert_insert_eq. reflexivity. }
  assert (H1a : py_heap w1 !! a
                = Some (mkInst 1 RepositoryType (Repository_struct (Some r))))
    by (unfold w1; cbn [py_heap]; apply lookup_insert_eq).
  exists a, r, w1. eexists. split; [exact Hcall|].
  split; [exact Ha|]. split; [exact Hr|]. split; [exact H1a|].
  split.
  { unfold repository_of. rewrite H1a. cbn [ob_struct]. unfold w1. cbn [git_repos].
    apply lookup_insert_eq. }
  split; [reflexivity|]. split; [reflexivity|]. split; [reflexivity|].
  split; [apply (Repository_dealloc_last w1 a (Some r) H1a)|].
  cbn [py_heap git_repos git_heap py_err w1].
  split; [apply delete_insert_id; exact Ha|].
  split; [apply delete_insert_id; exact Hr|]. auto.
Qed.

(** X23: [Repository(...)] that fails leaves nothing behind.  Keywords
    raise [TypeError] before the arguments are looked at; a call without
    exactly one argument that has a text with no NUL inside raises an
    error of the argument parser; a path with no NUL inside that is not
    the root of a repository raises [RuntimeError] naming the path.  In
    each case the instance that was allocated is released again, no
    handle is left open, and nothing but the error indicator changes. *)
Theorem failed_open_leaves_nothing w args kwds n :
  mem w = S n ->
  let left e := mkWorld (Some e) (py_heap w) (git_heap w) (git_repos w) n in
  (is_Some kwds ->
   type_call RepositoryType Repository_init args kwds w
   = Some (None,
           left (mkErr PyExc_TypeError
                   (ExcString "Repository takes no keyword arugments"))))
  /\ (kwds = None ->
      (forall o s, args = [o] -> text_of o = Some s -> c_str s <> s) ->
      exists e, type_call RepositoryType Repository_init args kwds w
                = Some (None, left e))
  /\ (forall o path,
        kwds = None -> args = [o] -> text_of o = Some path -> c_str path = path ->
        repository_at path = None ->
        type_call RepositoryType Repository_init args kwds w
        = Some (None,
                left (mkErr PyExc_RuntimeError
                        (ExcString ("Failed to open repo directory at " +:+ path))))).
Proof.
  intros Hm left.
  set (a := fresh (dom (py_heap w))).
  assert (Ha : py_heap w !! a = None) by apply fresh_heap.
  assert (Hrel : forall e,
            Py_DECREF a
              (set_py_err (Some e)
                 (set_mem n
                    (set_py_heap
                       (<[a := mkInst 1 RepositoryType (Repository_struct None)]>
                          (py_heap w)) w)))
            = Some (tt, left e)).
  { intros e.
    match goal with |- Py_DECREF a ?W = _ => set (w2 := W) end.
    assert (H2 : py_heap w2 !! a
                 = Some (mkInst 1 RepositoryType (Repository_struct None)))
      by (unfold w2; cbn [py_heap set_py_err set_mem set_py_heap]; apply lookup_insert_eq).
    rewrite (Repository_dealloc_last w2 a None H2).
    unfold left, w2.
    cbn [py_heap set_py_err set_mem set_py_heap py_err git_heap git_repos mem].
    rewrite (delete_insert_id _ _ _ Ha). reflexivity. }
  set (w1 := set_mem n
               (set_py_heap
                  (<[a := mkInst 1 RepositoryType (Repository_struct None)]> (py_heap w)) w)).
  assert (Hfin : forall e,
            Repository_init a args kwds w1 = Some (-1, set_py_err (Some e) w1) ->
            type_call RepositoryType Repository_init args kwds w = Some (None, left e)).
  { intros e He. unfold type_call.
    rewrite (bind_Some _ _ _ _ _ (tp_alloc_ok RepositoryType w _ Hm)). fold a.
    cbn [zeroed]. fold w1. rewrite (bind_Some _ _ _ _ _ He).
    cbn [Z.ltb Z.compare]. unfold w1.
    rewrite (bind_Some _ _ _ _ _ (Hrel e)). reflexivity. }
  split; [|split].
  - intros [k ->]. apply Hfin. reflexivity.
  - intros -> Hargs.
    assert (Hparse : exists e,
              PyArg_ParseTuple_s args w1 = Some (None, set_py_err (Some e) w1)).
    { unfold PyArg_ParseTuple_s.
      destruct args as [|o [|o' args]]; try (eexists; reflexivity).
      rewrite (convert_s_refused o w1 (fun s => Hargs o s eq_refl)).
      eexists. reflexivity. }
    destruct Hparse as (e & He). exists e. apply Hfin.
    cbn [Repository_init]. rewrite (bind_Some _ _ _ _ _ He). reflexivity.
  - intros o path -> -> Hc Hnul Hno. apply Hfin.
    cbn [Repository_init]. unfold PyArg_ParseTuple_s.
    unfold bind at 1. rewrite (convert_s_text o path _ Hc Hnul).
    unfold bind at 1. unfold git_repository_open at 1. rewrite Hno.
    unfold put_Repository, get_inst, put_inst, PyErr_Format, PyErr_Set, modify, bind, ret.
    unfold w1 at 1. cbn [py_heap set_mem set_py_heap]. rewrite lookup_insert_eq.
    cbn [ob_struct ob_refcnt ob_type].
    unfold w1, set_py_err, set_py_heap, set_mem.
    cbn [py_heap py_err git_heap git_repos mem].
    rewrite insert_insert_eq. reflexivity.
Qed.

End more_proofs.

Import Git Py CInt CPython Libgit2 Obs CPython2 Libgit2_more Obs2 Example Scenario.

Lemma Error_translator_always_raises_witness :
  Error_set_py_str (ext:=ext0) (A:=PyObject) GIT_EOBJCORRUPTED (PyString hex_a)
    (set_py_err (Some TypeError_key) w0)
  = Some (None,
          set_py_err
            (Some (mkErr GitError
                     (ExcString "Corrupted object: aaaaaaaaaaaaaaaaaaaaaaaaaaaaaaaaaaaaaaaa")))
            w0).
Proof.
  exact (proj1 (Error_translator_always_raises (ext:=ext0) w0 GIT_EOBJCORRUPTED
                  (PyString hex_a) "str" (Some TypeError_key) eq_refl)).
Defined.

Lemma Repository_contains_answers_store_witness :
  Repository_contains (ext:=ext0) 0%nat (PyString hex_a) w0 = Some (1, w0)
  /\ Repository_contains (ext:=ext0) 0%nat (PyString hex_b) w0 = Some (0, w0)
  /\ Repository_contains (ext:=ext0) 0%nat (PyString "xyz") w0
     = Some (-1, set_py_err
                   (Some (mkErr PyExc_ValueError (ExcString "Invalid hex SHA: 'xyz'"))) w0).
Proof.
  pose proof (Repository_contains_answers_store (ext:=ext0) w0 0%nat repo0) as H.
  split; [|split].
  - exact (proj1 (H (PyString hex_a) "str"%string eq_refl eq_refl) hex_a oid_a eq_refl eq_refl).
  - exact (proj1 (H (PyString hex_b) "str"%string eq_refl eq_refl) hex_b oid_b eq_refl eq_refl).
  - apply (proj2 (H (PyString "xyz") "str"%string eq_refl eq_refl)).
    intros s Hs. injection Hs as <-. reflexivity.
Defined.

Lemma Repository_read_answers_store_witness :
  Repository_read (ext:=ext0) 0%nat (PyString hex_a) w0
  = Some (Some [PyInt 3; PyString "hello"], w0)
  /\ Repository_read (ext:=ext0) 0%nat (PyString hex_b) w0
     = Some (None, set_py_err (Some (KeyError (PyString hex_b))) w0).
Proof.
  pose proof (Repository_read_answers_store (ext:=ext0) w0 0%nat repo0) as H.
  split.
  - exact (proj1 (H (PyString hex_a) "str"%string eq_refl eq_refl) hex_a oid_a eq_refl eq_refl).
  - exact (proj1 (H (PyString hex_b) "str"%string eq_refl eq_refl) hex_b oid_b eq_refl eq_refl).
Defined.

Lemma Object_dealloc_frees_only_owned_witness :
  exists w',
    Py_DECREF 2%nat w_tag_blob = Some (tt, w')
    /\ py_heap w' !! 2%nat = None
    /\ py_heap w' !! 0%nat
       = Some (mkInst (3 - 1) RepositoryType (Repository_struct (Some 0%nat)))
    /\ (forall b, b <> 2%nat -> b <> 0%nat -> py_heap w' !! b = py_heap w_tag_blob !! b)
    /\ git_heap w' = delete 2%nat (git_heap w_tag_blob)
    /\ py_err w' = py_err w_tag_blob /\ git_repos w' = git_repos w_tag_blob.
Proof.
  apply (Object_dealloc_frees_only_owned w_tag_blob 2%nat BlobType
           (mkObject (Some 0%nat) true (Some 2%nat)) 2%nat 0%nat
           (mkInst 3 RepositoryType (Repository_struct (Some 0%nat)))).
  - vm_compute. reflexivity.
  - auto.
  - reflexivity.
  - reflexivity.
  - discriminate.
  - vm_compute. reflexivity.
  - discriminate.
Defined.

Lemma Tag_dealloc_keeps_handle_and_repository_witness :
  exists w',
    Py_DECREF 1%nat w_tag = Some (tt, w')
    /\ py_heap w' !! 1%nat = None
    /\ git_heap w' = git_heap w_tag
    /\ refcnt_of w' 0%nat = refcnt_of w_tag 0%nat.
Proof.
  destruct (Tag_dealloc_keeps_handle_and_repository w_tag 1%nat
              (mkObject (Some 0%nat) true (Some 1%nat)) None)
    as (w' & H1 & H2 & H3 & _ & _ & H6 & _).
  - vm_compute. reflexivity.
  - exact I.
  - exists w'. split; [exact H1|]. split; [exact H2|]. split; [exact H3|].
    apply (H6 0%nat eq_refl); discriminate.
Defined.

Lemma constructor_builds_owned_object_witness :
  exists a p b w',
    type_call BlobType Blob_init [PyInstance 0%nat] None w0 = Some (Some a, w')
    /\ py_heap w0 !! a = None /\ git_heap w0 !! p = None
    /\ py_heap w' !! a
       = Some (mkInst 1 BlobType
                 (Object_struct (mkObject (Some 0%nat) true (Some p))))
    /\ py_heap w' !! 0%nat
       = Some (incr (mkInst 1 RepositoryType (Repository_struct (Some 0%nat))))
    /\ (forall x, x <> a -> x <> 0%nat -> py_heap w' !! x = py_heap w0 !! x)
    /\ new_body GIT_OBJ_BLOB = Some b
    /\ git_heap w' = <[p := mkGitObject None 0%nat b]> (git_heap w0)
    /\ Object_get_type a w' = Some (Some (PyInt 3), w')
    /\ py_err w' = py_err w0 /\ git_repos w' = git_repos w0 /\ mem w' = 14%nat.
Proof.
  apply (constructor_builds_owned_object (fs:=fs0) w0 BlobType Blob_init GIT_OBJ_BLOB
           0%nat (mkInst 1 RepositoryType (Repository_struct (Some 0%nat))) 0%nat 14%nat);
    vm_compute; reflexivity.
Defined.

Lemma failed_construction_leaves_nothing_witness :
  exists v w',
    type_call TagType Tag_init [PyInt 5] None w0 = Some (None, w')
    /\ py_err w' = Some (mkErr PyExc_TypeError v)
    /\ py_heap w' = py_heap w0 /\ git_heap w' = git_heap w0
    /\ git_repos w' = git_repos w0.
Proof.
  apply (proj1 (failed_construction_leaves_nothing (fs:=fs0) w0 TagType Tag_init
                  GIT_OBJ_TAG [PyInt 5] None eq_refl eq_refl)).
  - vm_compute. lia.
  - right. right. exists (PyInt 5). split; [reflexivity|exact I].
Defined.

Lemma construct_then_drop_witness :
  exists a w1 w2,
    type_call BlobType Blob_init [PyInstance 0%nat] None w0 = Some (Some a, w1)
    /\ Py_DECREF a w1 = Some (tt, w2)
    /\ py_err w2 = py_err w0 /\ git_repos w2 = git_repos w0
    /\ py_heap w2 = py_heap w0 /\ git_heap w2 = git_heap w0.
Proof.
  apply (construct_then_drop (fs:=fs0) w0 BlobType Blob_init GIT_OBJ_BLOB
           0%nat (mkInst 1 RepositoryType (Repository_struct (Some 0%nat))) 0%nat 14%nat);
    try (vm_compute; reflexivity).
Defined.

Lemma Tag_get_target_wraps_anew_witness :
  exists a w',
    Tag_get_target 1%nat w_tag_set = Some (Some (PyInstance a), w')
    /\ py_heap w_tag_set !! a = None
    /\ py_heap w' !! a
       = Some (mkInst 1 BlobType
                 (Object_struct (mkObject (Some 0%nat) false (Some 2%nat))))
    /\ a <> 2%nat.
Proof.
  destruct (Tag_get_target_wraps_anew w_tag_set 1%nat
              (mkObject (Some 0%nat) true (Some 1%nat)) 1%nat
              (mkGitObject None 0%nat (Tag_body (Some 2%nat) GIT_OBJ_BLOB))
              (Some 2%nat) GIT_OBJ_BLOB
              ltac:(vm_compute; reflexivity) eq_refl
              ltac:(vm_compute; reflexivity) eq_refl
              0%nat (mkGitObject None 0%nat Blob_body) BlobType 11%nat
              eq_refl
              ltac:(vm_compute; eauto)
              ltac:(vm_compute; reflexivity) eq_refl
              ltac:(vm_compute; reflexivity))
    as (a & w' & H1 & H2 & H3 & _ & _ & H6 & _).
  exists a, w'. split; [exact H1|]. split; [exact H2|]. split; [exact H3|].
  apply H6; vm_compute; eauto.
Defined.

Lemma Repository_getitem_tag_witness :
  exists a b w',
    Repository_getitem (ext:=ext0) 0%nat (PyString hex_b) w_store_tag
    = Some (Some (PyInstance a), w')
    /\ py_heap w_store_tag !! a = None /\ py_heap w_store_tag !! b = None /\ a <> b
    /\ py_heap w' !! a
       = Some (mkInst 1 TagType
                 (Tag_struct (mkObject (Some 0%nat) false (Some 1%nat)) (Some b)))
    /\ py_heap w' !! b
       = Some (mkInst 2 BlobType
                 (Object_struct (mkObject (Some 0%nat) false (Some 0%nat))))
    /\ refcnt_of w' 0%nat = (fun c => c + 2) <$> refcnt_of w_store_tag 0%nat
    /\ (forall c, c <> a -> c <> b -> c <> 0%nat ->
        py_heap w' !! c = py_heap w_store_tag !! c)
    /\ py_err w' = py_err w_store_tag /\ git_heap w' = git_heap w_store_tag
    /\ mem w' = 14%nat.
Proof.
  apply (proj1 (Repository_getitem_tag (ext:=ext0) w_store_tag 0%nat
                  repo_tag (PyString hex_b) hex_b oid_b 1%nat
                  (mkGitObject (Some oid_b) 0%nat (Tag_body (Some 0%nat) GIT_OBJ_BLOB))
                  0%nat GIT_OBJ_BLOB
                  (mkGitObject (Some oid_a) 0%nat Blob_body) BlobType
                  ltac:(vm_compute; reflexivity) eq_refl eq_refl
                  ltac:(vm_compute; reflexivity)
                  ltac:(vm_compute; reflexivity) eq_refl
                  ltac:(vm_compute; reflexivity) eq_refl)).
  vm_compute. reflexivity.
Defined.

Lemma Tree_contains_iff_named_entry_witness :
  Tree_contains 1%nat (PyString "b") w_tree = Some (1, w_tree)
  /\ Tree_contains 1%nat (PyString "z") w_tree = Some (0, w_tree).
Proof.
  split.
  - destruct (Tree_contains_iff_named_entry w_tree 1%nat abc (PyString "b") "b"
                ltac:(vm_compute; reflexivity) eq_refl) as (r & Hc & H1 & _).
    rewrite Hc. f_equal. f_equal. apply H1.
    apply Exists_cons_tl, Exists_cons_hd. reflexivity.
  - destruct (Tree_contains_iff_named_entry w_tree 1%nat abc (PyString "z") "z"
                ltac:(vm_compute; reflexivity) eq_refl) as (r & Hc & _ & H0 & _).
    rewrite Hc. f_equal. f_equal. apply H0.
    repeat constructor; discriminate.
Defined.

Lemma Tree_add_entry_then_get_witness :
  exists w1 es1,
    Tree_add_entry (ext:=ext0) 1%nat [PyString hex_b; PyString "d"; PyInt 33188] w_tree
    = Some (Some PyNone, w1)
    /\ py_err w1 = py_err w_tree
    /\ entries_of w1 1%nat = Some es1
    /\ List.length es1 = 4%nat
    /\ (forall e, e ∈ abc -> e ∈ es1)
    /\ Tree_len 1%nat w1 = Some (3 + 1, w1)
    /\ Tree_contains 1%nat (PyString "d") w1 = Some (1, w1)
    /\ exists a w2,
         Tree_getitem 1%nat (PyString "d") w1 = Some (Some a, w2)
         /\ TreeEntry_get_name a w2 = Some (Some (PyString "d"), w2)
         /\ TreeEntry_get_attributes a w2 = Some (Some (PyInt 33188), w2)
         /\ TreeEntry_get_sha a w2
            = Some (Some (PyString "bbbbbbbbbbbbbbbbbbbbbbbbbbbbbbbbbbbbbbbb"), w2).
Proof.
  apply (Tree_add_entry_then_get (ext:=ext0) w_tree 1%nat abc (PyString hex_b) hex_b
           "d" 33188 9%nat).
  - vm_compute. reflexivity.
  - reflexivity.
  - reflexivity.
  - reflexivity.
  - vm_compute. split; discriminate.
  - discriminate.
  - repeat constructor; discriminate.
  - vm_compute. reflexivity.
  - vm_compute. reflexivity.
Defined.

Lemma Tree_add_entry_failures_witness :
  Tree_add_entry (ext:=ext0) 1%nat [PyString hex_a; PyString b_NUL_zz; PyInt 33188] w_tree
  = Some (None, set_py_err (Some (mkErr PyExc_TypeError ExcInternal)) w_tree)
  /\ Tree_add_entry (ext:=ext0) 1%nat
       [PyString hex_a; PyString "d"; PyNumber "float" true (nb_int_value 1)] w_tree
     = Some (None, set_py_err (Some (mkErr PyExc_TypeError ExcInternal)) w_tree)
  /\ Tree_add_entry (ext:=ext0) 1%nat
       [PyString hex_a; PyString "d"; PyLong (2 ^ 31)] w_tree
     = Some (None, set_py_err (Some (mkErr PyExc_OverflowError ExcInternal)) w_tree).
Proof.
  destruct (Tree_add_entry_failures (ext:=ext0) w_tree 1%nat) as (_ & Hname & Hattr & _).
  split; [|split].
  - apply (Hname (PyString hex_a) (PyString b_NUL_zz) (PyInt 33188)).
    intros s H. injection H as <-. discriminate.
  - apply (proj1 (Hattr (PyString hex_a) (PyString "d") "d"%string
                    (PyNumber "float" true (nb_int_value 1)) eq_refl eq_refl)).
    reflexivity.
  - apply (proj2 (proj2 (Hattr (PyString hex_a) (PyString "d") "d"%string
                           (PyLong (2 ^ 31)) eq_refl eq_refl)) (2 ^ 31));
      [reflexivity | reflexivity | right; vm_compute; reflexivity].
Defined.

Lemma new_tree_is_empty_witness :
  entries_of w_new_tree 1%nat = Some []
  /\ Tree_len 1%nat w_new_tree = Some (0, w_new_tree)
  /\ Tree_getitem 1%nat (PyInt (-1)) w_new_tree
     = Some (None, set_py_err (Some (IndexError (PyInt (-1)))) w_new_tree).
Proof.
  destruct (new_tree_is_empty w0 [PyInstance 0%nat] None 1%nat w_new_tree
              ltac:(vm_compute; reflexivity)) as (H1 & H2 & _ & H4).
  split; [exact H1|]. split; [exact H2|].
  exact (proj1 (H4 eq_refl (-1))).
Defined.

Lemma TreeEntry_accessors_roundtrip_witness :
  TreeEntry_get_name 2%nat w_entry = Some (Some (PyString "a"), w_entry)
  /\ TreeEntry_get_attributes 2%nat w_entry = Some (Some (PyInt 33188), w_entry)
  /\ exists w',
       TreeEntry_set_name 2%nat (PyUnicode (Some "x"%string)) w_entry = Some (0, w')
       /\ entries_of w' 1%nat
          = Some [mkEntry "x" 33188 oid_a; mkEntry "b" 33188 oid_a; mkEntry "c" 33188 oid_a]
       /\ TreeEntry_get_name 2%nat w' = Some (Some (PyString "x"), w').
Proof.
  destruct (TreeEntry_accessors_roundtrip (ext:=ext0) w_entry 2%nat 1 TreeEntryType
              0%nat 1%nat abc (mkEntry "a" 33188 oid_a)
              ltac:(vm_compute; reflexivity) ltac:(vm_compute; reflexivity) eq_refl)
    as ((H1 & H2 & _) & Hname & _).
  split; [exact H1|]. split; [exact H2|].
  destruct (Hname (PyUnicode (Some "x"%string)) "x"%string eq_refl)
    as (w' & Hs & He & Hg & _).
  exists w'. auto.
Defined.

Lemma TreeEntry_setters_reject_witness :
  TreeEntry_set_attributes 2%nat (PyString "x") w_entry
  = Some (-1, set_py_err (Some (mkErr PyExc_TypeError ExcInternal)) w_entry)
  /\ TreeEntry_set_sha (ext:=ext0) 2%nat (PyString "xyz") w_entry
     = Some (-1, set_py_err
                   (Some (mkErr PyExc_ValueError (ExcString "Invalid hex SHA: 'xyz'")))
                   w_entry).
Proof.
  destruct (TreeEntry_setters_reject (ext:=ext0) w_entry 2%nat)
    as (Hattr & _ & _ & _ & Hsha).
  split.
  - apply (Hattr (PyString "x")). reflexivity.
  - apply (Hsha (PyString "xyz") "str"%string); [|reflexivity].
    intros s H. injection H as <-. reflexivity.
Defined.

Lemma TreeEntry_to_object_resolves_witness :
  exists b w',
    TreeEntry_to_object 2%nat w_entry = Some (Some (PyInstance b), w')
    /\ py_heap w_entry !! b = None
    /\ py_heap w' !! b
       = Some (mkInst 1 BlobType
                 (Object_struct (mkObject (Some 0%nat) false (Some 0%nat)))).
Proof.
  destruct (TreeEntry_to_object_resolves w_entry 2%nat 1 TreeEntryType 0%nat 1%nat abc
              (mkEntry "a" 33188 oid_a)
              (mkGitObject None 0%nat (Tree_body abc)) repo0
              (mkObject (Some 0%nat) true (Some 1%nat)) 0%nat
              ltac:(vm_compute; reflexivity) ltac:(vm_compute; reflexivity) eq_refl
              ltac:(split; [reflexivity | repeat constructor])
              ltac:(vm_compute; reflexivity) ltac:(vm_compute; reflexivity)
              ltac:(vm_compute; reflexivity) eq_refl ltac:(vm_compute; eauto))
    as (_ & Hfound).
  destruct (Hfound 0%nat (mkGitObject (Some oid_a) 0%nat Blob_body) BlobType 9%nat
              ltac:(vm_compute; reflexivity) ltac:(vm_compute; reflexivity) eq_refl
              ltac:(vm_compute; reflexivity))
    as (b & w' & H1 & H2 & H3 & _).
  exists b, w'. auto.
Defined.

Lemma Object_write_then_lookup_witness :
  exists w',
    Object_write (ext:=ext1) 2%nat w_tag_blob = Some (Some PyNone, w')
    /\ Object_get_sha 2%nat w'
       = Some (Some (PyString "bbbbbbbbbbbbbbbbbbbbbbbbbbbbbbbbbbbbbbbb"), w')
    /\ Repository_contains (ext:=ext1) 0%nat
         (PyString "bbbbbbbbbbbbbbbbbbbbbbbbbbbbbbbbbbbbbbbb") w' = Some (1, w')
    /\ Repository_read (ext:=ext1) 0%nat
         (PyString "bbbbbbbbbbbbbbbbbbbbbbbbbbbbbbbbbbbbbbbb") w'
       = Some (Some [PyInt 3; PyString "data"], w').
Proof.
  destruct (Object_write_then_lookup (ext:=ext1) w_tag_blob 2%nat
              (mkObject (Some 0%nat) true (Some 2%nat)) 2%nat
              (mkGitObject None 0%nat Blob_body) oid_b (mkRaw GIT_OBJ_BLOB "data") repo0
              0%nat (mkInst 3 RepositoryType (Repository_struct (Some 0%nat)))
              ltac:(vm_compute; reflexivity) eq_refl ltac:(vm_compute; reflexivity)
              eq_refl ltac:(split; [reflexivity | repeat constructor])
              ltac:(vm_compute; reflexivity) eq_refl ltac:(vm_compute; reflexivity)
              eq_refl)
    as (w' & H1 & _ & _ & H4 & _ & _ & H7 & H8 & _).
  exists w'. auto.
Defined.

Lemma Object_write_failure_changes_nothing_witness :
  Object_write (ext:=ext0) 2%nat w_tag_blob
  = Some (None, set_py_err (Some (mkErr GitError ExcErrno)) w_tag_blob)
  /\ git_of (set_py_err (Some (mkErr GitError ExcErrno)) w_tag_blob) 2%nat
     = Some (mkGitObject None 0%nat Blob_body).
Proof.
  destruct (Object_write_failure_changes_nothing (ext:=ext0) w_tag_blob 2%nat
              (mkObject (Some 0%nat) true (Some 2%nat)) 2%nat
              (mkGitObject None 0%nat Blob_body) GIT_EOSERR
              ltac:(vm_compute; reflexivity) eq_refl ltac:(vm_compute; reflexivity)
              eq_refl)
    as (H1 & H2 & _).
  split; [exact H1|exact H2].
Defined.

Lemma text_setters_reject_non_str_witness :
  Commit_set_message no_setter 1%nat (PyUnicode (Some "x"%string)) w0
  = Some (-1, set_py_err
                (Some (mkErr PyExc_TypeError
                         (ExcString "message must be str, not unicode"))) w0)
  /\ Tag_set_name no_setter 1%nat (PyUnicode (Some "x"%string)) w0
     = Some (-1, set_py_err
                   (Some (mkErr PyExc_TypeError
                            (ExcString "name must be str, not unicode"))) w0)
  /\ Tag_set_message no_setter 1%nat (PyUnicode (Some "x"%string)) w0
     = Some (-1, set_py_err
                   (Some (mkErr PyExc_TypeError
                            (ExcString "message must be str, not unicode"))) w0).
Proof.
  exact (proj1 (text_setters_reject_non_str no_setter no_setter no_setter
                  no_getter no_getter w0 1%nat (PyUnicode (Some "x"%string))
                  "unicode" eq_refl) eq_refl).
Defined.

Lemma Repository_open_close_witness :
  exists a r w1 w2,
    type_call RepositoryType (Repository_init (fs:=fs0)) [PyString "repo.git"] None w0
    = Some (Some a, w1)
    /\ py_heap w0 !! a = None /\ git_repos w0 !! r = None
    /\ py_heap w1 !! a = Some (mkInst 1 RepositoryType (Repository_struct (Some r)))
    /\ repository_of w1 a = Some repo0
    /\ git_repos w1 = <[r := repo0]> (git_repos w0)
    /\ py_err w1 = py_err w0 /\ git_heap w1 = git_heap w0
    /\ Py_DECREF a w1 = Some (tt, w2)
    /\ py_heap w2 = py_heap w0 /\ git_repos w2 = git_repos w0
    /\ git_heap w2 = git_heap w0 /\ py_err w2 = py_err w0.
Proof.
  apply (Repository_open_close (fs:=fs0) w0 (PyString "repo.git") "repo.git" repo0 15%nat);
    reflexivity.
Defined.

Lemma failed_open_leaves_nothing_witness :
  type_call RepositoryType (Repository_init (fs:=fs0)) [PyString "nowhere"] None w0
  = Some (None,
          mkWorld
            (Some (mkErr PyExc_RuntimeError
                     (ExcString "Failed to open repo directory at nowhere")))
            (py_heap w0) (git_heap w0) (git_repos w0) 15).
Proof.
  exact (proj2 (proj2 (failed_open_leaves_nothing (fs:=fs0) w0 [PyString "nowhere"] None
                         15%nat eq_refl))
           (PyString "nowhere") "nowhere"%string eq_refl eq_refl eq_refl eq_refl eq_refl).
Defined.
